(** * Sylverant ship server: quest native functions and the script hook engine

    A shallow embedding of [src/quest_functions.c] (the native-function
    dispatcher called by quest bytecode) and of [src/scripts.c] (the Lua
    event/handler registry and invocation gateway), with the properties
    the specification states about them.

    Conventions.
    - A [uint32_t] is a [Z] in [0, 2^32); wrap-around is written out with
      [u32].
    - Code that can run into undefined behaviour of the Lua C API or of C
      itself (a stack index that does not hold a table, an out-of-bounds
      array index, a NULL interpreter) lives in an option monad; [None] is
      undefined behaviour.
    - The mutex of [scripts.c] is not modelled: every function is a
      sequential state transformer, which is what the lock provides. *)

From Stdlib Require Import ZArith List Lia Bool String Ascii.
From stdpp Require Import base option list gmap strings.

Open Scope Z_scope.

(** ** Machine integers *)

Definition u32 (z : Z) : Z := z mod 2 ^ 32.

(** [(int)v] for a 64-bit [lua_Integer] [v]: two's complement truncation. *)
Definition to_int (z : Z) : Z := (z + 2 ^ 31) mod 2 ^ 32 - 2 ^ 31.

(** * Part I: [quest_functions.c] *)

(** Status codes of [quest_functions.h].  The header is not part of the
    sources at hand; the codes are kept symbolic. *)
Inductive quest_func_ret : Set :=
| QUEST_FUNC_RET_NO_ERROR
| QUEST_FUNC_RET_BAD_ARG_COUNT
| QUEST_FUNC_RET_BAD_RET_COUNT
| QUEST_FUNC_RET_INVALID_ARG
| QUEST_FUNC_RET_INVALID_REGISTER
| QUEST_FUNC_RET_INVALID_FUNC.

(** The case labels of the [switch] in [quest_function_dispatch]. *)
Inductive quest_func : Set :=
| QUEST_FUNC_GET_SECTION
| QUEST_FUNC_TIME
| QUEST_FUNC_CLIENT_COUNT
| QUEST_FUNC_GET_CLASS
| QUEST_FUNC_GET_GENDER
| QUEST_FUNC_GET_RACE
| QUEST_FUNC_GET_JOB
| QUEST_FUNC_GET_FLOOR
| QUEST_FUNC_GET_POSITION
| QUEST_FUNC_GET_RANDOM.

Definition genders : list Z := [0; 1; 0; 0; 0; 1; 1; 0; 1; 1; 0; 1].
Definition races : list Z := [0; 1; 2; 0; 2; 2; 0; 1; 1; 2; 0; 0].
Definition jobs : list Z := [0; 0; 0; 1; 1; 1; 2; 2; 2; 0; 2; 1].

(** [#define ATTR(x, y) (((x) < 12) ? y[(x)] : -1)]; [x] is the unsigned
    8-bit class field, so it is never negative. *)
Definition ATTR (x : Z) (y : list Z) : Z :=
  if x <? 12 then nth (Z.to_nat x) y (-1) else -1.
Definition GENDER (x : Z) : Z := ATTR x genders.
Definition RACE (x : Z) : Z := ATTR x races.
Definition JOB (x : Z) : Z := ATTR x jobs.

(** What the sources at hand leave open: the C [float] type of the
    coordinates with its conversion [(uint32_t)f], the generator state with
    [mt19937_genrand_int32], and the numeric values of the [QUEST_FUNC_*]
    case labels (a [switch] maps a value to at most one label). *)
Class QuestEnv : Type := {
  c_float : Type;
  float_to_u32 : c_float -> Z;
  rng_t : Type;
  mt19937_genrand_int32 : rng_t -> Z * rng_t;
  quest_func_of_id : Z -> option quest_func
}.

Declare Scope quest_scope.

Section QuestFunctions.

Context `{QuestEnv}.

(** The fields of [ship_client_t] the dispatcher reads. [q_stack] is a
    fixed-size array of [uint32_t]; words past the end of the list read
    as 0. *)
Record ship_client_t : Type := {
  q_stack : list Z;
  pl_v1_section : Z;
  pl_v1_ch_class : Z;
  cur_area : Z;
  x : c_float;
  y : c_float;
  z : c_float
}.

(** [lobby_t]: [clients[i]] is a pointer, NULL when the slot is empty. *)
Record lobby_t : Type := {
  clients : list (option ship_client_t);
  num_clients : Z
}.

(** What a call can change or consult outside its arguments: the
    register-sync packets sent to the caller (one per
    [send_sync_register], oldest first), the generator [l->block->rng],
    and the clock read by [time(NULL)]. *)
Record world : Type := {
  sync_sent : list (Z * Z);
  block_rng : rng_t;
  clock : Z
}.

Definition Q (A : Type) : Type := world -> A * world.
Definition qret {A} (a : A) : Q A := fun w => (a, w).
Definition qbind {A B} (m : Q A) (k : A -> Q B) : Q B :=
  fun w => let (a, w') := m w in k a w'.

Notation "m ;; k" := (qbind m (fun _ => k))
  (at level 100, k at level 200, right associativity) : quest_scope.
Local Open Scope quest_scope.

(** [c->q_stack[i]] *)
Definition q (c : ship_client_t) (i : nat) : Z := u32 (nth i (q_stack c) 0).

(** [l->clients[i]] *)
Definition client_at (l : lobby_t) (i : Z) : option ship_client_t :=
  nth (Z.to_nat i) (clients l) None.

(** Modelled from the spec: [send_sync_register] (ship_packets.c) tells
    the client to store the 32-bit word [v] in register [n] of its
    register file.  The call is recorded with the index as the caller
    computed it. *)
Definition send_sync_register (n v : Z) : Q unit :=
  fun w => (tt, {| sync_sent := sync_sent w ++ [(n, u32 v)];
                   block_rng := block_rng w;
                   clock := clock w |}).

Definition time_now : Q Z := fun w => (clock w, w).

Definition genrand : Q Z :=
  fun w => let (g, r) := mt19937_genrand_int32 (block_rng w) in
           (u32 g, {| sync_sent := sync_sent w;
                      block_rng := r;
                      clock := clock w |}).

Definition bad_reg4 (c : ship_client_t) : bool :=
  (q c 4 >? 255) || (q c 5 >? 255) || (q c 6 >? 255) || (q c 7 >? 255).

(** The common shape of the one-word queries: [field] is the value sent
    for a present member. *)
Definition sync_member (l : lobby_t) (i : Z) (reg : Z)
    (field : ship_client_t -> Z) : Q unit :=
  match client_at l i with
  | Some m => send_sync_register reg (field m)
  | None => send_sync_register reg 0xFFFFFFFF
  end.

Definition one_word_query (field : ship_client_t -> Z)
    (c : ship_client_t) (l : lobby_t) : Q quest_func_ret :=
  if negb (q c 1 =? 1) then qret QUEST_FUNC_RET_BAD_ARG_COUNT
  else if q c 3 =? 0xFFFFFFFF then
    if negb (q c 2 =? 4) then qret QUEST_FUNC_RET_BAD_RET_COUNT
    else if bad_reg4 c then qret QUEST_FUNC_RET_INVALID_REGISTER
    else
      sync_member l 0 (q c 4) field ;;
      sync_member l 1 (q c 5) field ;;
      sync_member l 2 (q c 6) field ;;
      sync_member l 3 (q c 7) field ;;
      qret QUEST_FUNC_RET_NO_ERROR
  else if q c 3 <? 4 then
    if negb (q c 2 =? 1) then qret QUEST_FUNC_RET_BAD_RET_COUNT
    else if q c 4 >? 255 then qret QUEST_FUNC_RET_INVALID_REGISTER
    else
      sync_member l (q c 3) (q c 4) field ;;
      qret QUEST_FUNC_RET_NO_ERROR
  else qret QUEST_FUNC_RET_INVALID_ARG.

Definition get_section_id := one_word_query pl_v1_section.
Definition get_char_class := one_word_query pl_v1_ch_class.
Definition get_char_gender := one_word_query (fun m => GENDER (pl_v1_ch_class m)).
Definition get_char_race := one_word_query (fun m => RACE (pl_v1_ch_class m)).
Definition get_char_job := one_word_query (fun m => JOB (pl_v1_ch_class m)).
Definition get_client_floor := one_word_query cur_area.

Definition get_time (c : ship_client_t) (l : lobby_t) : Q quest_func_ret :=
  if negb (q c 1 =? 0) then qret QUEST_FUNC_RET_BAD_ARG_COUNT
  else if negb (q c 2 =? 1) then qret QUEST_FUNC_RET_BAD_RET_COUNT
  else if q c 3 >? 255 then qret QUEST_FUNC_RET_INVALID_REGISTER
  else
    qbind time_now (fun t =>
    send_sync_register (q c 3) t ;;
    qret QUEST_FUNC_RET_NO_ERROR).

Definition get_client_count (c : ship_client_t) (l : lobby_t)
    : Q quest_func_ret :=
  if negb (q c 1 =? 0) then qret QUEST_FUNC_RET_BAD_ARG_COUNT
  else if negb (q c 2 =? 1) then qret QUEST_FUNC_RET_BAD_RET_COUNT
  else if q c 3 >? 255 then qret QUEST_FUNC_RET_INVALID_REGISTER
  else
    send_sync_register (q c 3) (num_clients l) ;;
    qret QUEST_FUNC_RET_NO_ERROR.

(** The three sends of the position query for one member: [reg],
    [reg + 1] and [reg + 2] in [uint32_t] arithmetic. *)
Definition sync_position (l : lobby_t) (i : Z) (reg : Z) : Q unit :=
  match client_at l i with
  | Some m =>
      send_sync_register reg (float_to_u32 (x m)) ;;
      send_sync_register (u32 (reg + 1)) (float_to_u32 (y m)) ;;
      send_sync_register (u32 (reg + 2)) (float_to_u32 (z m))
  | None =>
      send_sync_register reg 0xFFFFFFFF ;;
      send_sync_register (u32 (reg + 1)) 0xFFFFFFFF ;;
      send_sync_register (u32 (reg + 2)) 0xFFFFFFFF
  end.

Definition get_client_position (c : ship_client_t) (l : lobby_t)
    : Q quest_func_ret :=
  if negb (q c 1 =? 1) then qret QUEST_FUNC_RET_BAD_ARG_COUNT
  else if q c 3 =? 0xFFFFFFFF then
    if negb (q c 2 =? 4) then qret QUEST_FUNC_RET_BAD_RET_COUNT
    else if bad_reg4 c then qret QUEST_FUNC_RET_INVALID_REGISTER
    else
      sync_position l 0 (q c 4) ;;
      sync_position l 1 (q c 5) ;;
      sync_position l 2 (q c 6) ;;
      sync_position l 3 (q c 7) ;;
      qret QUEST_FUNC_RET_NO_ERROR
  else if q c 3 <? 4 then
    if negb (q c 2 =? 1) then qret QUEST_FUNC_RET_BAD_RET_COUNT
    else if q c 4 >? 255 then qret QUEST_FUNC_RET_INVALID_REGISTER
    else
      sync_position l (q c 3) (q c 4) ;;
      qret QUEST_FUNC_RET_NO_ERROR
  else qret QUEST_FUNC_RET_INVALID_ARG.

(** [rnd = (uint32_t)(genrand() % ((uint64_t)max + 1) + min)] with
    [max -= min] done first; the 64-bit operands cannot wrap. *)
Definition get_random_integer (c : ship_client_t) (l : lobby_t)
    : Q quest_func_ret :=
  if negb (q c 1 =? 2) then qret QUEST_FUNC_RET_BAD_ARG_COUNT
  else if negb (q c 2 =? 1) then qret QUEST_FUNC_RET_BAD_RET_COUNT
  else if q c 5 >? 255 then qret QUEST_FUNC_RET_INVALID_REGISTER
  else
    let min := q c 3 in
    let max := q c 4 in
    if min >=? max then qret QUEST_FUNC_RET_INVALID_ARG
    else
      let max := u32 (max - min) in
      qbind genrand (fun g =>
      let rnd := u32 ((g mod ((max + 1) mod 2 ^ 64) + min) mod 2 ^ 64) in
      send_sync_register (q c 5) rnd ;;
      qret QUEST_FUNC_RET_NO_ERROR).

Definition quest_function_dispatch (c : ship_client_t) (l : lobby_t)
    : Q quest_func_ret :=
  match quest_func_of_id (q c 0) with
  | Some QUEST_FUNC_GET_SECTION => get_section_id c l
  | Some QUEST_FUNC_TIME => get_time c l
  | Some QUEST_FUNC_CLIENT_COUNT => get_client_count c l
  | Some QUEST_FUNC_GET_CLASS => get_char_class c l
  | Some QUEST_FUNC_GET_GENDER => get_char_gender c l
  | Some QUEST_FUNC_GET_RACE => get_char_race c l
  | Some QUEST_FUNC_GET_JOB => get_char_job c l
  | Some QUEST_FUNC_GET_FLOOR => get_client_floor c l
  | Some QUEST_FUNC_GET_POSITION => get_client_position c l
  | Some QUEST_FUNC_GET_RANDOM => get_random_integer c l
  | None => qret QUEST_FUNC_RET_INVALID_FUNC
  end.

(** *** The validation rules, in the words of the specification *)

(** The opcodes that take a target (one member or the broadcast
    sentinel) as their argument. *)
Definition takes_target (f : quest_func) : bool :=
  match f with
  | QUEST_FUNC_TIME | QUEST_FUNC_CLIENT_COUNT | QUEST_FUNC_GET_RANDOM => false
  | _ => true
  end.

Definition declared_arg_count (f : quest_func) : Z :=
  match f with
  | QUEST_FUNC_TIME | QUEST_FUNC_CLIENT_COUNT => 0
  | QUEST_FUNC_GET_RANDOM => 2
  | _ => 1
  end.

Inductive quest_branch : Set :=
| BranchBroadcast
| BranchTargeted
| BranchPlain.

Definition selected_branch (f : quest_func) (c : ship_client_t)
    : option quest_branch :=
  if takes_target f then
    if q c 3 =? 0xFFFFFFFF then Some BranchBroadcast
    else if q c 3 <? 4 then Some BranchTargeted
    else None
  else Some BranchPlain.

Definition declared_ret_count (b : quest_branch) : Z :=
  match b with
  | BranchBroadcast => 4
  | _ => 1
  end.

(** The arguments of a frame that are register indices. *)
Definition register_args (f : quest_func) (b : quest_branch)
    (c : ship_client_t) : list Z :=
  match b with
  | BranchBroadcast => [q c 4; q c 5; q c 6; q c 7]
  | BranchTargeted => [q c 4]
  | BranchPlain =>
      match f with
      | QUEST_FUNC_GET_RANDOM => [q c 5]
      | _ => [q c 3]
      end
  end.

(** The words a query reports for a present member, and the registers
    designated for a member whose register argument is [base]. *)
Definition member_values (f : quest_func) (m : ship_client_t) : list Z :=
  match f with
  | QUEST_FUNC_GET_SECTION => [pl_v1_section m]
  | QUEST_FUNC_GET_CLASS => [pl_v1_ch_class m]
  | QUEST_FUNC_GET_GENDER => [GENDER (pl_v1_ch_class m)]
  | QUEST_FUNC_GET_RACE => [RACE (pl_v1_ch_class m)]
  | QUEST_FUNC_GET_JOB => [JOB (pl_v1_ch_class m)]
  | QUEST_FUNC_GET_FLOOR => [cur_area m]
  | QUEST_FUNC_GET_POSITION =>
      [float_to_u32 (x m); float_to_u32 (y m); float_to_u32 (z m)]
  | _ => []
  end.

Definition designated_registers (f : quest_func) (base : Z) : list Z :=
  match f with
  | QUEST_FUNC_GET_POSITION => [base; base + 1; base + 2]
  | QUEST_FUNC_TIME | QUEST_FUNC_CLIENT_COUNT | QUEST_FUNC_GET_RANDOM => []
  | _ => [base]
  end.

Definition member_writes (f : quest_func) (slot : option ship_client_t)
    (base : Z) : list (Z * Z) :=
  match slot with
  | Some m => combine (designated_registers f base) (map u32 (member_values f m))
  | None => map (fun r => (r, 0xFFFFFFFF)) (designated_registers f base)
  end.

Definition add_sent (ws : list (Z * Z)) (w : world) : world :=
  {| sync_sent := sync_sent w ++ ws;
     block_rng := block_rng w;
     clock := clock w |}.

End QuestFunctions.

(** Modelled from the spec: the register file of a client, of which only
    the packets sent by [send_sync_register] are in the sources.  A
    register holds the word of the last packet sent for it. *)
Fixpoint read_register (sent : list (Z * Z)) (n : Z) : option Z :=
  match sent with
  | [] => None
  | (r, v) :: rest =>
      match read_register rest n with
      | Some v' => Some v'
      | None => if r =? n then Some v else None
      end
  end.

(** * Part II: [scripts.c] *)

(** ** The Lua 5.3 C API, as far as [scripts.c] uses it *)

(** [lua_Number] (a C [double]) is kept abstract, with the two conversions
    [lua_tointegerx] makes: a float with an exact integer value, and a
    string that reads as a number. *)
Class LuaNumber : Type := {
  lua_Number : Type;
  number_to_integer : lua_Number -> option Z;
  string_to_integer : string -> option Z
}.

Inductive lua_status : Set :=
| LUA_OK
| LUA_ERRRUN
| LUA_ERRSYNTAX
| LUA_ERRMEM
| LUA_ERRGCMM
| LUA_ERRERR
| LUA_ERRFILE.

Definition is_LUA_OK (s : lua_status) : bool :=
  match s with LUA_OK => true | _ => false end.

(** A Lua function loaded from a file: an object with its own identity,
    remembering the chunk it was compiled from. *)
Record closure : Set := {
  cl_id : nat;
  cl_chunk : string
}.

Inductive lua_value `{LuaNumber} : Type :=
| LNil
| LBoolean (b : bool)
| LInteger (n : Z)
| LNumber (d : lua_Number)
| LString (s : string)
| LLightUserdata (p : Z)
| LFunction (f : closure)
| LTable (a : nat).

Definition LUA_REGISTRYINDEX : Z := -1001000.
Definition LUA_REFNIL : Z := -1.
Definition freelist : Z := 0.

Section LuaApi.

Context `{LuaNumber}.

(** The interpreter: the stack of the running C function (top first),
    the tables (only their integer keys are used here; the registry is
    one of them), a counter for fresh objects, and the record of the
    calls made through [lua_pcall], oldest first. *)
Record lua_State : Type := {
  stack : list lua_value;
  heap : gmap nat (gmap Z lua_value);
  l_registry : nat;
  next_obj : nat;
  pcalls : list (lua_value * list lua_value)
}.

(** What the interpreter does with files and with the code of a handler
    is outside the program: [loadfile_outcome] is the status of
    compiling a file with the message it leaves on failure;
    [run_function] runs a loaded function on its arguments and returns
    a status with the result or the error object. *)
Class LuaEnv : Type := {
  loadfile_outcome : string -> lua_status * string;
  run_function : closure -> list lua_value -> lua_State ->
                 lua_status * lua_value * lua_State
}.

Context `{LuaEnv}.

Definition L (A : Type) : Type := lua_State -> option (A * lua_State).
Definition lret {A} (a : A) : L A := fun l => Some (a, l).
Definition lbind {A B} (m : L A) (k : A -> L B) : L B :=
  fun l => match m l with
           | Some (a, l') => k a l'
           | None => None
           end.
Definition lundef {A} : L A := fun _ => None.

Declare Scope lua_scope.
Delimit Scope lua_scope with lua.
Notation "x <- m ;; k" := (lbind m (fun x => k))
  (at level 100, m at next level, k at level 200, right associativity)
  : lua_scope.
Notation "m ;; k" := (lbind m (fun _ => k))
  (at level 100, k at level 200, right associativity) : lua_scope.
Local Open Scope lua_scope.

Definition set_stack (s : list lua_value) (l : lua_State) : lua_State :=
  {| stack := s; heap := heap l; l_registry := l_registry l;
     next_obj := next_obj l; pcalls := pcalls l |}.

Definition set_heap (h : gmap nat (gmap Z lua_value)) (l : lua_State)
    : lua_State :=
  {| stack := stack l; heap := h; l_registry := l_registry l;
     next_obj := next_obj l; pcalls := pcalls l |}.

Definition push (v : lua_value) : L unit :=
  fun l => Some (tt, set_stack (v :: stack l) l).

(** [index2value]: the pseudo-index of the registry, an absolute index
    counted from the bottom of the frame, or a negative one counted from
    the top.  An index outside the frame is undefined. *)
Definition index2value (idx : Z) : L lua_value :=
  fun l =>
    let len := Z.of_nat (length (stack l)) in
    if idx =? LUA_REGISTRYINDEX then Some (LTable (l_registry l), l)
    else if (0 <? idx) && (idx <=? len) then
      v ← stack l !! Z.to_nat (len - idx); Some (v, l)
    else if (idx <? 0) && (- idx <=? len) then
      v ← stack l !! Z.to_nat (- idx - 1); Some (v, l)
    else None.

Definition lua_absindex (idx : Z) : L Z :=
  fun l =>
    if (0 <? idx) || (idx <=? LUA_REGISTRYINDEX) then Some (idx, l)
    else Some (Z.of_nat (length (stack l)) + idx + 1, l).

(** [hvalue(t)]: the table behind a value; anything that is not a table
    is undefined (the API checks are compiled out). *)
Definition hvalue (v : lua_value) : L (nat * gmap Z lua_value) :=
  fun l => match v with
           | LTable a => t ← heap l !! a; Some ((a, t), l)
           | _ => None
           end.

Definition table_get (t : gmap Z lua_value) (n : Z) : lua_value :=
  default LNil (t !! n).

Definition table_set (t : gmap Z lua_value) (n : Z) (v : lua_value)
    : gmap Z lua_value :=
  match v with
  | LNil => delete n t
  | _ => <[n := v]> t
  end.

Definition lua_settop_pop (n : Z) : L unit :=
  fun l =>
    if (0 <=? n) && (n <=? Z.of_nat (length (stack l)))
    then Some (tt, set_stack (drop (Z.to_nat n) (stack l)) l)
    else None.

(** [lua_pop(L, n)] *)
Definition lua_pop (n : Z) : L unit := lua_settop_pop n.

Definition lua_rawgeti (idx : Z) (n : Z) : L unit :=
  tv <- index2value idx ;;
  at_ <- hvalue tv ;;
  push (table_get (snd at_) n).

Definition lua_rawseti (idx : Z) (n : Z) : L unit :=
  tv <- index2value idx ;;
  at_ <- hvalue tv ;;
  v <- index2value (-1) ;;
  (fun l => Some (tt, set_heap (<[fst at_ := table_set (snd at_) n v]> (heap l)) l)) ;;
  lua_pop 1.

Definition lua_pushinteger (n : Z) : L unit := push (LInteger n).
Definition lua_pushnumber (d : lua_Number) : L unit := push (LNumber d).
Definition lua_pushlightuserdata (p : Z) : L unit := push (LLightUserdata p).

(** [lua_pushlstring(L, s, len)] copies [len] bytes out of the buffer;
    reading past its end is undefined. *)
Definition lua_pushlstring (s : string) (len : Z) : L unit :=
  if (0 <=? len) && (len <=? Z.of_nat (String.length s))
  then push (LString (substring 0 (Z.to_nat len) s))
  else lundef.

(** [lua_pushstring(L, s)] pushes nil for a NULL pointer. *)
Definition lua_pushstring (s : option string) : L unit :=
  match s with
  | Some s => push (LString s)
  | None => push LNil
  end.

Definition lua_isnil (idx : Z) : L bool :=
  v <- index2value idx ;;
  lret (match v with LNil => true | _ => false end).

(** [lua_tointegerx(L, idx, &isnum)]: the integer and the flag. *)
Definition lua_tointegerx (idx : Z) : L (Z * Z) :=
  v <- index2value idx ;;
  lret (match v with
        | LInteger n => (n, 1)
        | LNumber d =>
            match number_to_integer d with
            | Some n => (n, 1) | None => (0, 0) end
        | LString s =>
            match string_to_integer s with
            | Some n => (n, 1) | None => (0, 0) end
        | _ => (0, 0)
        end).

Definition lua_tointeger (idx : Z) : L Z :=
  r <- lua_tointegerx idx ;; lret (fst r).

(** The border of a table: the first [n >= 0] with [t[n + 1]] absent. *)
Fixpoint border (fuel : nat) (t : gmap Z lua_value) (n : Z) : Z :=
  match fuel with
  | O => n
  | S k => match t !! (n + 1) with
           | Some _ => border k t (n + 1)
           | None => n
           end
  end.

Definition lua_rawlen (idx : Z) : L Z :=
  v <- index2value idx ;;
  match v with
  | LTable _ => at_ <- hvalue v ;; lret (border (S (size (snd at_))) (snd at_) 0)
  | LString s => lret (Z.of_nat (String.length s))
  | _ => lret 0
  end.

Definition lua_newtable : L unit :=
  fun l =>
    let a := next_obj l in
    Some (tt, {| stack := LTable a :: stack l;
                 heap := <[a := ∅]> (heap l);
                 l_registry := l_registry l;
                 next_obj := S a;
                 pcalls := pcalls l |}).

(** [luaL_loadfile]: pushes the compiled chunk, or the error message. *)
Definition luaL_loadfile (filename : string) : L lua_status :=
  fun l =>
    match loadfile_outcome filename with
    | (LUA_OK, _) =>
        Some (LUA_OK,
              {| stack := LFunction {| cl_id := next_obj l;
                                       cl_chunk := filename |} :: stack l;
                 heap := heap l;
                 l_registry := l_registry l;
                 next_obj := S (next_obj l);
                 pcalls := pcalls l |})
    | (st, msg) => Some (st, set_stack (LString msg :: stack l) l)
    end.

(** [luaL_ref] of lauxlib.c *)
Definition luaL_ref (t : Z) : L Z :=
  isnil <- lua_isnil (-1) ;;
  if isnil : bool then
    lua_pop 1 ;;
    lret LUA_REFNIL
  else
    t <- lua_absindex t ;;
    lua_rawgeti t freelist ;;
    r <- lua_tointeger (-1) ;;
    let ref := to_int r in
    lua_pop 1 ;;
    ref <- (if negb (ref =? 0) then
              lua_rawgeti t ref ;;
              lua_rawseti t freelist ;;
              lret ref
            else
              n <- lua_rawlen t ;;
              lret (to_int n + 1)) ;;
    lua_rawseti t ref ;;
    lret ref.

(** [luaL_unref] of lauxlib.c *)
Definition luaL_unref (t : Z) (ref : Z) : L unit :=
  if 0 <=? ref then
    t <- lua_absindex t ;;
    lua_rawgeti t freelist ;;
    lua_rawseti t ref ;;
    lua_pushinteger ref ;;
    lua_rawseti t freelist
  else lret tt.

(** [lua_pcall(L, nargs, 1, 0)]: the function and its arguments leave
    the stack and one value takes their place, the result or the error
    object.  A value that is not a function makes the call fail with
    [LUA_ERRRUN]. *)
Definition lua_pcall (nargs : Z) : L lua_status :=
  fun l =>
    if (0 <=? nargs) && (nargs <? Z.of_nat (length (stack l))) then
      let args := rev (take (Z.to_nat nargs) (stack l)) in
      match drop (Z.to_nat nargs) (stack l) with
      | fv :: rest =>
          let called := pcalls l ++ [(fv, args)] in
          match fv with
          | LFunction f =>
              let '(st, v, l') := run_function f args (set_stack rest l) in
              Some (st, {| stack := v :: rest;
                           heap := heap l';
                           l_registry := l_registry l;
                           next_obj := next_obj l';
                           pcalls := called |})
          | _ =>
              Some (LUA_ERRRUN,
                    {| stack := LString "attempt to call a non-function value"
                                :: rest;
                       heap := heap l;
                       l_registry := l_registry l;
                       next_obj := next_obj l;
                       pcalls := called |})
          end
      | [] => None
      end
    else None.

End LuaApi.

Arguments lua_State {_}.
Arguments LuaEnv {_}.

(** ** libxml2 and the rest of the environment *)

Record xmlParserCtxt : Set := { xml_valid : Z }.

Inductive xmlElementType : Set :=
| XML_ELEMENT_NODE
| XML_TEXT_NODE
| XML_COMMENT_NODE.

(** A child of the root element: only its type, name, line and attributes
    are looked at. *)
Record xmlNode : Set := {
  xml_type : xmlElementType;
  xml_name : string;
  xml_line : Z;
  xml_properties : list (string * string)
}.

Record xmlRoot : Set := {
  root_name : string;
  root_children : list xmlNode
}.

(** [xmlDocGetRootElement] is the projection [xml_root]. *)
Record xmlDoc : Set := { xml_root : option xmlRoot }.

(** What libxml2 answers: [xmlNewParserCtxt()] and [xmlReadFile(fn, ...)],
    NULL being [None]. *)
Class XmlEnv : Type := {
  xmlNewParserCtxt : option xmlParserCtxt;
  xmlReadFile : string -> option xmlDoc
}.

(** [xmlStrcmp]: zero exactly when the strings are equal. *)
Definition xmlStrcmp (a b : string) : Z :=
  match String.compare a b with
  | Eq => 0
  | Lt => -1
  | Gt => 1
  end.

(** [xmlGetProp]: the value of the first attribute of that name. *)
Fixpoint xmlGetProp (props : list (string * string)) (name : string)
    : option string :=
  match props with
  | [] => None
  | (k, v) :: rest => if String.eqb k name then Some v else xmlGetProp rest name
  end.

(** The case labels [SCRIPT_ARG_*] of [script_execute]. *)
Inductive script_arg : Set :=
| SCRIPT_ARG_INT
| SCRIPT_ARG_UINT8
| SCRIPT_ARG_UINT16
| SCRIPT_ARG_UINT32
| SCRIPT_ARG_FLOAT
| SCRIPT_ARG_PTR
| SCRIPT_ARG_STRING
| SCRIPT_ARG_CSTRING.

(** [scripts.h] is not among the sources: the values of the [SCRIPT_ARG_*]
    labels are left open (0 ends the list and is never looked up). *)
Class ScriptsHeader : Type := {
  script_arg_of_tag : Z -> option script_arg
}.

(** [script_action_t]: a C enum, so an [int].  The order is that of
    [script_action_text], which the source says matches the enum. *)
Definition ScriptActionInvalid : Z := -1.
Definition ScriptActionCount : Z := 18.

Definition script_action_text : list string :=
  [ "STARTUP"; "SHUTDOWN"; "SHIP_LOGIN"; "SHIP_LOGOUT"; "BLOCK_LOGIN";
    "BLOCK_LOGOUT"; "UNK_SHIP_PKT"; "UNK_BLOCK_PKT"; "UNK_EP3_PKT";
    "TEAM_CREATE"; "TEAM_DESTROY"; "TEAM_JOIN"; "TEAM_LEAVE"; "ENEMY_KILL";
    "ENEMY_HIT"; "BOX_BREAK"; "UNK_COMMAND"; "SDATA" ]%string.

Fixpoint script_action_search (tbl : list string) (i : Z) (str : string) : Z :=
  match tbl with
  | [] => ScriptActionInvalid
  | t :: rest =>
      if xmlStrcmp t str =? 0 then i else script_action_search rest (i + 1) str
  end.

Definition script_action_to_index (str : string) : Z :=
  script_action_search script_action_text 0 str.

(** The calls to [debug], by level and message. *)
Inductive debug_level : Set := DBG_LOG | DBG_WARN | DBG_ERROR.

Inductive debug_msg : Set :=
| MsgLongFilename
| MsgCouldntLoad (filename : string)
| MsgRedefining (action : Z)
| MsgAdded (action : Z) (id : Z)
| MsgUnregisterMissing (action : Z)
| MsgNoXmlContext
| MsgEmptyDocument
| MsgWrongDocument
| MsgInvalidTag (name : string) (line : Z)
| MsgIncompleteEntry (line : Z)
| MsgUnknownEvent (event : string) (line : Z)
| MsgRedefiningEvent (event : string) (line : Z)
| MsgCouldntLoadEntry (file : string) (line : Z)
| MsgAddedEvent (event : string) (id : Z)
| MsgErrorRunning (event : Z)
| MsgNotInt (event : Z)
| MsgInvalidArgType (argtype : Z).

(** [snprintf(buf, n, "%s", out)]: at most [n - 1] characters, then a NUL;
    the bytes of [buf] after that keep what they held. *)
Definition snprintf (buf : list ascii) (n : nat) (out : string) : list ascii :=
  match n with
  | O => buf
  | S m =>
      let chars := take m (list_ascii_of_string out) in
      chars ++ [Ascii.zero] ++ drop (S (length chars)) buf
  end.

(** What a variadic call passes, item by item. *)
Inductive va_item `{LuaNumber} : Type :=
| VaInt (n : Z)
| VaUInt32 (n : Z)
| VaDouble (d : lua_Number)
| VaPtr (p : Z)
| VaSize (n : Z)
| VaStr (s : option string).

(** ** The globals of [scripts.c] and its functions *)

Section Scripts.

Context `{LuaNumber} `{!LuaEnv} `{!XmlEnv} `{!ScriptsHeader}.

(** [lstate] (NULL is [None]), [scripts_ref], [script_ids], and what has
    been handed to [debug] so far, oldest first. *)
Record script_state : Type := {
  lstate : option lua_State;
  scripts_ref : Z;
  script_ids : list Z;
  debug_out : list (debug_level * debug_msg)
}.

Definition M (A : Type) : Type := script_state -> option (A * script_state).
Definition ret {A} (a : A) : M A := fun s => Some (a, s).
Definition bind {A B} (m : M A) (k : A -> M B) : M B :=
  fun s => match m s with
           | Some (a, s') => k a s'
           | None => None
           end.
Definition undefined {A} : M A := fun _ => None.

Declare Scope script_scope.
Notation "x <- m ;; k" := (bind m (fun x => k))
  (at level 100, m at next level, k at level 200, right associativity)
  : script_scope.
Notation "m ;; k" := (bind m (fun _ => k))
  (at level 100, k at level 200, right associativity) : script_scope.
Local Open Scope script_scope.

Definition put_lstate (l : option lua_State) (s : script_state)
    : script_state :=
  {| lstate := l;
     scripts_ref := scripts_ref s;
     script_ids := script_ids s;
     debug_out := debug_out s |}.

Definition add_debug (lvl : debug_level) (msg : debug_msg)
    (s : script_state) : script_state :=
  {| lstate := lstate s;
     scripts_ref := scripts_ref s;
     script_ids := script_ids s;
     debug_out := debug_out s ++ [(lvl, msg)] |}.

(** A call [f(lstate, ...)] of the Lua API. *)
Definition lua {A} (op : L A) : M A :=
  fun s =>
    match lstate s with
    | None => None
    | Some l =>
        match op l with
        | Some (a, l') => Some (a, put_lstate (Some l') s)
        | None => None
        end
    end.

Definition debug (lvl : debug_level) (msg : debug_msg) : M unit :=
  fun s => Some (tt, add_debug lvl msg s).

Definition get_scripts_ref : M Z := fun s => Some (scripts_ref s, s).

Definition put_scripts_ref (r : Z) : M unit :=
  fun s => Some (tt, {| lstate := lstate s;
                        scripts_ref := r;
                        script_ids := script_ids s;
                        debug_out := debug_out s |}).

Definition in_script_ids (a : Z) : bool :=
  (0 <=? a) && (a <? ScriptActionCount).

(** [script_ids[a]], read and written; an index outside the array is
    undefined. *)
Definition get_script_id (a : Z) : M Z :=
  fun s =>
    if in_script_ids a
    then id ← script_ids s !! Z.to_nat a; Some (id, s)
    else None.

Definition put_script_id (a : Z) (id : Z) : M unit :=
  fun s =>
    if in_script_ids a && (Z.to_nat a <? length (script_ids s))%nat
    then Some (tt, {| lstate := lstate s;
                      scripts_ref := scripts_ref s;
                      script_ids := <[Z.to_nat a := id]> (script_ids s);
                      debug_out := debug_out s |})
    else None.

(** [script_add].  [realfn0] is what the local array [realfn] holds
    before [snprintf] writes to it. *)
(** The part of [script_add] between [pthread_mutex_lock] and the
    end. *)
Definition script_add_locked (ref : Z) (action : Z) (filename : string)
    : M Z :=
  lua (lua_rawgeti LUA_REGISTRYINDEX ref) ;;
  st <- lua (luaL_loadfile filename) ;;
  if negb (is_LUA_OK st) then
    debug DBG_WARN (MsgCouldntLoad filename) ;;
    lua (lua_pop 1) ;;
    ret (-1)
  else
    id <- get_script_id action ;;
    (if negb (id =? 0) then
       debug DBG_WARN (MsgRedefining action) ;;
       lua (luaL_unref (-2) id)
     else ret tt) ;;
    id <- lua (luaL_ref (-2)) ;;
    put_script_id action id ;;
    debug DBG_LOG (MsgAdded action id) ;;
    lua (lua_pop 1) ;;
    ret 0.

Definition script_add (realfn0 : list ascii) (action : Z)
    (filename : string) : M Z :=
  ref <- get_scripts_ref ;;
  if ref =? 0 then ret 0
  else
    let realfn := snprintf realfn0 64 ("scripts/" ++ filename) in
    if negb (Ascii.eqb (nth 63 realfn Ascii.zero) Ascii.zero) then
      debug DBG_WARN MsgLongFilename ;;
      ret (-1)
    else script_add_locked ref action filename.

Definition script_remove (action : Z) : M Z :=
  ref <- get_scripts_ref ;;
  if ref =? 0 then ret 0
  else
    id <- get_script_id action ;;
    if id =? 0 then
      debug DBG_WARN (MsgUnregisterMissing action) ;;
      ret (-1)
    else
      lua (lua_rawgeti LUA_REGISTRYINDEX ref) ;;
      lua (luaL_unref (-2) id) ;;
      lua (lua_pop 1) ;;
      ret 0.

(** One turn of the [while(n)] loop of [script_eventlist_read]. *)
Definition script_eventlist_entry (n : xmlNode) : M unit :=
  match xml_type n with
  | XML_ELEMENT_NODE =>
      if negb (xmlStrcmp (xml_name n) "script" =? 0) then
        debug DBG_WARN (MsgInvalidTag (xml_name n) (xml_line n))
      else
        match xmlGetProp (xml_properties n) "event",
              xmlGetProp (xml_properties n) "file" with
        | Some event, Some file =>
            let idx := script_action_to_index event in
            if idx =? ScriptActionInvalid then
              debug DBG_WARN (MsgUnknownEvent event (xml_line n))
            else
              id <- get_script_id idx ;;
              (if negb (id =? 0) then
                 debug DBG_WARN (MsgRedefiningEvent event (xml_line n))
               else ret tt) ;;
              st <- lua (luaL_loadfile file) ;;
              if negb (is_LUA_OK st) then
                debug DBG_WARN (MsgCouldntLoadEntry file (xml_line n))
              else
                id <- lua (luaL_ref (-2)) ;;
                put_script_id idx id ;;
                debug DBG_LOG (MsgAddedEvent event id)
        | _, _ => debug DBG_WARN (MsgIncompleteEntry (xml_line n))
        end
  | _ => ret tt
  end.

Fixpoint script_eventlist_entries (ns : list xmlNode) : M unit :=
  match ns with
  | [] => ret tt
  | n :: rest => script_eventlist_entry n ;; script_eventlist_entries rest
  end.

(** [script_eventlist_read] from [xmlNewParserCtxt()] on. *)
Definition script_eventlist_parse (fn : string) : M Z :=
  match xmlNewParserCtxt with
  | None =>
      debug DBG_ERROR MsgNoXmlContext ;;
      ret (-1)
  | Some cxt =>
      match xmlReadFile fn with
      | None => ret (-2)
      | Some doc =>
          if xml_valid cxt =? 0 then ret (-3)
          else
            match xml_root doc with
            | None =>
                debug DBG_WARN MsgEmptyDocument ;;
                ret (-4)
            | Some n =>
                if negb (xmlStrcmp (root_name n) "scripts" =? 0) then
                  debug DBG_WARN MsgWrongDocument ;;
                  ret (-5)
                else
                  lua lua_newtable ;;
                  script_eventlist_entries (root_children n) ;;
                  r <- lua (luaL_ref LUA_REGISTRYINDEX) ;;
                  put_scripts_ref r ;;
                  ret 0
            end
      end
  end.

Definition script_eventlist_read (fn : string) : M Z :=
  ref <- get_scripts_ref ;;
  (if negb (ref =? 0) then lua (luaL_unref LUA_REGISTRYINDEX ref)
   else ret tt) ;;
  script_eventlist_parse fn.

(** [cleanup_scripts]: [lua_close] ends the interpreter. *)
Definition cleanup_scripts : M unit :=
  fun s =>
    match lstate s with
    | None => Some (tt, s)
    | Some _ =>
        match (if negb (scripts_ref s =? 0)
               then lua (luaL_unref LUA_REGISTRYINDEX (scripts_ref s)) s
               else Some (tt, s)) with
        | Some (_, s') =>
            Some (tt, {| lstate := None;
                         scripts_ref := 0;
                         script_ids := replicate (Z.to_nat ScriptActionCount) 0;
                         debug_out := debug_out s' |})
        | None => None
        end
    end.

(** The tail shared by [script_execute_pkt] and [script_execute]: the
    call, the result, and the label [out]. *)
Definition script_out (rv : Z) : M Z :=
  lua (lua_pop 1) ;;
  ret (to_int rv).

Definition script_call (event : Z) (nargs : Z) : M Z :=
  st <- lua (lua_pcall nargs) ;;
  if negb (is_LUA_OK st) then
    debug DBG_ERROR (MsgErrorRunning event) ;;
    lua (lua_pop 1) ;;
    script_out 0
  else
    r <- lua (lua_tointegerx (-1)) ;;
    (if snd r =? 0 then debug DBG_ERROR (MsgNotInt event) else ret tt) ;;
    lua (lua_pop 1) ;;
    script_out (fst r).

Definition script_execute_pkt (event : Z) (c : Z) (pkt : string) (len : Z)
    : M Z :=
  ref <- get_scripts_ref ;;
  if ref =? 0 then ret 0
  else
    lua (lua_rawgeti LUA_REGISTRYINDEX ref) ;;
    id <- get_script_id event ;;
    if id =? 0 then script_out 0
    else
      lua (lua_rawgeti (-1) id) ;;
      lua (lua_pushlightuserdata c) ;;
      lua (lua_pushlstring pkt (len mod 2 ^ 16)) ;;
      script_call event 2.

(** The [while((argtype = va_arg(ap, int)))] loop.  The result is the
    number of values pushed, or [None] after the [default:] case has
    run.  Reading an item of another type than the one passed, or past
    the end of the list, is undefined. *)
Fixpoint script_push_args (ap : list va_item) (argcount : Z)
    : M (option Z) :=
  match ap with
  | VaInt argtype :: ap1 =>
      if argtype =? 0 then ret (Some argcount)
      else
        match script_arg_of_tag argtype with
        | Some SCRIPT_ARG_INT =>
            match ap1 with
            | VaInt arg :: ap2 =>
                lua (lua_pushinteger arg) ;;
                script_push_args ap2 (argcount + 1)
            | _ => undefined
            end
        | Some SCRIPT_ARG_UINT8 =>
            match ap1 with
            | VaInt arg :: ap2 =>
                lua (lua_pushinteger (arg mod 2 ^ 8)) ;;
                script_push_args ap2 (argcount + 1)
            | _ => undefined
            end
        | Some SCRIPT_ARG_UINT16 =>
            match ap1 with
            | VaInt arg :: ap2 =>
                lua (lua_pushinteger (arg mod 2 ^ 16)) ;;
                script_push_args ap2 (argcount + 1)
            | _ => undefined
            end
        | Some SCRIPT_ARG_UINT32 =>
            match ap1 with
            | VaUInt32 arg :: ap2 =>
                lua (lua_pushinteger (u32 arg)) ;;
                script_push_args ap2 (argcount + 1)
            | _ => undefined
            end
        | Some SCRIPT_ARG_FLOAT =>
            match ap1 with
            | VaDouble arg :: ap2 =>
                lua (lua_pushnumber arg) ;;
                script_push_args ap2 (argcount + 1)
            | _ => undefined
            end
        | Some SCRIPT_ARG_PTR =>
            match ap1 with
            | VaPtr arg :: ap2 =>
                lua (lua_pushlightuserdata arg) ;;
                script_push_args ap2 (argcount + 1)
            | _ => undefined
            end
        | Some SCRIPT_ARG_STRING =>
            match ap1 with
            | VaSize len :: VaStr (Some str) :: ap2 =>
                lua (lua_pushlstring str len) ;;
                script_push_args ap2 (argcount + 1)
            | _ => undefined
            end
        | Some SCRIPT_ARG_CSTRING =>
            match ap1 with
            | VaStr str :: ap2 =>
                lua (lua_pushstring str) ;;
                script_push_args ap2 (argcount + 1)
            | _ => undefined
            end
        | None =>
            debug DBG_WARN (MsgInvalidArgType argtype) ;;
            lua (lua_pop argcount) ;;
            ret None
        end
  | _ => undefined
  end.

Definition script_execute (event : Z) (ap : list va_item) : M Z :=
  ref <- get_scripts_ref ;;
  if ref =? 0 then ret 0
  else
    lua (lua_rawgeti LUA_REGISTRYINDEX ref) ;;
    id <- get_script_id event ;;
    if id =? 0 then script_out 0
    else
      lua (lua_rawgeti (-1) id) ;;
      pushed <- script_push_args ap 0 ;;
      match pushed with
      | None => script_out 0
      | Some argcount => script_call event argcount
      end.

(** The globals as the program starts: all zero. *)
Definition script_state_init : script_state :=
  {| lstate := None;
     scripts_ref := 0;
     script_ids := replicate (Z.to_nat ScriptActionCount) 0;
     debug_out := [] |}.

(** *** The vocabulary of the specification *)

(** What holds of the globals between calls: the array has its 18
    entries, [scripts_ref] is zero while there is no interpreter, and an
    interpreter has its registry. *)
Record script_state_ok (s : script_state) : Prop := {
  ok_ids : length (script_ids s) = Z.to_nat ScriptActionCount;
  ok_no_lstate : lstate s = None -> scripts_ref s = 0;
  ok_registry : forall l, lstate s = Some l ->
                          is_Some (heap l !! l_registry l)
}.

(** The binding of an event category: the entry of [script_ids], zero
    meaning none. *)
Definition binding (s : script_state) (event : Z) : option Z :=
  script_ids s !! Z.to_nat event.

(** The table of loaded scripts [scripts_ref] refers to, through the
    registry. *)
Definition scripts_table (s : script_state)
    : option (nat * gmap Z lua_value) :=
  l ← lstate s;
  reg ← heap l !! l_registry l;
  match table_get reg (scripts_ref s) with
  | LTable a => t ← heap l !! a; Some (a, t)
  | _ => None
  end.

(** The handler [script_execute] would call for an event category. *)
Definition handler_of (s : script_state) (event : Z) : option lua_value :=
  id ← binding s event;
  if id =? 0 then None
  else at_ ← scripts_table s; Some (table_get (snd at_) id).

(** A run of well-formed tagged arguments, with the values it puts on
    the stack in the order they are pushed. *)
Inductive va_pushes : list va_item -> list lua_value -> Prop :=
| va_pushes_nil : va_pushes [] []
| va_pushes_int tag arg ap vs :
    tag <> 0 -> script_arg_of_tag tag = Some SCRIPT_ARG_INT ->
    va_pushes ap vs ->
    va_pushes (VaInt tag :: VaInt arg :: ap) (LInteger arg :: vs)
| va_pushes_uint8 tag arg ap vs :
    tag <> 0 -> script_arg_of_tag tag = Some SCRIPT_ARG_UINT8 ->
    va_pushes ap vs ->
    va_pushes (VaInt tag :: VaInt arg :: ap) (LInteger (arg mod 2 ^ 8) :: vs)
| va_pushes_uint16 tag arg ap vs :
    tag <> 0 -> script_arg_of_tag tag = Some SCRIPT_ARG_UINT16 ->
    va_pushes ap vs ->
    va_pushes (VaInt tag :: VaInt arg :: ap) (LInteger (arg mod 2 ^ 16) :: vs)
| va_pushes_uint32 tag arg ap vs :
    tag <> 0 -> script_arg_of_tag tag = Some SCRIPT_ARG_UINT32 ->
    va_pushes ap vs ->
    va_pushes (VaInt tag :: VaUInt32 arg :: ap) (LInteger (u32 arg) :: vs)
| va_pushes_float tag arg ap vs :
    tag <> 0 -> script_arg_of_tag tag = Some SCRIPT_ARG_FLOAT ->
    va_pushes ap vs ->
    va_pushes (VaInt tag :: VaDouble arg :: ap) (LNumber arg :: vs)
| va_pushes_ptr tag arg ap vs :
    tag <> 0 -> script_arg_of_tag tag = Some SCRIPT_ARG_PTR ->
    va_pushes ap vs ->
    va_pushes (VaInt tag :: VaPtr arg :: ap) (LLightUserdata arg :: vs)
| va_pushes_string tag len str ap vs :
    tag <> 0 -> script_arg_of_tag tag = Some SCRIPT_ARG_STRING ->
    0 <= len <= Z.of_nat (String.length str) ->
    va_pushes ap vs ->
    va_pushes (VaInt tag :: VaSize len :: VaStr (Some str) :: ap)
      (LString (substring 0 (Z.to_nat len) str) :: vs)
| va_pushes_cstring tag str ap vs :
    tag <> 0 -> script_arg_of_tag tag = Some SCRIPT_ARG_CSTRING ->
    va_pushes ap vs ->
    va_pushes (VaInt tag :: VaStr str :: ap)
      (match str with Some s => LString s | None => LNil end :: vs).

(** An event category is bound when its entry of [script_ids] is not
    zero. *)
Definition bound (s : script_state) (event : Z) : Prop :=
  exists id, binding s event = Some id /\ id <> 0.

(** The reading of "unregister succeeds if and only if the category was
    bound at the time of the call". *)
Definition unregister_succeeds_iff_bound (s : script_state) (action : Z)
    : Prop :=
  exists r s', script_remove action s = Some (r, s') /\
               (r = 0 <-> bound s action).



End Scripts.

(** * Further vocabulary for the properties of the second part of the file *)

Section QuestVocabulary.

Context `{QuestEnv}.

(** The queries that report one word per member. *)
Definition one_word (f : quest_func) : bool :=
  match f with
  | QUEST_FUNC_GET_SECTION | QUEST_FUNC_GET_CLASS | QUEST_FUNC_GET_GENDER
  | QUEST_FUNC_GET_RACE | QUEST_FUNC_GET_JOB | QUEST_FUNC_GET_FLOOR => true
  | _ => false
  end.

(** The word such a query reports for a group slot. *)
Definition slot_word (f : quest_func) (slot : option ship_client_t) : Z :=
  match slot with
  | Some m => u32 (hd 0 (member_values f m))
  | None => 0xFFFFFFFF
  end.

(** The queries that derive their word from the class through one of the
    three tables. *)
Definition class_table (f : quest_func) : option (list Z) :=
  match f with
  | QUEST_FUNC_GET_GENDER => Some genders
  | QUEST_FUNC_GET_RACE => Some races
  | QUEST_FUNC_GET_JOB => Some jobs
  | _ => None
  end.

(** One world follows another when the clock and the generator are
    the same and packets have only been added. *)
Definition world_follows (w w' : world) : Prop :=
  clock w' = clock w /\
  block_rng w' = block_rng w /\
  exists ws, sync_sent w' = sync_sent w ++ ws.

End QuestVocabulary.

Section ScriptVocabulary.

Context `{LuaNumber} `{!LuaEnv} `{!XmlEnv} `{!ScriptsHeader}.

(** What [lua_tointegerx] makes of a value: the integer and the flag. *)
Definition tointeger_of (v : lua_value) : Z * Z :=
  match v with
  | LInteger n => (n, 1)
  | LNumber d =>
      match number_to_integer d with
      | Some n => (n, 1)
      | None => (0, 0)
      end
  | LString s =>
      match string_to_integer s with
      | Some n => (n, 1)
      | None => (0, 0)
      end
  | _ => (0, 0)
  end.

(** The children of the root that [script_eventlist_read] passes over:
    what is not an element, an element that is not [script], one that
    lacks [event] or [file], one whose event has no known name. *)
Definition entry_skipped (n : xmlNode) : bool :=
  match xml_type n with
  | XML_ELEMENT_NODE =>
      if xmlStrcmp (xml_name n) "script" =? 0 then
        match xmlGetProp (xml_properties n) "event",
              xmlGetProp (xml_properties n) "file" with
        | Some event, Some _ =>
            script_action_to_index event =? ScriptActionInvalid
        | _, _ => true
        end
      else true
  | _ => true
  end.

(** The globals with more lines handed to [debug]. *)
Definition add_debugs (dbg : list (debug_level * debug_msg))
    (s : script_state) : script_state :=
  {| lstate := lstate s;
     scripts_ref := scripts_ref s;
     script_ids := script_ids s;
     debug_out := debug_out s ++ dbg |}.

(** What a gateway logs once [lua_pcall] has returned [st] with [v] on
    the stack, and what it returns. *)
Definition call_log (event : Z) (st : lua_status) (v : lua_value)
    : list (debug_level * debug_msg) :=
  if is_LUA_OK st then
    if snd (tointeger_of v) =? 0 then [(DBG_ERROR, MsgNotInt event)] else []
  else [(DBG_ERROR, MsgErrorRunning event)].

Definition call_result (st : lua_status) (v : lua_value) : Z :=
  if is_LUA_OK st then to_int (fst (tointeger_of v)) else 0.

(** The globals after a gateway has called the handler [f] on [args]
    from the interpreter [l]: the stack is as in [l], the tables are
    those the handler left, the call is on record. *)
Definition after_call (event : Z) (f : closure) (args : list lua_value)
    (a : nat) (l : lua_State) (s : script_state) : Z * script_state :=
  let '(st, v, l') := run_function f args (set_stack (LTable a :: stack l) l) in
  (call_result st v,
   {| lstate := Some {| stack := stack l;
                        heap := heap l';
                        l_registry := l_registry l;
                        next_obj := next_obj l';
                        pcalls := pcalls l ++ [(LFunction f, args)] |};
      scripts_ref := scripts_ref s;
      script_ids := script_ids s;
      debug_out := debug_out s ++ call_log event st v |}).

(** A table filled through [luaL_ref] alone, nothing freed: it holds
    the slots 1 to [k] and no other. *)
Definition table_dense (t : gmap Z lua_value) (k : Z) : Prop :=
  forall i, is_Some (t !! i) <-> 1 <= i <= k.

(** What a child of the root declares, if it is not passed over: the
    index of its event and its file. *)
Definition entry_declares (n : xmlNode) : option (Z * string) :=
  match xml_type n with
  | XML_ELEMENT_NODE =>
      if xmlStrcmp (xml_name n) "script" =? 0 then
        match xmlGetProp (xml_properties n) "event",
              xmlGetProp (xml_properties n) "file" with
        | Some event, Some file =>
            if script_action_to_index event =? ScriptActionInvalid then None
            else Some (script_action_to_index event, file)
        | _, _ => None
        end
      else None
  | _ => None
  end.

(** The declarations of a document, in its order. *)
Definition declarations (ns : list xmlNode) : list (Z * string) :=
  omap entry_declares ns.

(** The bindings after the declarations [ds] have been loaded one after
    the other into the slots [j], [j + 1], ... *)
Fixpoint bind_declared (ds : list (Z * string)) (j : Z) (ids : list Z)
    : list Z :=
  match ds with
  | [] => ids
  | (idx, _) :: ds' => bind_declared ds' (j + 1) (<[Z.to_nat idx := j]> ids)
  end.

(** The script table after the same: the slot of a declaration holds
    the function compiled from its file, the objects being numbered
    from [obj] on. *)
Fixpoint load_declared (ds : list (Z * string)) (j : Z) (obj : nat)
    (t : gmap Z lua_value) : gmap Z lua_value :=
  match ds with
  | [] => t
  | (_, file) :: ds' =>
      load_declared ds' (j + 1) (S obj)
        (<[j := LFunction {| cl_id := obj; cl_chunk := file |}]> t)
  end.

(** The file of the last declaration made for an event. *)
Definition last_declared (ds : list (Z * string)) (idx : Z) : option string :=
  snd <$> last (filter (fun d => fst d = idx) ds).

(** The root element [script_eventlist_read] goes on to read the
    children of: there is a parsing context, the file parses, the
    context is valid, the document has a root and it is [scripts]. *)
Definition document_of (fn : string) : option xmlRoot :=
  match xmlNewParserCtxt with
  | None => None
  | Some cxt =>
      match xmlReadFile fn with
      | None => None
      | Some doc =>
          if xml_valid cxt =? 0 then None
          else
            match xml_root doc with
            | None => None
            | Some n =>
                if xmlStrcmp (root_name n) "scripts" =? 0 then Some n
                else None
            end
      end
  end.

(** The interpreter when the loop over the children is over: the new
    table, on top of the stack, holds the functions of the declarations
    [ds]. *)
Definition entries_lua (ds : list (Z * string)) (l : lua_State) : lua_State :=
  {| stack := LTable (next_obj l) :: stack l;
     heap := <[next_obj l := load_declared ds 1 (S (next_obj l)) ∅]> (heap l);
     l_registry := l_registry l;
     next_obj := (S (next_obj l) + length ds)%nat;
     pcalls := pcalls l |}.

(** The interpreter once that table has left the stack for the
    registry, which is then [reg]. *)
Definition loaded_lua (ds : list (Z * string)) (reg : gmap Z lua_value)
    (l : lua_State) : lua_State :=
  {| stack := stack l;
     heap := <[l_registry l := reg]>
               (<[next_obj l :=
                    load_declared ds 1 (S (next_obj l)) ∅]> (heap l));
     l_registry := l_registry l;
     next_obj := (S (next_obj l) + length ds)%nat;
     pcalls := pcalls l |}.

(** The slot of the registry a read puts the new table in, the registry
    holding the slots 1 to [kr]: the slot of the table it replaces, or
    the next one when there is none. *)
Definition read_slot (s : script_state) (kr : Z) : Z :=
  if scripts_ref s =? 0 then kr + 1 else scripts_ref s.

End ScriptVocabulary.

(** * Sample environments and states

    Concrete instances of the parameters above, on which the theorems
    below are exercised. *)

Definition sample_quest_func_of_id (id : Z) : option quest_func :=
  match id with
  | 0 => Some QUEST_FUNC_GET_SECTION
  | 1 => Some QUEST_FUNC_TIME
  | 2 => Some QUEST_FUNC_CLIENT_COUNT
  | 3 => Some QUEST_FUNC_GET_CLASS
  | 4 => Some QUEST_FUNC_GET_GENDER
  | 5 => Some QUEST_FUNC_GET_RACE
  | 6 => Some QUEST_FUNC_GET_JOB
  | 7 => Some QUEST_FUNC_GET_FLOOR
  | 8 => Some QUEST_FUNC_GET_POSITION
  | 9 => Some QUEST_FUNC_GET_RANDOM
  | _ => None
  end.

(** Coordinates as integers, and a small linear congruential generator in
    the place of the Mersenne twister. *)
Definition sample_quest_env : QuestEnv := {|
  c_float := Z;
  float_to_u32 := u32;
  rng_t := Z;
  mt19937_genrand_int32 := fun s => (s, (s * 1103515245 + 12345) mod 2 ^ 32);
  quest_func_of_id := sample_quest_func_of_id
|}.

Definition sample_member (class : Z) : @ship_client_t sample_quest_env :=
  @Build_ship_client_t sample_quest_env [] 2 class 1 10 20 30.

Definition sample_caller (frame : list Z) : @ship_client_t sample_quest_env :=
  @Build_ship_client_t sample_quest_env frame 2 3 1 10 20 30.

(** Members in slots 0 and 2 only, of classes 3 and 7. *)
Definition sample_lobby : @lobby_t sample_quest_env :=
  @Build_lobby_t sample_quest_env
    [Some (sample_member 3); None; Some (sample_member 7); None] 2.

Definition sample_world : @world sample_quest_env :=
  @Build_world sample_quest_env [] 123456789 1700000000.

(** Numbers as integers; no string reads as a number. *)
Definition sample_lua_number : LuaNumber := {|
  lua_Number := Z;
  number_to_integer := fun d => Some d;
  string_to_integer := fun _ => None
|}.

(** Every file compiles but [missing.lua]; every handler returns 1. *)
Definition sample_lua_env : @LuaEnv sample_lua_number := {|
  loadfile_outcome := fun fn =>
    if String.eqb fn "missing.lua" then (LUA_ERRFILE, "cannot open missing.lua")
    else (LUA_OK, "");
  run_function := fun _ _ l => (LUA_OK, LInteger 1, l)
|}%string.

Definition sample_xmlDoc : xmlDoc := {|
  xml_root := Some {|
    root_name := "scripts";
    root_children :=
      [ {| xml_type := XML_TEXT_NODE; xml_name := "text"; xml_line := 1;
           xml_properties := [] |};
        {| xml_type := XML_ELEMENT_NODE; xml_name := "script"; xml_line := 2;
           xml_properties := [("event", "STARTUP"); ("file", "startup.lua")] |};
        {| xml_type := XML_ELEMENT_NODE; xml_name := "script"; xml_line := 3;
           xml_properties := [("event", "UNK_SHIP_PKT"); ("file", "pkt.lua")] |} ]
  |}
|}%string.

(** Only [scripts.xml] can be read. *)
Definition sample_xml_env : XmlEnv := {|
  xmlNewParserCtxt := Some {| xml_valid := 1 |};
  xmlReadFile := fun fn =>
    if String.eqb fn "scripts.xml" then Some sample_xmlDoc else None
|}%string.

Definition sample_scripts_header : ScriptsHeader := {|
  script_arg_of_tag := fun tag =>
    match tag with
    | 1 => Some SCRIPT_ARG_INT
    | 2 => Some SCRIPT_ARG_PTR
    | 3 => Some SCRIPT_ARG_FLOAT
    | 4 => Some SCRIPT_ARG_UINT8
    | 5 => Some SCRIPT_ARG_UINT16
    | 6 => Some SCRIPT_ARG_UINT32
    | 7 => Some SCRIPT_ARG_STRING
    | 8 => Some SCRIPT_ARG_CSTRING
    | _ => None
    end
|}.

(** A fresh interpreter: the registry, at address 0, holds the main
    thread and the table of globals in its slots 1 and 2. *)
Definition sample_lua_State : @lua_State sample_lua_number :=
  @Build_lua_State sample_lua_number
    []
    (<[0%nat := <[1 := LLightUserdata 0]> (<[2 := LTable 1]> ∅)]>
       (<[1%nat := ∅]> ∅))
    0%nat 2%nat [].

(** The globals after [init_scripts] has created the interpreter and
    before it reads the declarations. *)
Definition sample_started : @script_state sample_lua_number :=
  @Build_script_state sample_lua_number
    (Some sample_lua_State) 0 (replicate 18 0) [].

Definition run_state {A} (r : option (A * @script_state sample_lua_number))
    : @script_state sample_lua_number :=
  match r with
  | Some (_, s) => s
  | None => @script_state_init sample_lua_number
  end.

(** The globals after the declarations of [scripts.xml] are loaded. *)
Definition sample_loaded : @script_state sample_lua_number :=
  run_state (@script_eventlist_read sample_lua_number sample_lua_env
               sample_xml_env "scripts.xml" sample_started).

(** A file name of 64 characters. *)
Definition sample_long_filename : string :=
  "aaaaaaaaaabbbbbbbbbbccccccccccddddddddddeeeeeeeeeeffffffffff.lua"%string.

(** What the array [realfn] may hold on entry: 64 bytes of [x]. *)
Definition sample_realfn0 : list ascii := repeat "x"%char 64.

(** The array [realfn] when it happens to hold zeros on entry. *)
Definition sample_realfn_zero : list ascii := repeat Ascii.zero 64.

(** The interpreter of [sample_loaded], its registry and its script
    table (at address 2, under the reference 3). *)
Definition sample_loaded_lua : @lua_State sample_lua_number :=
  default sample_lua_State (lstate sample_loaded).

Definition sample_loaded_registry : gmap Z (@lua_value sample_lua_number) :=
  default ∅ (heap sample_loaded_lua !! 0%nat).

Definition sample_loaded_table : gmap Z (@lua_value sample_lua_number) :=
  default ∅ (heap sample_loaded_lua !! 2%nat).

(** * Further sample states *)

(** The root element of [scripts.xml]. *)
Definition sample_root : xmlRoot :=
  default {| root_name := ""; root_children := [] |} (xml_root sample_xmlDoc).

(** The registry of a fresh interpreter, as in [sample_lua_State]. *)
Definition sample_registry : gmap Z (@lua_value sample_lua_number) :=
  <[1 := LLightUserdata 0]> (<[2 := LTable 1]> ∅).

(** A script table written out: the functions of [startup.lua] and
    [pkt.lua], in the slots the declarations of [scripts.xml] get, and
    one of [extra.lua], as registered afterwards for [SHUTDOWN]. *)
Definition sample_script_table : gmap Z (@lua_value sample_lua_number) :=
  <[1 := LFunction {| cl_id := 3; cl_chunk := "startup.lua" |}]>
    (<[2 := LFunction {| cl_id := 4; cl_chunk := "pkt.lua" |}]>
       (<[3 := LFunction {| cl_id := 5; cl_chunk := "extra.lua" |}]> ∅)).

Definition sample_bound_registry : gmap Z (@lua_value sample_lua_number) :=
  <[3 := LTable 2]> sample_registry.

(** The interpreter holding that table at address 2, under the
    reference 3, with [stk] on its stack. *)
Definition sample_bound_lua (stk : list (@lua_value sample_lua_number))
    : @lua_State sample_lua_number :=
  @Build_lua_State sample_lua_number
    stk
    (<[0%nat := sample_bound_registry]>
       (<[1%nat := ∅]> (<[2%nat := sample_script_table]> ∅)))
    0%nat 6%nat [].

(** The globals then: [STARTUP], [SHUTDOWN] and [UNK_SHIP_PKT] are
    bound to the slots 1, 3 and 2. *)
Definition sample_bound (stk : list (@lua_value sample_lua_number))
    : @script_state sample_lua_number :=
  @Build_script_state sample_lua_number
    (Some (sample_bound_lua stk)) 3
    [1; 3; 0; 0; 0; 0; 2; 0; 0; 0; 0; 0; 0; 0; 0; 0; 0; 0] [].

(** Children of the root that declare nothing. *)
Definition sample_skipped : list xmlNode :=
  [ {| xml_type := XML_COMMENT_NODE; xml_name := "comment"; xml_line := 1;
       xml_properties := [] |};
    {| xml_type := XML_ELEMENT_NODE; xml_name := "other"; xml_line := 2;
       xml_properties := [] |};
    {| xml_type := XML_ELEMENT_NODE; xml_name := "script"; xml_line := 3;
       xml_properties := [("event", "STARTUP")] |};
    {| xml_type := XML_ELEMENT_NODE; xml_name := "script"; xml_line := 4;
       xml_properties := [("event", "NO_SUCH_EVENT"); ("file", "a.lua")] |}
  ]%string.

(** A declaration whose file does not load. *)
Definition sample_missing : xmlNode :=
  {| xml_type := XML_ELEMENT_NODE; xml_name := "script"; xml_line := 5;
     xml_properties := [("event", "STARTUP"); ("file", "missing.lua")] |}%string.

(** * Properties of [quest_functions.c] *)

Lemma u32_range z : 0 <= u32 z < 2 ^ 32.
Proof. unfold u32. apply Z.mod_pos_bound. lia. Qed.

Lemma u32_small z : 0 <= z < 2 ^ 32 -> u32 z = z.
Proof. intros Hz. unfold u32. apply Z.mod_small. exact Hz. Qed.

(** Decide the integer tests of the goal from the context. *)
Ltac ztests :=
  repeat match goal with
  | |- context [(?a >? ?b)] => rewrite (Z.gtb_ltb a b)
  | |- context [(?a >=? ?b)] => rewrite (Z.geb_leb a b)
  | |- context [(?a =? ?b)] => destruct (Z.eqb_spec a b); try lia
  | |- context [(?a <? ?b)] => destruct (Z.ltb_spec a b); try lia
  | |- context [(?a <=? ?b)] => destruct (Z.leb_spec a b); try lia
  end.

Section QuestProperties.

Context `{QuestEnv}.

Lemma q_range c i : 0 <= q c i < 2 ^ 32.
Proof. apply u32_range. Qed.

Lemma one_word_query_failure field c l w r w' :
  one_word_query field c l w = (r, w') ->
  r <> QUEST_FUNC_RET_NO_ERROR -> w' = w.
Proof.
  unfold one_word_query, bad_reg4, qret, qbind, sync_member.
  intros Hrun Hr.
  repeat match type of Hrun with
  | context [if ?b then _ else _] => destruct b; simpl in Hrun
  | context [match client_at ?l ?i with _ => _ end] =>
      destruct (client_at l i); simpl in Hrun
  end; inversion Hrun; subst; congruence.
Qed.

Lemma get_client_position_failure c l w r w' :
  get_client_position c l w = (r, w') ->
  r <> QUEST_FUNC_RET_NO_ERROR -> w' = w.
Proof.
  unfold get_client_position, bad_reg4, qret, qbind, sync_position.
  intros Hrun Hr.
  repeat match type of Hrun with
  | context [if ?b then _ else _] => destruct b; simpl in Hrun
  | context [match client_at ?l ?i with _ => _ end] =>
      destruct (client_at l i); simpl in Hrun
  end; inversion Hrun; subst; congruence.
Qed.

Lemma quest_function_dispatch_failure c l w r w' :
  quest_function_dispatch c l w = (r, w') ->
  r <> QUEST_FUNC_RET_NO_ERROR -> w' = w.
Proof.
  unfold quest_function_dispatch.
  destruct (quest_func_of_id (q c 0)) as [[]|];
    eauto using one_word_query_failure, get_client_position_failure.
  - unfold get_time, qbind, qret, time_now, send_sync_register.
    intros Hrun Hr.
    repeat match type of Hrun with
    | context [if ?b then _ else _] => destruct b; simpl in Hrun
    end; inversion Hrun; subst; congruence.
  - unfold get_client_count, qbind, qret, send_sync_register.
    intros Hrun Hr.
    repeat match type of Hrun with
    | context [if ?b then _ else _] => destruct b; simpl in Hrun
    end; inversion Hrun; subst; congruence.
  - unfold get_random_integer, qbind, qret, genrand, send_sync_register.
    intros Hrun Hr.
    repeat match type of Hrun with
    | context [if ?b then _ else _] => destruct b; simpl in Hrun
    end; try (inversion Hrun; subst; congruence).
    destruct (mt19937_genrand_int32 (block_rng w)).
    inversion Hrun; subst; congruence.
  - unfold qret. intros Hrun _. inversion Hrun; reflexivity.
Qed.

(** Unfold a native function down to its tests. *)
Ltac qunfold :=
  unfold quest_function_dispatch, get_section_id, get_char_class,
    get_char_gender, get_char_race, get_char_job, get_client_floor,
    one_word_query, get_client_position, get_time, get_client_count,
    get_random_integer, bad_reg4, qbind, qret.

Lemma dispatch_bad_arg_count c l w f :
  quest_func_of_id (q c 0) = Some f ->
  q c 1 <> declared_arg_count f ->
  quest_function_dispatch c l w = (QUEST_FUNC_RET_BAD_ARG_COUNT, w).
Proof.
  intros Hf Hn. unfold quest_function_dispatch. rewrite Hf.
  destruct f; simpl in Hn; qunfold; ztests; reflexivity.
Qed.

Lemma dispatch_bad_ret_count c l w f b :
  quest_func_of_id (q c 0) = Some f ->
  q c 1 = declared_arg_count f ->
  selected_branch f c = Some b ->
  q c 2 <> declared_ret_count b ->
  quest_function_dispatch c l w = (QUEST_FUNC_RET_BAD_RET_COUNT, w).
Proof.
  intros Hf Ha Hb Hn. unfold quest_function_dispatch. rewrite Hf.
  unfold selected_branch in Hb.
  destruct f; simpl in Ha, Hb; qunfold; rewrite Ha; simpl;
    repeat match type of Hb with
    | context [(?a =? ?b)] => destruct (Z.eqb_spec a b)
    | context [(?a <? ?b)] => destruct (Z.ltb_spec a b)
    end; inversion Hb; subst b; simpl in Hn; ztests; reflexivity.
Qed.

Lemma dispatch_invalid_register c l w f b :
  quest_func_of_id (q c 0) = Some f ->
  q c 1 = declared_arg_count f ->
  selected_branch f c = Some b ->
  q c 2 = declared_ret_count b ->
  Exists (fun r => 256 <= r) (register_args f b c) ->
  quest_function_dispatch c l w = (QUEST_FUNC_RET_INVALID_REGISTER, w).
Proof.
  intros Hf Ha Hb Hr Hex. unfold quest_function_dispatch. rewrite Hf.
  unfold selected_branch in Hb.
  destruct f; simpl in Ha, Hb; qunfold; rewrite Ha; simpl;
    repeat match type of Hb with
    | context [(?a =? ?b)] => destruct (Z.eqb_spec a b)
    | context [(?a <? ?b)] => destruct (Z.ltb_spec a b)
    end; inversion Hb; subst b; simpl in Hr, Hex; rewrite Hr; simpl;
    repeat match goal with
    | E : Exists _ (_ :: _) |- _ => apply Exists_cons in E; destruct E
    | E : Exists _ [] |- _ => apply Exists_nil in E; contradiction
    end; ztests; reflexivity.
Qed.

(** C4. For every opcode the dispatcher knows: an [arg_count] other
    than the declared one gives BAD_ARG_COUNT; with the right
    [arg_count], a [return_count] other than the one of the selected
    branch gives BAD_RET_COUNT; with both right, a register-index
    argument of 256 or more gives INVALID_REGISTER; and in each of
    these cases, as after every status other than NO_ERROR, no register
    packet has been sent and the rest of the world is as before. *)
Theorem C4_validation_failures_write_nothing c l w f :
  quest_func_of_id (q c 0) = Some f ->
  (q c 1 <> declared_arg_count f ->
     quest_function_dispatch c l w = (QUEST_FUNC_RET_BAD_ARG_COUNT, w)) /\
  (forall b,
     q c 1 = declared_arg_count f ->
     selected_branch f c = Some b ->
     (q c 2 <> declared_ret_count b ->
        quest_function_dispatch c l w = (QUEST_FUNC_RET_BAD_RET_COUNT, w)) /\
     (q c 2 = declared_ret_count b ->
      Exists (fun r => 256 <= r) (register_args f b c) ->
        quest_function_dispatch c l w
        = (QUEST_FUNC_RET_INVALID_REGISTER, w))) /\
  (forall r w',
     quest_function_dispatch c l w = (r, w') ->
     r <> QUEST_FUNC_RET_NO_ERROR -> w' = w).
Proof.
  intros Hf. split; [|split].
  - eauto using dispatch_bad_arg_count.
  - intros b Ha Hb. split; eauto using dispatch_bad_ret_count,
      dispatch_invalid_register.
  - eauto using quest_function_dispatch_failure.
Qed.

(** C3. The bounded-random opcode with two arguments, one result and
    a result register below 256: [min >= max] gives INVALID_ARG and
    nothing is sent or drawn; [min < max] gives NO_ERROR and sends the
    one word [generator() % (max - min + 1) + min], which lies in
    [min, max] whatever the generator returns, also for [min = 0],
    [max = 0xFFFFFFFF]. *)
Theorem C3_random_integer_in_range c l w :
  quest_func_of_id (q c 0) = Some QUEST_FUNC_GET_RANDOM ->
  q c 1 = 2 -> q c 2 = 1 -> q c 5 < 256 ->
  (q c 3 >= q c 4 ->
     quest_function_dispatch c l w = (QUEST_FUNC_RET_INVALID_ARG, w)) /\
  (q c 3 < q c 4 ->
     let g := u32 (fst (mt19937_genrand_int32 (block_rng w))) in
     let v := g mod (q c 4 - q c 3 + 1) + q c 3 in
     quest_function_dispatch c l w
     = (QUEST_FUNC_RET_NO_ERROR,
        {| sync_sent := sync_sent w ++ [(q c 5, v)];
           block_rng := snd (mt19937_genrand_int32 (block_rng w));
           clock := clock w |}) /\
     q c 3 <= v <= q c 4).
Proof.
  intros Hf Ha Hr Hreg.
  pose proof (q_range c 3) as Hmin. pose proof (q_range c 4) as Hmax.
  unfold quest_function_dispatch. rewrite Hf.
  unfold get_random_integer, qbind, qret. rewrite Ha, Hr. simpl negb.
  cbv iota.
  assert (Hreg' : (q c 5 >? 255) = false) by (rewrite Z.gtb_ltb; ztests; lia).
  rewrite Hreg'. split.
  - intros Hge. rewrite Z.geb_leb. ztests. reflexivity.
  - intros Hlt. cbv zeta.
    set (g := u32 (fst (mt19937_genrand_int32 (block_rng w)))).
    set (v := g mod (q c 4 - q c 3 + 1) + q c 3).
    assert (Hv : 0 <= g mod (q c 4 - q c 3 + 1) < q c 4 - q c 3 + 1)
      by (apply Z.mod_pos_bound; lia).
    split; [|unfold v; lia].
    rewrite Z.geb_leb. ztests.
    unfold genrand, send_sync_register.
    destruct (mt19937_genrand_int32 (block_rng w)) as [g0 r0] eqn:Hg.
    simpl in g. simpl. rewrite Hg.
    rewrite (u32_small (q c 4 - q c 3)) by lia.
    rewrite (Z.mod_small (q c 4 - q c 3 + 1) (2 ^ 64)) by lia.
    fold g.
    rewrite (Z.mod_small (g mod (q c 4 - q c 3 + 1) + q c 3) (2 ^ 64)) by lia.
    rewrite !(u32_small (g mod (q c 4 - q c 3 + 1) + q c 3)) by lia.
    reflexivity.
Qed.

Lemma qbind_run {A B} (m : Q A) (k : A -> Q B) w a w' :
  m w = (a, w') -> qbind m k w = k a w'.
Proof. intros Hm. unfold qbind. rewrite Hm. reflexivity. Qed.

Lemma add_sent_add_sent a b w : add_sent a (add_sent b w) = add_sent (b ++ a) w.
Proof. unfold add_sent. simpl. rewrite <- app_assoc. reflexivity. Qed.

Lemma sync_member_sent f field l i reg w :
  (forall m, member_values f m = [field m]) ->
  (forall b, designated_registers f b = [b]) ->
  sync_member l i reg field w
  = (tt, add_sent (member_writes f (client_at l i) reg) w).
Proof.
  intros Hv Hd. unfold sync_member, member_writes.
  destruct (client_at l i) as [m|]; rewrite ?Hv, Hd; reflexivity.
Qed.

Lemma sync_position_sent l i reg w :
  0 <= reg < 256 ->
  sync_position l i reg w
  = (tt, add_sent (member_writes QUEST_FUNC_GET_POSITION (client_at l i) reg) w).
Proof.
  intros Hreg. unfold sync_position, member_writes, qbind,
    send_sync_register, add_sent.
  rewrite !(u32_small (reg + 1)), !(u32_small (reg + 2)) by lia.
  destruct (client_at l i) as [m|]; simpl; rewrite <- !app_assoc;
    reflexivity.
Qed.

Lemma one_word_query_broadcast f field c l w :
  (forall m, member_values f m = [field m]) ->
  (forall b, designated_registers f b = [b]) ->
  q c 1 = 1 -> q c 3 = 0xFFFFFFFF -> q c 2 = 4 ->
  Forall (fun r => r < 256) [q c 4; q c 5; q c 6; q c 7] ->
  one_word_query field c l w
  = (QUEST_FUNC_RET_NO_ERROR,
     add_sent (member_writes f (client_at l 0) (q c 4) ++
               member_writes f (client_at l 1) (q c 5) ++
               member_writes f (client_at l 2) (q c 6) ++
               member_writes f (client_at l 3) (q c 7)) w).
Proof.
  intros Hv Hd Ha Ht Hr Hregs.
  repeat match goal with
  | E : Forall _ (_ :: _) |- _ => apply Forall_cons_iff in E; destruct E
  end.
  unfold one_word_query, bad_reg4. rewrite Ha, Ht, Hr. simpl negb.
  cbv iota. simpl (_ =? _).  cbv iota.
  ztests. cbn [negb orb].
  repeat (erewrite qbind_run; [|apply (sync_member_sent f); assumption]).
  unfold qret. rewrite !add_sent_add_sent, <- ?app_assoc. reflexivity.
Qed.

Lemma get_client_position_broadcast c l w :
  q c 1 = 1 -> q c 3 = 0xFFFFFFFF -> q c 2 = 4 ->
  Forall (fun r => r < 256) [q c 4; q c 5; q c 6; q c 7] ->
  get_client_position c l w
  = (QUEST_FUNC_RET_NO_ERROR,
     add_sent
       (member_writes QUEST_FUNC_GET_POSITION (client_at l 0) (q c 4) ++
        member_writes QUEST_FUNC_GET_POSITION (client_at l 1) (q c 5) ++
        member_writes QUEST_FUNC_GET_POSITION (client_at l 2) (q c 6) ++
        member_writes QUEST_FUNC_GET_POSITION (client_at l 3) (q c 7)) w).
Proof.
  intros Ha Ht Hr Hregs.
  repeat match goal with
  | E : Forall _ (_ :: _) |- _ => apply Forall_cons_iff in E; destruct E
  end.
  pose proof (q_range c 4). pose proof (q_range c 5).
  pose proof (q_range c 6). pose proof (q_range c 7).
  unfold get_client_position, bad_reg4. rewrite Ha, Ht, Hr. simpl negb.
  cbv iota. simpl (_ =? _). cbv iota.
  ztests. cbn [negb orb].
  repeat (erewrite qbind_run; [|apply sync_position_sent; lia]).
  unfold qret. rewrite !add_sent_add_sent, <- ?app_assoc. reflexivity.
Qed.

Lemma get_client_position_targeted c l w :
  q c 1 = 1 -> q c 3 < 4 -> q c 2 = 1 -> q c 4 < 256 ->
  get_client_position c l w
  = (QUEST_FUNC_RET_NO_ERROR,
     add_sent (member_writes QUEST_FUNC_GET_POSITION
                 (client_at l (q c 3)) (q c 4)) w).
Proof.
  intros Ha Ht Hr Hreg. pose proof (q_range c 4).
  unfold get_client_position. rewrite Ha, Hr. simpl negb. cbv iota.
  ztests. cbn [negb].
  erewrite qbind_run; [|apply sync_position_sent; lia]. reflexivity.
Qed.

Lemma quest_dispatch_broadcast c l w f :
  takes_target f = true ->
  quest_func_of_id (q c 0) = Some f ->
  q c 1 = 1 -> q c 3 = 0xFFFFFFFF -> q c 2 = 4 ->
  Forall (fun r => r < 256) [q c 4; q c 5; q c 6; q c 7] ->
  quest_function_dispatch c l w
  = (QUEST_FUNC_RET_NO_ERROR,
     add_sent (member_writes f (client_at l 0) (q c 4) ++
               member_writes f (client_at l 1) (q c 5) ++
               member_writes f (client_at l 2) (q c 6) ++
               member_writes f (client_at l 3) (q c 7)) w).
Proof.
  intros Ht Hf Ha Hb Hr Hregs. unfold quest_function_dispatch. rewrite Hf.
  destruct f; try discriminate Ht;
    try (apply get_client_position_broadcast; assumption);
    unfold get_section_id, get_char_class, get_char_gender, get_char_race,
      get_char_job, get_client_floor;
    apply one_word_query_broadcast; auto.
Qed.

Lemma read_register_app a b n :
  read_register (a ++ b) n
  = match read_register b n with
    | Some v => Some v
    | None => read_register a n
    end.
Proof.
  induction a as [|[r v] a IH]; simpl.
  - destruct (read_register b n); reflexivity.
  - rewrite IH. destruct (read_register b n); reflexivity.
Qed.

(** Every opcode but the position query sends only to registers it has
    checked against 255. *)
Lemma dispatch_sends_below_256 c l w f :
  quest_func_of_id (q c 0) = Some f ->
  f <> QUEST_FUNC_GET_POSITION ->
  exists ws,
    sync_sent (snd (quest_function_dispatch c l w)) = sync_sent w ++ ws /\
    Forall (fun p => 0 <= fst p < 256) ws.
Proof.
  intros Hf Hpos.
  pose proof (q_range c 3). pose proof (q_range c 4).
  pose proof (q_range c 5). pose proof (q_range c 6).
  pose proof (q_range c 7).
  unfold quest_function_dispatch. rewrite Hf.
  destruct f; try contradiction; qunfold;
    unfold sync_member, send_sync_register, genrand, time_now;
    repeat match goal with
    | |- context [(?a >? ?b)] => rewrite (Z.gtb_ltb a b)
    | |- context [(?a >=? ?b)] => rewrite (Z.geb_leb a b)
    | |- context [(?a =? ?b)] => destruct (Z.eqb_spec a b)
    | |- context [(?a <? ?b)] => destruct (Z.ltb_spec a b)
    | |- context [(?a <=? ?b)] => destruct (Z.leb_spec a b)
    | |- context [client_at ?l ?i] => destruct (client_at l i)
    | |- context [mt19937_genrand_int32 ?r] =>
        destruct (mt19937_genrand_int32 r)
    end;
    simpl;
    try (destruct (mt19937_genrand_int32 (block_rng w)); simpl);
    first
      [ exists (@nil (Z * Z)); split; [symmetry; apply app_nil_r|constructor]
      | rewrite <- ?app_assoc; eexists; split; [reflexivity|];
        repeat constructor; simpl; lia ].
Qed.

(** C1 (the code departs from the specification here). The position query
    checks only its base registers against 255 and then sends [base],
    [base + 1] and [base + 2]: with a base register of 254 or 255, in
    the targeted form as in the broadcast form, the call returns
    NO_ERROR and a packet for register [base + 2 >= 256] is among those
    sent. *)
Theorem C1_position_query_sends_past_register_255 c l w :
  quest_func_of_id (q c 0) = Some QUEST_FUNC_GET_POSITION ->
  q c 1 = 1 ->
  254 <= q c 4 <= 255 ->
  (q c 3 < 4 /\ q c 2 = 1) \/
  (q c 3 = 0xFFFFFFFF /\ q c 2 = 4 /\
   q c 5 < 256 /\ q c 6 < 256 /\ q c 7 < 256) ->
  exists v w',
    quest_function_dispatch c l w = (QUEST_FUNC_RET_NO_ERROR, w') /\
    In (q c 4 + 2, v) (sync_sent w') /\
    256 <= q c 4 + 2.
Proof.
  intros Hf Ha Hbase Hform.
  assert (Hin : forall slot, exists v,
             In (q c 4 + 2, v)
                (member_writes QUEST_FUNC_GET_POSITION slot (q c 4))).
  { intros [m|]; simpl; eauto. }
  unfold quest_function_dispatch. rewrite Hf.
  destruct Hform as [[Ht Hr]|(Ht & Hr & H5 & H6 & H7)].
  - destruct (Hin (client_at l (q c 3))) as [v Hv].
    exists v. eexists. split; [|split].
    + apply get_client_position_targeted; auto; lia.
    + simpl. apply in_or_app. right. exact Hv.
    + lia.
  - destruct (Hin (client_at l 0)) as [v Hv].
    exists v. eexists. split; [|split].
    + apply get_client_position_broadcast; auto.
      repeat constructor; auto; lia.
    + simpl. apply in_or_app. right. apply in_or_app. left. exact Hv.
    + lia.
Qed.

(** C9. A broadcast-form query with one argument, four results and
    four registers below 256 returns NO_ERROR and sends, in the order
    of the group slots 0 to 3, the words of each member to the
    registers designated for it; for an empty slot these words are all
    0xFFFFFFFF, whoever else is present.  In the scenario of the
    specification (class query, registers 5 to 8, members of classes 3
    and 7 in slots 0 and 2) registers 5, 6, 7, 8 end up holding 3,
    0xFFFFFFFF, 7, 0xFFFFFFFF. *)
Theorem C9_broadcast_query_members_in_order c l w f :
  takes_target f = true ->
  quest_func_of_id (q c 0) = Some f ->
  q c 1 = 1 -> q c 3 = 0xFFFFFFFF -> q c 2 = 4 ->
  Forall (fun r => r < 256) [q c 4; q c 5; q c 6; q c 7] ->
  let w' := snd (quest_function_dispatch c l w) in
  quest_function_dispatch c l w
  = (QUEST_FUNC_RET_NO_ERROR,
     add_sent (member_writes f (client_at l 0) (q c 4) ++
               member_writes f (client_at l 1) (q c 5) ++
               member_writes f (client_at l 2) (q c 6) ++
               member_writes f (client_at l 3) (q c 7)) w) /\
  (forall i r,
     (i < 4)%nat ->
     client_at l (Z.of_nat i) = None ->
     In r (designated_registers f (q c (4 + i))) ->
     In (r, 0xFFFFFFFF) (sync_sent w')) /\
  (forall m0 m2,
     f = QUEST_FUNC_GET_CLASS ->
     clients l = [Some m0; None; Some m2; None] ->
     pl_v1_ch_class m0 = 3 -> pl_v1_ch_class m2 = 7 ->
     q c 4 = 5 -> q c 5 = 6 -> q c 6 = 7 -> q c 7 = 8 ->
     read_register (sync_sent w') 5 = Some 3 /\
     read_register (sync_sent w') 6 = Some 0xFFFFFFFF /\
     read_register (sync_sent w') 7 = Some 7 /\
     read_register (sync_sent w') 8 = Some 0xFFFFFFFF).
Proof.
  intros Ht Hf Ha Hb Hr Hregs w'.
  pose proof (quest_dispatch_broadcast c l w f Ht Hf Ha Hb Hr Hregs) as Hrun.
  unfold w'. rewrite Hrun. simpl snd. split; [reflexivity|split].
  - intros i r Hi Hnone Hin. simpl sync_sent.
    assert (Hw : In (r, 0xFFFFFFFF)
              (member_writes f (client_at l (Z.of_nat i)) (q c (4 + i)))).
    { rewrite Hnone. simpl.
      apply (in_map (fun r => (r, 0xFFFFFFFF))) in Hin. exact Hin. }
    apply in_or_app. right.
    destruct i as [|[|[|[|i]]]]; try lia; simpl in Hw;
      repeat (apply in_or_app; first [left; exact Hw | right]).
    exact Hw.
  - intros m0 m2 -> Hcl Hc0 Hc2 H4 H5 H6 H7. simpl sync_sent.
    unfold client_at. rewrite Hcl, H4, H5, H6, H7. simpl.
    rewrite Hc0, Hc2.
    rewrite !read_register_app. simpl. auto.
Qed.

End QuestProperties.

(** The theorems above, applied to the sample frames. *)

Lemma C1_witness :
  exists v w',
    quest_function_dispatch (sample_caller [8; 1; 1; 0; 255]) sample_lobby
      sample_world = (QUEST_FUNC_RET_NO_ERROR, w') /\
    In (257, v) (sync_sent w') /\ 256 <= 257.
Proof.
  apply (C1_position_query_sends_past_register_255
           (sample_caller [8; 1; 1; 0; 255]) sample_lobby sample_world).
  - reflexivity.
  - reflexivity.
  - vm_compute. split; discriminate.
  - left. split; reflexivity.
Defined.

Lemma C3_witness :
  quest_function_dispatch (sample_caller [9; 2; 1; 0; 0xFFFFFFFF; 10])
    sample_lobby sample_world
  = (QUEST_FUNC_RET_NO_ERROR,
     @Build_world sample_quest_env [(10, 123456789)]
       ((123456789 * 1103515245 + 12345) mod 2 ^ 32) 1700000000) /\
  0 <= 123456789 <= 0xFFFFFFFF.
Proof.
  exact (proj2 (C3_random_integer_in_range
                  (sample_caller [9; 2; 1; 0; 0xFFFFFFFF; 10])
                  sample_lobby sample_world
                  eq_refl eq_refl eq_refl eq_refl) eq_refl).
Defined.

Lemma C4_witness :
  quest_function_dispatch (sample_caller [1; 0; 1; 256]) sample_lobby
    sample_world = (QUEST_FUNC_RET_INVALID_REGISTER, sample_world).
Proof.
  apply (proj2 (proj1 (proj2
           (C4_validation_failures_write_nothing
              (sample_caller [1; 0; 1; 256]) sample_lobby sample_world
              QUEST_FUNC_TIME eq_refl))
           BranchPlain eq_refl eq_refl)).
  - reflexivity.
  - left. vm_compute. discriminate.
Defined.

Lemma C9_witness :
  let w' := snd (quest_function_dispatch
                   (sample_caller [3; 1; 4; 0xFFFFFFFF; 5; 6; 7; 8])
                   sample_lobby sample_world) in
  read_register (sync_sent w') 5 = Some 3 /\
  read_register (sync_sent w') 6 = Some 0xFFFFFFFF /\
  read_register (sync_sent w') 7 = Some 7 /\
  read_register (sync_sent w') 8 = Some 0xFFFFFFFF.
Proof.
  intros w'.
  refine (proj2 (proj2
            (C9_broadcast_query_members_in_order
               (sample_caller [3; 1; 4; 0xFFFFFFFF; 5; 6; 7; 8])
               sample_lobby sample_world QUEST_FUNC_GET_CLASS
               eq_refl eq_refl eq_refl eq_refl eq_refl _))
            (sample_member 3) (sample_member 7)
            eq_refl eq_refl eq_refl eq_refl eq_refl eq_refl eq_refl eq_refl).
  repeat constructor.
Defined.

(** * Properties of [scripts.c] *)

Lemma xmlStrcmp_zero a b : xmlStrcmp a b = 0 <-> a = b.
Proof.
  unfold xmlStrcmp. destruct (String.compare a b) eqn:Hc.
  - apply String.compare_eq_iff in Hc. tauto.
  - split; [discriminate|]. intros ->.
    pose proof (String.compare_antisym b b) as Ha. rewrite Hc in Ha.
    discriminate.
  - split; [discriminate|]. intros ->.
    pose proof (String.compare_antisym b b) as Ha. rewrite Hc in Ha.
    discriminate.
Qed.

Section LuaSteps.

Context `{LuaNumber} `{!LuaEnv}.

Lemma set_stack_same (l : lua_State) : set_stack (stack l) l = l.
Proof. destruct l; reflexivity. Qed.

Lemma lbind_run {A B} (m : L A) (k : A -> L B) l a l' :
  m l = Some (a, l') -> lbind m k l = k a l'.
Proof. intros Hm. unfold lbind. rewrite Hm. reflexivity. Qed.

Lemma lua_rawgeti_registry (l : lua_State) reg n :
  heap l !! l_registry l = Some reg ->
  lua_rawgeti LUA_REGISTRYINDEX n l
  = Some (tt, set_stack (table_get reg n :: stack l) l).
Proof.
  intros Hreg. unfold lua_rawgeti, lbind, index2value, hvalue, push.
  simpl. rewrite Hreg. reflexivity.
Qed.

Lemma lua_pop_cons (l : lua_State) v rest :
  stack l = v :: rest -> lua_pop 1 l = Some (tt, set_stack rest l).
Proof.
  intros Hs. unfold lua_pop, lua_settop_pop. rewrite Hs.
  change (length (v :: rest)) with (S (length rest)).
  destruct (Z.leb_spec 1 (Z.of_nat (S (length rest)))); [|lia].
  reflexivity.
Qed.

Lemma table_get_set (t : gmap Z lua_value) k v k' :
  table_get (table_set t k v) k'
  = if decide (k = k') then v else table_get t k'.
Proof.
  unfold table_get, table_set.
  destruct v; rewrite ?lookup_insert, ?lookup_delete;
    destruct (decide (k = k')); reflexivity.
Qed.

(** An index counted from the bottom of the frame. *)
Lemma index2value_at (l : lua_State) idx n v :
  stack l !! n = Some v ->
  idx = Z.of_nat (length (stack l)) - Z.of_nat n ->
  index2value idx l = Some (v, l).
Proof.
  intros Hn ->. pose proof (lookup_lt_Some _ _ _ Hn) as Hlt.
  unfold index2value.
  destruct (Z.eqb_spec (Z.of_nat (length (stack l)) - Z.of_nat n)
              LUA_REGISTRYINDEX) as [He|_];
    [unfold LUA_REGISTRYINDEX in He; lia|].
  destruct (Z.ltb_spec 0 (Z.of_nat (length (stack l)) - Z.of_nat n)); [|lia].
  destruct (Z.leb_spec (Z.of_nat (length (stack l)) - Z.of_nat n)
              (Z.of_nat (length (stack l)))); [|lia].
  simpl.
  replace (Z.to_nat (Z.of_nat (length (stack l))
                     - (Z.of_nat (length (stack l)) - Z.of_nat n)))
    with n by lia.
  rewrite Hn. reflexivity.
Qed.

Lemma index2value_top (l : lua_State) v rest :
  stack l = v :: rest -> index2value (-1) l = Some (v, l).
Proof.
  intros Hs. unfold index2value. rewrite Hs.
  change (length (v :: rest)) with (S (length rest)).
  simpl (_ =? _). simpl (0 <? -1). simpl (-1 <? 0). cbv iota. simpl andb.
  destruct (Z.leb_spec (- -1) (Z.of_nat (S (length rest)))); [|lia].
  reflexivity.
Qed.

Lemma lua_rawgeti_at (l : lua_State) idx n a t k :
  stack l !! n = Some (LTable a) ->
  idx = Z.of_nat (length (stack l)) - Z.of_nat n ->
  heap l !! a = Some t ->
  lua_rawgeti idx k l = Some (tt, set_stack (table_get t k :: stack l) l).
Proof.
  intros Hn Hidx Ht. unfold lua_rawgeti.
  rewrite (lbind_run _ _ l _ l (index2value_at l idx n _ Hn Hidx)).
  unfold lbind, hvalue. rewrite Ht. reflexivity.
Qed.

Lemma lua_rawgeti_top (l : lua_State) a rest t k :
  stack l = LTable a :: rest ->
  heap l !! a = Some t ->
  lua_rawgeti (-1) k l = Some (tt, set_stack (table_get t k :: stack l) l).
Proof.
  intros Hs Ht. unfold lua_rawgeti.
  rewrite (lbind_run _ _ l _ l (index2value_top l _ rest Hs)).
  unfold lbind, hvalue. rewrite Ht. reflexivity.
Qed.

Lemma lua_rawseti_at (l : lua_State) idx n a t k v rest :
  stack l = v :: rest ->
  stack l !! n = Some (LTable a) ->
  idx = Z.of_nat (length (stack l)) - Z.of_nat n ->
  heap l !! a = Some t ->
  lua_rawseti idx k l
  = Some (tt, set_stack rest
                (set_heap (<[a := table_set t k v]> (heap l)) l)).
Proof.
  intros Hs Hn Hidx Ht. unfold lua_rawseti.
  rewrite (lbind_run _ _ l _ l (index2value_at l idx n _ Hn Hidx)).
  unfold lbind at 1, hvalue. rewrite Ht. simpl.
  rewrite (lbind_run _ _ l _ l (index2value_top l v rest Hs)).
  unfold lbind. eapply lua_pop_cons. exact Hs.
Qed.

Lemma lua_rawseti_registry (l : lua_State) reg k v rest :
  stack l = v :: rest ->
  heap l !! l_registry l = Some reg ->
  lua_rawseti LUA_REGISTRYINDEX k l
  = Some (tt, set_stack rest
                (set_heap (<[l_registry l := table_set reg k v]> (heap l)) l)).
Proof.
  intros Hs Hreg. unfold lua_rawseti.
  unfold lbind at 1, index2value at 1. simpl (_ =? _). cbv iota.
  unfold lbind at 1, hvalue. rewrite Hreg. simpl.
  rewrite (lbind_run _ _ l _ l (index2value_top l v rest Hs)).
  unfold lbind. eapply lua_pop_cons. exact Hs.
Qed.

Lemma lua_absindex_second (l : lua_State) :
  lua_absindex (-2) l = Some (Z.of_nat (length (stack l)) - 1, l).
Proof.
  unfold lua_absindex.
  change ((0 <? -2) || (-2 <=? LUA_REGISTRYINDEX)) with false. cbv iota.
  do 2 f_equal. lia.
Qed.

Lemma lua_absindex_registry (l : lua_State) :
  lua_absindex LUA_REGISTRYINDEX l = Some (LUA_REGISTRYINDEX, l).
Proof. reflexivity. Qed.

Lemma to_int_small n : - 2 ^ 31 <= n < 2 ^ 31 -> to_int n = n.
Proof. intros Hn. unfold to_int. rewrite Z.mod_small; lia. Qed.

(** [luaL_unref(L, -2, id)] with the table just below the top: the
    slot [id] takes the head of the free list, and [id] becomes the
    head. *)
Lemma luaL_unref_second (l : lua_State) top a rest t id :
  stack l = top :: LTable a :: rest ->
  heap l !! a = Some t ->
  0 <= id ->
  luaL_unref (-2) id l
  = Some (tt, set_heap
                (<[a := table_set (table_set t id (table_get t freelist))
                          freelist (LInteger id)]> (heap l)) l).
Proof.
  intros Hs Ht Hid. destruct l as [stk hp rg nx pc]. simpl in Hs, Ht.
  subst stk. unfold luaL_unref.
  destruct (Z.leb_spec 0 id); [|lia].
  rewrite (lbind_run _ _ _ _ _ (lua_absindex_second _)).
  erewrite lbind_run;
    [|eapply (lua_rawgeti_at _ _ 1); [reflexivity|simpl; lia|exact Ht]].
  erewrite lbind_run;
    [|eapply (lua_rawseti_at _ _ 2);
      [reflexivity|reflexivity|simpl; lia|exact Ht]].
  unfold lbind at 1, lua_pushinteger, push.
  cbn [stack heap set_stack set_heap l_registry next_obj pcalls].
  erewrite (lua_rawseti_at _ _ 2);
    [|reflexivity|reflexivity|simpl; lia|simpl; apply lookup_insert_eq].
  unfold set_stack, set_heap. simpl. rewrite insert_insert_eq. reflexivity.
Qed.

(** [luaL_ref(L, -2)] with a free slot at the head of the free list:
    the slot is taken off the list and receives the value on top. *)
Lemma luaL_ref_second (l : lua_State) v a rest t r :
  stack l = v :: LTable a :: rest ->
  v <> LNil ->
  heap l !! a = Some t ->
  table_get t freelist = LInteger r ->
  - 2 ^ 31 <= r < 2 ^ 31 -> r <> 0 ->
  luaL_ref (-2) l
  = Some (r, set_stack (LTable a :: rest)
               (set_heap
                  (<[a := table_set (table_set t freelist (table_get t r))
                            r v]> (heap l)) l)).
Proof.
  intros Hs Hv Ht Hfree Hr Hr0. destruct l as [stk hp rg nx pc].
  simpl in Hs, Ht. subst stk. unfold luaL_ref.
  erewrite lbind_run;
    [|unfold lua_isnil; erewrite lbind_run;
      [reflexivity|eapply index2value_top; reflexivity]].
  destruct v; try contradiction;
    (rewrite (lbind_run _ _ _ _ _ (lua_absindex_second _));
     (erewrite lbind_run;
      [|eapply (lua_rawgeti_at _ _ 1); [reflexivity|simpl; lia|exact Ht]]);
     rewrite Hfree;
     (erewrite lbind_run;
      [|unfold lua_tointeger, lua_tointegerx;
        erewrite lbind_run; [|erewrite lbind_run;
          [reflexivity|eapply index2value_top; reflexivity]];
        reflexivity]);
     simpl fst; rewrite (to_int_small r Hr);
     (erewrite lbind_run; [|eapply lua_pop_cons; reflexivity]);
     destruct (Z.eqb_spec r 0) as [|_]; [contradiction|]; cbn [negb];
     cbv iota;
     (erewrite lbind_run;
      [|erewrite lbind_run;
        [|eapply (lua_rawgeti_at _ _ 1); [reflexivity|simpl; lia|exact Ht]];
        erewrite lbind_run;
        [|eapply (lua_rawseti_at _ _ 2);
          [reflexivity|reflexivity|simpl; lia|exact Ht]];
        reflexivity]);
     (erewrite lbind_run;
      [|eapply (lua_rawseti_at _ _ 1);
        [reflexivity|reflexivity|simpl; lia
        |simpl; apply lookup_insert_eq]]);
     unfold lret, set_stack, set_heap; simpl; rewrite insert_insert_eq;
     reflexivity).
Qed.

(** [luaL_unref(L, LUA_REGISTRYINDEX, ref)] is always defined. *)
Lemma luaL_unref_registry (l : lua_State) reg ref :
  heap l !! l_registry l = Some reg ->
  luaL_unref LUA_REGISTRYINDEX ref l
  = Some (tt,
          if 0 <=? ref then
            set_heap
              (<[l_registry l :=
                   table_set (table_set reg ref (table_get reg freelist))
                     freelist (LInteger ref)]> (heap l)) l
          else l).
Proof.
  intros Hreg. destruct l as [stk hp rg nx pc]. simpl in Hreg.
  unfold luaL_unref. destruct (Z.leb_spec 0 ref); [|reflexivity].
  rewrite (lbind_run _ _ _ _ _ (lua_absindex_registry _)).
  erewrite lbind_run; [|eapply lua_rawgeti_registry; exact Hreg].
  erewrite lbind_run;
    [|eapply lua_rawseti_registry; [reflexivity|exact Hreg]].
  unfold lbind at 1, lua_pushinteger, push.
  cbn [stack heap set_stack set_heap l_registry next_obj pcalls].
  erewrite lua_rawseti_registry;
    [|reflexivity|simpl; apply lookup_insert_eq].
  unfold set_stack, set_heap. simpl. rewrite insert_insert_eq. reflexivity.
Qed.

Lemma luaL_loadfile_failed (l : lua_State) filename :
  is_LUA_OK (fst (loadfile_outcome filename)) = false ->
  luaL_loadfile filename l
  = Some (fst (loadfile_outcome filename),
          set_stack (LString (snd (loadfile_outcome filename)) :: stack l) l).
Proof.
  unfold luaL_loadfile. destruct (loadfile_outcome filename) as [[] msg];
    simpl; intros Hst; try discriminate; reflexivity.
Qed.

Lemma luaL_loadfile_loaded (l : lua_State) filename :
  fst (loadfile_outcome filename) = LUA_OK ->
  luaL_loadfile filename l
  = Some (LUA_OK,
          {| stack := LFunction {| cl_id := next_obj l;
                                   cl_chunk := filename |} :: stack l;
             heap := heap l;
             l_registry := l_registry l;
             next_obj := S (next_obj l);
             pcalls := pcalls l |}).
Proof.
  unfold luaL_loadfile. destruct (loadfile_outcome filename) as [st msg].
  simpl. intros ->. reflexivity.
Qed.

End LuaSteps.

Section ScriptProperties.

Context `{LuaNumber} `{!LuaEnv} `{!XmlEnv} `{!ScriptsHeader}.

Lemma put_lstate_same (s : script_state) : put_lstate (lstate s) s = s.
Proof. destruct s; reflexivity. Qed.

Lemma bind_run {A B} (m : M A) (k : A -> M B) s a s' :
  m s = Some (a, s') -> bind m k s = k a s'.
Proof. intros Hm. unfold bind. rewrite Hm. reflexivity. Qed.

Lemma lua_run {A} (op : L A) s l a l' :
  lstate s = Some l -> op l = Some (a, l') ->
  lua op s = Some (a, put_lstate (Some l') s).
Proof. intros Hl Hop. unfold lua. rewrite Hl, Hop. reflexivity. Qed.

Lemma get_script_id_run s event id :
  0 <= event < ScriptActionCount ->
  binding s event = Some id ->
  get_script_id event s = Some (id, s).
Proof.
  intros Hev Hb. unfold get_script_id, in_script_ids, binding in *.
  rewrite Hb.
  destruct (Z.leb_spec 0 event); [|lia].
  destruct (Z.ltb_spec event ScriptActionCount); [|lia]. reflexivity.
Qed.

(** With a script table loaded and no binding for the event, both
    gateways push the table, pop it again and return 0. *)
Lemma script_unbound_run s l event (k : Z -> M Z) :
  lstate s = Some l ->
  is_Some (heap l !! l_registry l) ->
  0 <= event < ScriptActionCount ->
  binding s event = Some 0 ->
  bind (lua (lua_rawgeti LUA_REGISTRYINDEX (scripts_ref s)))
    (fun _ => bind (get_script_id event)
                (fun id => if id =? 0 then script_out 0 else k id)) s
  = Some (0, s).
Proof.
  intros Hl [reg Hreg] Hev Hb.
  erewrite bind_run;
    [|eapply lua_run; [exact Hl|apply lua_rawgeti_registry; exact Hreg]].
  erewrite bind_run; [|apply get_script_id_run; [exact Hev|exact Hb]].
  simpl. unfold script_out.
  erewrite bind_run;
    [|eapply lua_run; [reflexivity|eapply lua_pop_cons; reflexivity]].
  unfold ret. destruct s as [ls r ids dbg]. simpl in Hl. subst ls.
  destruct l. reflexivity.
Qed.

(** C7. When no interpreter exists, when no script table is loaded,
    or when no handler is bound for the event category, [script_execute]
    and [script_execute_pkt] return 0 and leave the interpreter as it
    was: its stack holds no marshalled argument and the record of calls
    has not grown. *)
Theorem C7_unbound_event_is_noop s event ap c pkt len :
  script_state_ok s ->
  0 <= event < ScriptActionCount ->
  lstate s = None \/ scripts_ref s = 0 \/ binding s event = Some 0 ->
  script_execute event ap s = Some (0, s) /\
  script_execute_pkt event c pkt len s = Some (0, s).
Proof.
  intros Hok Hev Hno.
  unfold script_execute, script_execute_pkt.
  rewrite !(bind_run get_scripts_ref _ s (scripts_ref s) s eq_refl).
  destruct (Z.eqb_spec (scripts_ref s) 0) as [Hz|Hnz]; [split; reflexivity|].
  destruct (lstate s) as [l|] eqn:Hl;
    [|exfalso; apply Hnz; apply (ok_no_lstate s Hok); exact Hl].
  destruct Hno as [Hn|[Hn|Hn]]; [discriminate|contradiction|].
  pose proof (ok_registry s Hok l Hl) as Hreg.
  split; apply (script_unbound_run s l event); assumption.
Qed.

Lemma binding_in_range s action :
  length (script_ids s) = Z.to_nat ScriptActionCount ->
  0 <= action < ScriptActionCount ->
  exists id, binding s action = Some id.
Proof.
  intros Hlen Hact. unfold binding.
  destruct (lookup_lt_is_Some_2 (script_ids s) (Z.to_nat action)) as [id Hid].
  - rewrite Hlen. lia.
  - exists id. exact Hid.
Qed.

(** What [script_remove] returns.  Without a loaded script table it
    does nothing and returns 0, bound or not; with one, it returns -1
    and only logs a warning when the category has no binding; and
    whenever it returns, it returns 0 exactly when no table is loaded
    or the category is bound. *)
Lemma script_remove_status s action :
  length (script_ids s) = Z.to_nat ScriptActionCount ->
  0 <= action < ScriptActionCount ->
  (scripts_ref s = 0 -> script_remove action s = Some (0, s)) /\
  (scripts_ref s <> 0 -> binding s action = Some 0 ->
     script_remove action s
     = Some (-1, add_debug DBG_WARN (MsgUnregisterMissing action) s)) /\
  (forall r s',
     script_remove action s = Some (r, s') ->
     (r = 0 <-> scripts_ref s = 0 \/ bound s action)).
Proof.
  intros Hlen Hact.
  destruct (binding_in_range s action Hlen Hact) as [id Hid].
  unfold script_remove.
  rewrite (bind_run get_scripts_ref _ s (scripts_ref s) s eq_refl).
  destruct (Z.eqb_spec (scripts_ref s) 0) as [Hz|Hnz].
  - split; [reflexivity|split; [contradiction|]].
    intros r s' Hrun. unfold ret in Hrun. inversion Hrun; subst r s'.
    split; [intros _; left; exact Hz|reflexivity].
  - rewrite (bind_run _ _ s id s (get_script_id_run s action id Hact Hid)).
    split; [contradiction|split].
    + intros _ Hb. rewrite Hid in Hb. inversion Hb; subst id. reflexivity.
    + intros r s'. destruct (Z.eqb_spec id 0) as [->|Hid0].
      * intros Hrun. inversion Hrun; subst. split; [discriminate|].
        intros [Hc|(id' & Hb & Hne)]; [contradiction|].
        rewrite Hid in Hb. inversion Hb; subst. contradiction.
      * unfold bind, ret. intros Hrun.
        repeat match type of Hrun with
        | match ?m with Some _ => _ | None => _ end = _ =>
            destruct m as [[[] ?]|]; [|discriminate Hrun]
        end.
        inversion Hrun; subst. split; [|reflexivity].
        intros _. right. exists id. split; assumption.
Qed.

Lemma lua_keeps_bindings {A} (op : L A) s a s' :
  lua op s = Some (a, s') ->
  script_ids s' = script_ids s /\ scripts_ref s' = scripts_ref s /\
  debug_out s' = debug_out s.
Proof.
  unfold lua. destruct (lstate s) as [l|]; [|discriminate].
  destruct (op l) as [[a' l']|]; [|discriminate].
  intros Hrun. inversion Hrun; subst. repeat split.
Qed.

(** C6. The claim fails on a bound category.  With a script table
    loaded and the category bound, [script_remove] pushes the script
    table and calls [luaL_unref(lstate, -2, id)]: with nothing else on
    the interpreter's stack the index -2 lies below the one value
    pushed and the call is undefined.  Whenever the call does return,
    it returns 0 and the category is bound to the same slot as before:
    the binding is not removed. *)
Theorem C6_bound_binding_is_not_removed s l reg action id :
  lstate s = Some l ->
  scripts_ref s <> 0 ->
  heap l !! l_registry l = Some reg ->
  0 <= action < ScriptActionCount ->
  binding s action = Some id ->
  0 < id ->
  (stack l = [] -> script_remove action s = None) /\
  (forall r s',
     script_remove action s = Some (r, s') ->
     r = 0 /\ binding s' action = Some id /\ bound s' action).
Proof.
  intros Hl Hnz Hreg Hact Hb Hid.
  unfold script_remove.
  rewrite (bind_run get_scripts_ref _ s (scripts_ref s) s eq_refl).
  destruct (Z.eqb_spec (scripts_ref s) 0) as [|_]; [contradiction|].
  rewrite (bind_run _ _ s id s (get_script_id_run s action id Hact Hb)).
  destruct (Z.eqb_spec id 0) as [|_]; [lia|].
  erewrite bind_run;
    [|eapply lua_run; [exact Hl|eapply lua_rawgeti_registry; exact Hreg]].
  split.
  - intros Hs. destruct l as [stk hp rg nx pc]. simpl in Hs. subst stk.
    unfold bind, lua, put_lstate, set_stack. cbn [lstate stack].
    unfold luaL_unref. destruct (Z.leb_spec 0 id) as [_|]; [|lia].
    reflexivity.
  - intros r s'. unfold bind at 1.
    destruct (lua (luaL_unref (-2) id) _) as [[[] s2]|] eqn:Hstep2;
      [|discriminate].
    unfold bind at 1.
    destruct (lua (lua_pop 1) s2) as [[[] s3]|] eqn:Hstep3; [|discriminate].
    intros Hrun. inversion Hrun; subst r s'.
    destruct (lua_keeps_bindings _ _ _ _ Hstep2) as (Hids2 & _ & _).
    destruct (lua_keeps_bindings _ _ _ _ Hstep3) as (Hids3 & _ & _).
    assert (Hkeep : binding s3 action = Some id).
    { unfold binding in *. rewrite Hids3, Hids2. exact Hb. }
    split; [reflexivity|]. split; [exact Hkeep|].
    exists id. split; [exact Hkeep|lia].
Qed.

Lemma length_list_ascii_of_string str :
  length (list_ascii_of_string str) = String.length str.
Proof. induction str as [|ch str IH]; simpl; [|rewrite IH]; reflexivity. Qed.

(** [snprintf] always ends what it writes with a NUL: when the text
    has 63 characters or more, the NUL is at index 63. *)
Lemma snprintf_nul_terminates buf out :
  (63 <= String.length out)%nat ->
  nth 63 (snprintf buf 64 out) Ascii.zero = Ascii.zero.
Proof.
  intros Hlen. unfold snprintf.
  assert (Htake : length (take 63 (list_ascii_of_string out)) = 63%nat).
  { rewrite length_take, length_list_ascii_of_string. lia. }
  rewrite app_nth2; rewrite Htake; [|lia]. reflexivity.
Qed.

Lemma snprintf_keeps_tail buf out :
  length buf = 64%nat ->
  (String.length out < 63)%nat ->
  nth 63 (snprintf buf 64 out) Ascii.zero = nth 63 buf Ascii.zero.
Proof.
  intros Hbuf Hlen. unfold snprintf.
  assert (Htake : length (take 63 (list_ascii_of_string out))
                  = String.length out).
  { rewrite length_take, length_list_ascii_of_string. lia. }
  rewrite Htake.
  rewrite app_nth2; rewrite Htake; [|lia].
  replace (63 - String.length out)%nat with (S (62 - String.length out))
    by lia.
  cbn [app nth].
  rewrite !nth_lookup, lookup_drop.
  replace (S (String.length out) + (62 - String.length out))%nat
    with 63%nat by lia.
  reflexivity.
Qed.

(** C10 (the code departs from the specification here). For a file name of 55
    bytes or more, whose prefixed form has 63 bytes or more, the byte
    [realfn[63]] that [script_add] tests is the NUL written by
    [snprintf], whatever the array held before: the name is not
    rejected, and the call goes on to load [filename] as it is. *)
Theorem C10_long_filename_is_not_rejected realfn0 action filename s :
  scripts_ref s <> 0 ->
  (55 <= String.length filename)%nat ->
  nth 63 (snprintf realfn0 64 ("scripts/" ++ filename)) Ascii.zero
  = Ascii.zero /\
  script_add realfn0 action filename s
  = script_add_locked (scripts_ref s) action filename s.
Proof.
  intros Hnz Hlen.
  assert (Hnul : nth 63 (snprintf realfn0 64 ("scripts/" ++ filename))
                   Ascii.zero = Ascii.zero).
  { apply snprintf_nul_terminates.
    change (63 <= 8 + String.length filename)%nat. lia. }
  split; [exact Hnul|].
  unfold script_add.
  rewrite (bind_run get_scripts_ref _ s (scripts_ref s) s eq_refl).
  destruct (Z.eqb_spec (scripts_ref s) 0) as [Hz|_]; [contradiction|].
  cbv zeta. rewrite Hnul. reflexivity.
Qed.

Lemma put_script_id_run s action id :
  length (script_ids s) = Z.to_nat ScriptActionCount ->
  0 <= action < ScriptActionCount ->
  put_script_id action id s
  = Some (tt, {| lstate := lstate s;
                 scripts_ref := scripts_ref s;
                 script_ids := <[Z.to_nat action := id]> (script_ids s);
                 debug_out := debug_out s |}).
Proof.
  intros Hlen Hact. unfold put_script_id, in_script_ids.
  destruct (Z.leb_spec 0 action); [|lia].
  destruct (Z.ltb_spec action ScriptActionCount); [|lia].
  rewrite Hlen.
  destruct (Nat.ltb_spec (Z.to_nat action) (Z.to_nat ScriptActionCount));
    [reflexivity|lia].
Qed.

(** [script_add_locked] when the file does not load: the message is
    popped, -1 is returned, and neither the bindings nor the tables
    have changed. *)
Lemma script_add_locked_failed s l reg action filename :
  lstate s = Some l ->
  heap l !! l_registry l = Some reg ->
  is_LUA_OK (fst (loadfile_outcome filename)) = false ->
  script_add_locked (scripts_ref s) action filename s
  = Some (-1,
          put_lstate
            (Some (set_stack (table_get reg (scripts_ref s) :: stack l) l))
            (add_debug DBG_WARN (MsgCouldntLoad filename) s)).
Proof.
  intros Hl Hreg Hst. unfold script_add_locked.
  erewrite bind_run;
    [|eapply lua_run; [exact Hl|apply lua_rawgeti_registry; exact Hreg]].
  erewrite bind_run;
    [|eapply lua_run; [reflexivity|apply luaL_loadfile_failed; exact Hst]].
  cbv beta. rewrite Hst. cbn [negb]. cbv beta iota.
  erewrite bind_run; [|reflexivity].
  erewrite bind_run;
    [|eapply lua_run; [reflexivity|eapply lua_pop_cons; reflexivity]].
  reflexivity.
Qed.

(** [script_add_locked] when the file loads and the category is bound
    to [id]: the slot [id] of the script table is freed and taken
    again for the new function. *)
Lemma script_add_locked_rebound s l reg a t action filename id :
  lstate s = Some l ->
  heap l !! l_registry l = Some reg ->
  table_get reg (scripts_ref s) = LTable a ->
  heap l !! a = Some t ->
  length (script_ids s) = Z.to_nat ScriptActionCount ->
  0 <= action < ScriptActionCount ->
  fst (loadfile_outcome filename) = LUA_OK ->
  binding s action = Some id ->
  0 < id < 2 ^ 31 ->
  let f := LFunction {| cl_id := next_obj l; cl_chunk := filename |} in
  let t2 := table_set (table_set t id (table_get t freelist))
              freelist (LInteger id) in
  let t4 := table_set (table_set t2 freelist (table_get t2 id)) id f in
  script_add_locked (scripts_ref s) action filename s
  = Some (0,
          {| lstate := Some {| stack := stack l;
                               heap := <[a := t4]> (heap l);
                               l_registry := l_registry l;
                               next_obj := S (next_obj l);
                               pcalls := pcalls l |};
             scripts_ref := scripts_ref s;
             script_ids := <[Z.to_nat action := id]> (script_ids s);
             debug_out := debug_out s ++
                          [(DBG_WARN, MsgRedefining action);
                           (DBG_LOG, MsgAdded action id)] |}).
Proof.
  intros Hl Hreg Ha Ht Hlen Hact Hok Hb Hid f t2 t4.
  destruct s as [ls ref ids dbg]. simpl in Hl, Ha, Hlen. subst ls.
  destruct l as [stk hp rg nx pc]. simpl in Hreg, Ht, f.
  unfold script_add_locked.
  erewrite bind_run;
    [|eapply lua_run; [reflexivity|apply lua_rawgeti_registry; exact Hreg]].
  cbn [scripts_ref]. rewrite Ha.
  erewrite bind_run;
    [|eapply lua_run; [reflexivity|apply luaL_loadfile_loaded; exact Hok]].
  cbv beta. cbn [negb is_LUA_OK]. cbv beta iota.
  erewrite bind_run; [|apply get_script_id_run; [exact Hact|exact Hb]].
  cbv beta.
  destruct (Z.eqb_spec id 0) as [|_]; [lia|]. cbn [negb]. cbv beta iota.
  erewrite bind_run;
    [|erewrite bind_run; [|reflexivity];
      eapply lua_run;
      [reflexivity
      |eapply luaL_unref_second; [reflexivity|exact Ht|lia]]].
  erewrite bind_run;
    [|eapply lua_run;
      [reflexivity
      |eapply (luaL_ref_second _ _ _ _ t2 id);
        [reflexivity|discriminate|simpl; apply lookup_insert_eq
        |unfold t2; rewrite table_get_set; reflexivity|lia|lia]]].
  erewrite bind_run; [|apply put_script_id_run; [exact Hlen|exact Hact]].
  erewrite bind_run; [|reflexivity].
  erewrite bind_run;
    [|eapply lua_run; [reflexivity|eapply lua_pop_cons; reflexivity]].
  unfold ret, put_lstate, add_debug, set_stack, set_heap. simpl.
  rewrite insert_insert_eq, <- app_assoc. reflexivity.
Qed.

(** [script_add] on an initialized registry (an interpreter whose
    registry holds the script table under [scripts_ref]): when the file
    cannot be loaded it returns -1 and every binding, with the handler
    behind it, is as before; when the call reaches the loader, the file
    loads and the category is already bound, it returns 0, logs the
    redefinition as a warning, and the category is bound to the
    function just loaded, a new object, while the other slots of the
    script table and the other bindings are unchanged. *)
Lemma script_add_keeps_or_replaces s l reg a t realfn0 action filename :
  lstate s = Some l ->
  scripts_ref s <> 0 ->
  heap l !! l_registry l = Some reg ->
  table_get reg (scripts_ref s) = LTable a ->
  a <> l_registry l ->
  heap l !! a = Some t ->
  length (script_ids s) = Z.to_nat ScriptActionCount ->
  0 <= action < ScriptActionCount ->
  (is_LUA_OK (fst (loadfile_outcome filename)) = false ->
   exists s',
     script_add realfn0 action filename s = Some (-1, s') /\
     script_ids s' = script_ids s /\
     scripts_ref s' = scripts_ref s /\
     scripts_table s' = scripts_table s /\
     forall e, handler_of s' e = handler_of s e) /\
  (forall id,
     nth 63 (snprintf realfn0 64 ("scripts/" ++ filename)) Ascii.zero
     = Ascii.zero ->
     fst (loadfile_outcome filename) = LUA_OK ->
     binding s action = Some id ->
     0 < id < 2 ^ 31 ->
     let newf := {| cl_id := next_obj l; cl_chunk := filename |} in
     exists s' t',
       script_add realfn0 action filename s = Some (0, s') /\
       In (DBG_WARN, MsgRedefining action) (debug_out s') /\
       scripts_ref s' = scripts_ref s /\
       (forall e, 0 <= e -> e <> action -> binding s' e = binding s e) /\
       binding s' action = Some id /\
       scripts_table s' = Some (a, t') /\
       (forall k, k <> id -> table_get t' k = table_get t k) /\
       handler_of s' action = Some (LFunction newf) /\
       (forall old,
          handler_of s action = Some (LFunction old) ->
          cl_id old <> next_obj l ->
          handler_of s' action <> handler_of s action) /\
       stack <$> lstate s' = Some (stack l)).
Proof.
  intros Hl Hnz Hreg Ha Hne Ht Hlen Hact. split.
  - intros Hst. unfold script_add.
    rewrite (bind_run get_scripts_ref _ s (scripts_ref s) s eq_refl).
    destruct (Z.eqb_spec (scripts_ref s) 0) as [|_]; [contradiction|].
    cbv zeta.
    destruct (negb (Ascii.eqb
                (nth 63 (snprintf realfn0 64 ("scripts/" ++ filename))
                   Ascii.zero) Ascii.zero)).
    + eexists. split; [reflexivity|]. repeat split.
    + rewrite (script_add_locked_failed s l reg action filename Hl Hreg Hst).
      eexists. split; [reflexivity|].
      assert (Htab : scripts_table
                       (put_lstate
                          (Some (set_stack
                                   (table_get reg (scripts_ref s) :: stack l)
                                   l))
                          (add_debug DBG_WARN (MsgCouldntLoad filename) s))
                     = scripts_table s).
      { unfold scripts_table. rewrite Hl. reflexivity. }
      repeat split; [exact Htab|].
      intros e. unfold handler_of. rewrite Htab. reflexivity.
  - intros id Hnul Hok Hb Hid newf.
    assert (Hrun : script_add realfn0 action filename s
                   = script_add_locked (scripts_ref s) action filename s).
    { unfold script_add.
      rewrite (bind_run get_scripts_ref _ s (scripts_ref s) s eq_refl).
      destruct (Z.eqb_spec (scripts_ref s) 0) as [|_]; [contradiction|].
      cbv zeta. rewrite Hnul. reflexivity. }
    rewrite Hrun.
    rewrite (script_add_locked_rebound s l reg a t action filename id
               Hl Hreg Ha Ht Hlen Hact Hok Hb Hid).
    set (t2 := table_set (table_set t id (table_get t freelist))
                 freelist (LInteger id)).
    set (t4 := table_set (table_set t2 freelist (table_get t2 id)) id
                 (LFunction newf)).
    assert (Hslots : forall k, table_get t4 k
              = if decide (k = id) then LFunction newf else table_get t k).
    { intros k. unfold t4, t2. rewrite !table_get_set. unfold freelist.
      repeat case_decide; subst; try lia; reflexivity. }
    assert (Hidx : (Z.to_nat action < length (script_ids s))%nat)
      by (rewrite Hlen; lia).
    match goal with
    | |- context [Some (0, ?st)] => set (s' := st)
    end.
    exists s', t4. split; [reflexivity|].
    assert (Hbind : binding s' action = Some id).
    { unfold binding, s'. cbn [script_ids].
      apply list_lookup_insert_eq. exact Hidx. }
    assert (Htab : scripts_table s' = Some (a, t4)).
    { unfold scripts_table, s'. cbn [lstate heap l_registry scripts_ref].
      simpl. rewrite lookup_insert_ne by exact Hne. rewrite Hreg. simpl.
      rewrite Ha. rewrite lookup_insert_eq. reflexivity. }
    assert (Hh : handler_of s' action = Some (LFunction newf)).
    { unfold handler_of. rewrite Hbind. simpl.
      destruct (Z.eqb_spec id 0); [lia|]. rewrite Htab. simpl.
      rewrite Hslots. case_decide; [reflexivity|contradiction]. }
    repeat split.
    + cbn [debug_out]. apply in_or_app. right. left. reflexivity.
    + intros e He Hea. unfold binding, s'. cbn [script_ids].
      apply list_lookup_insert_ne. lia.
    + exact Hbind.
    + exact Htab.
    + intros k Hk. rewrite Hslots. case_decide; [contradiction|reflexivity].
    + exact Hh.
    + intros old Hold Hfresh. rewrite Hh, Hold. intros Heq.
      inversion Heq as [Hcl]. apply Hfresh. rewrite <- Hcl. reflexivity.
Qed.

(** C5. The claim fails for a source that loads.  For a file name of
    less than 55 bytes the test [if(realfn[63])] reads a byte of the
    array that [snprintf] has not written: when that byte is not zero
    [script_add] returns -1 with the long-name warning before the
    loader is reached, whether or not the file would load and whether
    or not the category is bound.  The interpreter, every binding and
    every handler are as before: nothing is replaced. *)
Theorem C5_loadable_short_name_is_rejected s realfn0 action filename :
  scripts_ref s <> 0 ->
  length realfn0 = 64%nat ->
  (String.length filename < 55)%nat ->
  nth 63 realfn0 Ascii.zero <> Ascii.zero ->
  exists s',
    script_add realfn0 action filename s = Some (-1, s') /\
    debug_out s' = debug_out s ++ [(DBG_WARN, MsgLongFilename)] /\
    lstate s' = lstate s /\
    (forall e, binding s' e = binding s e) /\
    scripts_table s' = scripts_table s /\
    (forall e, handler_of s' e = handler_of s e).
Proof.
  intros Hnz Hbuf Hlen Hbyte.
  assert (Hkeep : nth 63 (snprintf realfn0 64 ("scripts/" ++ filename))
                    Ascii.zero = nth 63 realfn0 Ascii.zero).
  { apply snprintf_keeps_tail; [exact Hbuf|].
    change (8 + String.length filename < 63)%nat. lia. }
  exists (add_debug DBG_WARN MsgLongFilename s). split.
  - unfold script_add.
    rewrite (bind_run get_scripts_ref _ s (scripts_ref s) s eq_refl).
    destruct (Z.eqb_spec (scripts_ref s) 0) as [|_]; [contradiction|].
    cbv zeta. rewrite Hkeep.
    destruct (Ascii.eqb_spec (nth 63 realfn0 Ascii.zero) Ascii.zero)
      as [|_]; [contradiction|]. reflexivity.
  - repeat split.
Qed.

Lemma lua_push_run s l v :
  lstate s = Some l ->
  lua (push v) s = Some (tt, put_lstate (Some (set_stack (v :: stack l) l)) s).
Proof. intros Hl. unfold lua. rewrite Hl. reflexivity. Qed.

(** One turn of the argument loop, once the pushed value is known. *)
Ltac push_args_turn IH Hl :=
  (erewrite bind_run; [|apply lua_push_run; exact Hl]);
  (erewrite IH; [|reflexivity]);
  cbn [length rev]; rewrite <- app_assoc, Nat2Z.inj_succ;
  match goal with
  | |- script_push_args _ ?m _ = script_push_args _ ?m' _ =>
      replace m with m' by lia
  end;
  reflexivity.

(** The loop of [script_execute] over a run of well-formed arguments:
    each value is pushed and counted. *)
Lemma script_push_args_prefix pre vs :
  va_pushes pre vs ->
  forall rest n s l,
    lstate s = Some l ->
    script_push_args (pre ++ rest) n s
    = script_push_args rest (n + Z.of_nat (length vs))
        (put_lstate (Some (set_stack (rev vs ++ stack l) l)) s).
Proof.
  induction 1 as [|tag arg ap vs Htag Hdec _ IH|tag arg ap vs Htag Hdec _ IH
                  |tag arg ap vs Htag Hdec _ IH|tag arg ap vs Htag Hdec _ IH
                  |tag arg ap vs Htag Hdec _ IH|tag arg ap vs Htag Hdec _ IH
                  |tag len str ap vs Htag Hdec Hlen _ IH
                  |tag str ap vs Htag Hdec _ IH];
    intros rest n s l Hl;
    [simpl; rewrite Z.add_0_r; destruct s as [ls r ids dbg]; simpl in Hl;
     subst ls; destruct l; reflexivity|..];
    simpl; (destruct (Z.eqb_spec tag 0); [contradiction|]); rewrite Hdec.
  1-6: push_args_turn IH Hl.
  - assert (Hpush : lua_pushlstring str len
                    = push (LString (substring 0 (Z.to_nat len) str))).
    { unfold lua_pushlstring.
      destruct (Z.leb_spec 0 len); [|lia].
      destruct (Z.leb_spec len (Z.of_nat (String.length str))); [|lia].
      reflexivity. }
    rewrite Hpush. push_args_turn IH Hl.
  - assert (Hpush : lua_pushstring str
                    = push (match str with
                            | Some s => LString s
                            | None => LNil
                            end)).
    { destruct str; reflexivity. }
    rewrite Hpush. push_args_turn IH Hl.
Qed.

Lemma lua_pop_app (l : lua_State) xs ys :
  stack l = xs ++ ys ->
  lua_pop (Z.of_nat (length xs)) l = Some (tt, set_stack ys l).
Proof.
  intros Hs. unfold lua_pop, lua_settop_pop. rewrite Hs, length_app.
  destruct (Z.leb_spec 0 (Z.of_nat (length xs))); [|lia].
  destruct (Z.leb_spec (Z.of_nat (length xs))
              (Z.of_nat (length xs + length ys))); [|lia].
  simpl. rewrite Nat2Z.id, drop_app_length. reflexivity.
Qed.

(** C8 (the code departs from the specification here). With a handler bound,
    an argument list in which a tag that is not a known [SCRIPT_ARG_*]
    follows any run of well-formed arguments makes [script_execute] log
    a warning and return 0 without any [lua_pcall]; but
    [lua_pop(lstate, argcount)] removes the arguments and leaves the
    handler on the stack, and the shared [lua_pop(lstate, 1)] at [out]
    removes only that: the script table stays on the interpreter's
    stack, which is one slot deeper than before the call. *)
Theorem C8_unknown_tag_leaves_table_on_stack
    s l reg a t event id pre vs tag ap :
  lstate s = Some l ->
  scripts_ref s <> 0 ->
  heap l !! l_registry l = Some reg ->
  table_get reg (scripts_ref s) = LTable a ->
  heap l !! a = Some t ->
  0 <= event < ScriptActionCount ->
  binding s event = Some id -> id <> 0 ->
  va_pushes pre vs ->
  tag <> 0 -> script_arg_of_tag tag = None ->
  script_execute event (pre ++ VaInt tag :: ap) s
  = Some (0, put_lstate (Some (set_stack (LTable a :: stack l) l))
               (add_debug DBG_WARN (MsgInvalidArgType tag) s)).
Proof.
  intros Hl Hnz Hreg Ha Ht Hev Hb Hid Hpre Htag Hnone.
  destruct s as [ls ref ids dbg]. simpl in Hl, Hnz, Ha. subst ls.
  destruct l as [stk hp rg nx pc]. simpl in Hreg, Ht.
  unfold script_execute.
  erewrite bind_run; [|reflexivity]. cbv beta. cbn [scripts_ref].
  destruct (Z.eqb_spec ref 0) as [|_]; [contradiction|].
  erewrite bind_run;
    [|eapply lua_run; [reflexivity|apply lua_rawgeti_registry; exact Hreg]].
  rewrite Ha.
  erewrite bind_run; [|apply get_script_id_run; [exact Hev|exact Hb]].
  cbv beta. destruct (Z.eqb_spec id 0) as [|_]; [contradiction|].
  erewrite bind_run;
    [|eapply lua_run;
      [reflexivity
      |eapply lua_rawgeti_top; [reflexivity|exact Ht]]].
  erewrite bind_run;
    [|erewrite (script_push_args_prefix pre vs Hpre); [|reflexivity];
      unfold script_push_args;
      destruct (Z.eqb_spec tag 0) as [|_]; [contradiction|];
      rewrite Hnone;
      erewrite bind_run; [|reflexivity];
      erewrite bind_run;
        [|eapply lua_run;
          [reflexivity
          |rewrite Z.add_0_l, <- length_rev; eapply lua_pop_app; reflexivity]];
      reflexivity].
  cbv beta iota. unfold script_out.
  erewrite bind_run;
    [|eapply lua_run; [reflexivity|eapply lua_pop_cons; reflexivity]].
  reflexivity.
Qed.



End ScriptProperties.

(** The globals as the program starts, and as [cleanup_scripts] leaves
    them, satisfy [script_state_ok]. *)
Lemma script_state_init_ok `{LuaNumber} : script_state_ok script_state_init.
Proof. split; [reflexivity|reflexivity|discriminate]. Qed.

Lemma cleanup_scripts_ok `{LuaNumber} `{!LuaEnv} s s' :
  cleanup_scripts s = Some (tt, s') ->
  lstate s <> None ->
  script_state_ok s' /\ lstate s' = None.
Proof.
  unfold cleanup_scripts. intros Hrun Hl.
  destruct (lstate s) as [l|]; [|contradiction].
  destruct (if negb (scripts_ref s =? 0)
            then lua (luaL_unref LUA_REGISTRYINDEX (scripts_ref s)) s
            else Some (tt, s)) as [[[] s1]|]; [|discriminate].
  inversion Hrun; subst s'.
  split; [split; [reflexivity|reflexivity|discriminate]|reflexivity].
Qed.

(** The theorems above, applied to the sample states. *)

Lemma sample_loaded_ok : @script_state_ok sample_lua_number sample_loaded.
Proof.
  split.
  - reflexivity.
  - intros Hnone. vm_compute in Hnone. discriminate.
  - intros l Hl. vm_compute in Hl. inversion Hl; subst l.
    eexists. vm_compute. reflexivity.
Qed.

Lemma C7_witness :
  @script_execute sample_lua_number sample_lua_env sample_scripts_header
    1 [VaInt 1; VaInt 7; VaInt 0] sample_loaded = Some (0, sample_loaded) /\
  @script_execute_pkt sample_lua_number sample_lua_env
    1 1234 "packet" 6 sample_loaded = Some (0, sample_loaded).
Proof.
  apply (@C7_unbound_event_is_noop sample_lua_number sample_lua_env
           sample_scripts_header sample_loaded 1).
  - exact sample_loaded_ok.
  - unfold ScriptActionCount. lia.
  - right. right. reflexivity.
Defined.

Lemma C8_witness :
  stack <$> lstate
    (run_state
       (@script_execute sample_lua_number sample_lua_env sample_scripts_header
          0 ([VaInt 1; VaInt 5] ++ [VaInt 99]) sample_loaded))
  = Some [LTable 2].
Proof.
  rewrite (@C8_unknown_tag_leaves_table_on_stack sample_lua_number
             sample_lua_env sample_scripts_header sample_loaded
             sample_loaded_lua sample_loaded_registry 2%nat sample_loaded_table
             0 1 [VaInt 1; VaInt 5] [LInteger 5] 99 []).
  - reflexivity.
  - reflexivity.
  - vm_compute. discriminate.
  - reflexivity.
  - reflexivity.
  - reflexivity.
  - unfold ScriptActionCount. lia.
  - reflexivity.
  - discriminate.
  - apply (@va_pushes_int sample_lua_number sample_scripts_header 1 5 [] []).
    + discriminate.
    + reflexivity.
    + constructor.
  - discriminate.
  - reflexivity.
Defined.

(** The same has happened when arguments were pushed before the unknown
    tag: they are popped, and the table stays. *)
Example script_execute_unknown_tag_after_arguments :
  let r := @script_execute sample_lua_number sample_lua_env
             sample_scripts_header 0 [VaInt 1; VaInt 5; VaInt 99]
             sample_loaded in
  fst <$> r = Some 0 /\
  stack <$> lstate (run_state r) = Some [LTable 2] /\
  pcalls <$> lstate (run_state r) = Some [] /\
  stack <$> lstate sample_loaded = Some [].
Proof. vm_compute. repeat split. Qed.

(** The other ways out of the two gateways leave the stack as they found
    it: here a call that runs the handler. *)
Example script_execute_known_tags_balanced :
  let r := @script_execute sample_lua_number sample_lua_env
             sample_scripts_header 0 [VaInt 1; VaInt 5; VaInt 0]
             sample_loaded in
  fst <$> r = Some 1 /\
  stack <$> lstate (run_state r) = Some [] /\
  pcalls <$> lstate (run_state r)
  = Some [(LFunction {| cl_id := 3; cl_chunk := "startup.lua" |},
           [LInteger 5])].
Proof. vm_compute. repeat split. Qed.

Lemma C10_witness :
  @script_add sample_lua_number sample_lua_env sample_realfn0 0
    sample_long_filename sample_loaded
  = @script_add_locked sample_lua_number sample_lua_env 3 0
      sample_long_filename sample_loaded.
Proof.
  apply (@C10_long_filename_is_not_rejected sample_lua_number sample_lua_env
           sample_realfn0 0 sample_long_filename sample_loaded).
  - vm_compute. discriminate.
  - vm_compute. lia.
Defined.

(** The long name is accepted and bound: the call returns 0, no warning
    about the name is logged, and the handler is the chunk of that
    name. *)
Example script_add_long_filename_accepted :
  let r := @script_add sample_lua_number sample_lua_env sample_realfn0 0
             sample_long_filename sample_loaded in
  fst <$> r = Some 0 /\
  ~ In (DBG_WARN, MsgLongFilename) (debug_out (run_state r)) /\
  @handler_of sample_lua_number (run_state r) 0
  = Some (LFunction {| cl_id := 5; cl_chunk := sample_long_filename |}).
Proof.
  vm_compute. repeat split.
  intros Hin. repeat (destruct Hin as [Hin|Hin]; [discriminate Hin|]).
  exact Hin.
Qed.

(** A short name is rejected when the array happens to hold a non-zero
    byte at index 63 on entry. *)
Example script_add_short_filename_rejected :
  fst <$> @script_add sample_lua_number sample_lua_env sample_realfn0 0
            "new.lua" sample_loaded = Some (-1).
Proof. reflexivity. Qed.

Lemma C5_witness :
  fst (@loadfile_outcome sample_lua_number sample_lua_env "new.lua") = LUA_OK /\
  @bound sample_lua_number sample_loaded 0 /\
  exists s',
    @script_add sample_lua_number sample_lua_env sample_realfn0 0
      "new.lua" sample_loaded = Some (-1, s') /\
    @handler_of sample_lua_number s' 0
    = @handler_of sample_lua_number sample_loaded 0.
Proof.
  split; [reflexivity|]. split.
  - exists 1. split; [reflexivity|discriminate].
  - destruct (@C5_loadable_short_name_is_rejected sample_lua_number
                sample_lua_env sample_loaded sample_realfn0 0 "new.lua")
      as (s' & Hrun & _ & _ & _ & _ & Hh).
    + vm_compute. discriminate.
    + reflexivity.
    + vm_compute. lia.
    + vm_compute. discriminate.
    + exists s'. split; [exact Hrun|apply Hh].
Defined.

(** With a zero byte at index 63 the same call reaches the loader and
    rebinds the category. *)
Example script_add_rebinds_when_byte_is_zero :
  exists s',
    @script_add sample_lua_number sample_lua_env sample_realfn_zero 0
      "new.lua" sample_loaded = Some (0, s') /\
    In (DBG_WARN, MsgRedefining 0) (debug_out s') /\
    @handler_of sample_lua_number s' 0
    = Some (LFunction {| cl_id := 5; cl_chunk := "new.lua" |}).
Proof.
  destruct (proj2 (@script_add_keeps_or_replaces sample_lua_number
                     sample_lua_env sample_loaded sample_loaded_lua
                     sample_loaded_registry 2%nat sample_loaded_table
                     sample_realfn_zero 0 "new.lua"
                     eq_refl
                     ltac:(vm_compute; discriminate)
                     eq_refl eq_refl
                     ltac:(vm_compute; discriminate)
                     eq_refl eq_refl
                     ltac:(unfold ScriptActionCount; lia))
            1 eq_refl eq_refl eq_refl ltac:(lia))
    as (s' & t' & Hrun & Hwarn & _ & _ & _ & _ & _ & Hh & _).
  exists s'. split; [exact Hrun|]. split; [exact Hwarn|exact Hh].
Qed.

Lemma C6_witness :
  @script_remove sample_lua_number 0 sample_loaded = None.
Proof.
  apply (proj1 (@C6_bound_binding_is_not_removed sample_lua_number
                  sample_loaded sample_loaded_lua sample_loaded_registry 0 1
                  eq_refl ltac:(vm_compute; discriminate) eq_refl
                  ltac:(unfold ScriptActionCount; lia) eq_refl eq_refl)).
  reflexivity.
Defined.

(** With a table below the one pushed the call returns, with 0, and the
    category is still bound to the same slot. *)
Example script_remove_bound_still_bound :
  exists s',
    @script_remove sample_lua_number 0 (sample_bound [LTable 1])
    = Some (0, s') /\
    binding s' 0 = Some 1.
Proof. eexists. split; vm_compute; reflexivity. Qed.

(** With a table loaded, removing a category that is not bound returns
    -1 and logs a warning. *)
Example script_remove_unbound_warns :
  @script_remove sample_lua_number 1 sample_loaded
  = Some (-1, add_debug DBG_WARN (MsgUnregisterMissing 1) sample_loaded).
Proof.
  apply (proj1 (proj2 (@script_remove_status sample_lua_number sample_loaded 1
                         eq_refl ltac:(unfold ScriptActionCount; lia)))).
  - vm_compute. discriminate.
  - reflexivity.
Qed.

(** Before any script table is loaded no category is bound, and
    [script_remove] reports success: it does not succeed only when the
    category is bound. *)
Example script_remove_without_table :
  ~ @unregister_succeeds_iff_bound sample_lua_number
      (@script_state_init sample_lua_number) 0.
Proof.
  intros (r & s' & Hrun & Hiff).
  vm_compute in Hrun. inversion Hrun; subst r s'.
  destruct (proj1 Hiff eq_refl) as (id & Hb & Hne).
  vm_compute in Hb. inversion Hb; subst id. apply Hne. reflexivity.
Qed.

(** With a category bound and nothing else on the interpreter's stack,
    [luaL_unref(lstate, -2, ...)] of [script_remove] refers to a slot
    below the only one pushed: the call is undefined. *)
Example script_remove_bound_undefined :
  @bound sample_lua_number sample_loaded 0 /\
  @script_remove sample_lua_number 0 sample_loaded = None.
Proof.
  split; [|reflexivity]. exists 1. split; [reflexivity|discriminate].
Qed.



(** Before the failed reload the gateway ran the handler; after it, the
    reference [scripts_ref] no longer leads to a table and the same call
    is undefined. *)
Example script_execute_after_failed_reload :
  let before := @script_execute_pkt sample_lua_number sample_lua_env
                  6 1234 "abcdef" 4 sample_loaded in
  let reloaded := run_state
                    (@script_eventlist_read sample_lua_number sample_lua_env
                       sample_xml_env "nope.xml" sample_loaded) in
  fst <$> before = Some 1 /\
  scripts_ref reloaded = 3 /\
  @script_execute_pkt sample_lua_number sample_lua_env
    6 1234 "abcdef" 4 reloaded = None.
Proof. vm_compute. repeat split. Qed.

(** * Further properties of [quest_functions.c] *)

Section QuestFurther.

Context `{QuestEnv}.

(** The dispatcher on a frame whose opcode takes a target, once the
    target is one of the four slots: the packets of that slot alone. *)
Lemma quest_dispatch_targeted c l w f :
  takes_target f = true ->
  quest_func_of_id (q c 0) = Some f ->
  q c 1 = 1 -> q c 3 < 4 -> q c 2 = 1 -> q c 4 < 256 ->
  quest_function_dispatch c l w
  = (QUEST_FUNC_RET_NO_ERROR,
     add_sent (member_writes f (client_at l (q c 3)) (q c 4)) w).
Proof.
  intros Ht Hf Ha Htgt Hr Hreg. unfold quest_function_dispatch. rewrite Hf.
  destruct f; try discriminate Ht;
    try (apply get_client_position_targeted; assumption);
    unfold get_section_id, get_char_class, get_char_gender, get_char_race,
      get_char_job, get_client_floor, one_word_query;
    rewrite Ha, Hr; cbn [negb]; ztests; cbn [negb];
    match goal with
    | |- _ = (_, add_sent (member_writes ?g _ _) _) =>
        erewrite qbind_run; [|apply (sync_member_sent g); reflexivity]
    end;
    reflexivity.
Qed.

(** Open a native function down to its tests. *)
Ltac qopen :=
  unfold quest_function_dispatch, get_section_id, get_char_class,
    get_char_gender, get_char_race, get_char_job, get_client_floor,
    one_word_query, get_client_position, get_time, get_client_count,
    get_random_integer, bad_reg4, qbind, qret.

Lemma member_writes_one_word f slot base :
  one_word f = true ->
  member_writes f slot base = [(base, slot_word f slot)].
Proof.
  intros Hf. unfold member_writes, slot_word.
  destruct f; try discriminate Hf; destruct slot; reflexivity.
Qed.

Lemma read_register_last sent r v :
  read_register (sent ++ [(r, v)]) r = Some v.
Proof. rewrite read_register_app. simpl. rewrite Z.eqb_refl. reflexivity. Qed.

(** X1. A query aimed at one group slot (target below 4, one result,
    result register below 256) returns NO_ERROR and sends the packets
    of that slot only; for the queries of one word, the result register
    then holds the word of that slot, 0xFFFFFFFF if the slot is empty. *)
Theorem X1_targeted_query_reports_selected_slot c l w f :
  takes_target f = true ->
  quest_func_of_id (q c 0) = Some f ->
  q c 1 = 1 -> q c 3 < 4 -> q c 2 = 1 -> q c 4 < 256 ->
  quest_function_dispatch c l w
  = (QUEST_FUNC_RET_NO_ERROR,
     add_sent (member_writes f (client_at l (q c 3)) (q c 4)) w) /\
  (one_word f = true ->
   read_register (sync_sent (snd (quest_function_dispatch c l w))) (q c 4)
   = Some (slot_word f (client_at l (q c 3)))).
Proof.
  intros Ht Hf Ha Htgt Hr Hreg.
  pose proof (quest_dispatch_targeted c l w f Ht Hf Ha Htgt Hr Hreg) as Hrun.
  split; [exact Hrun|]. intros Hone. rewrite Hrun. cbn [snd add_sent sync_sent].
  rewrite (member_writes_one_word f _ _ Hone). apply read_register_last.
Qed.

(** X2. For the opcodes that take a target, a target that is neither
    one of the four slots nor the broadcast word gives INVALID_ARG,
    whatever the return count and the registers are, and nothing is
    sent. *)
Theorem X2_target_out_of_range c l w f :
  takes_target f = true ->
  quest_func_of_id (q c 0) = Some f ->
  q c 1 = 1 ->
  4 <= q c 3 < 0xFFFFFFFF ->
  quest_function_dispatch c l w = (QUEST_FUNC_RET_INVALID_ARG, w).
Proof.
  intros Ht Hf Ha Htgt. unfold quest_function_dispatch. rewrite Hf.
  destruct f; try discriminate Ht; qopen; rewrite Ha; cbn [negb];
    ztests; reflexivity.
Qed.

(** X3. The two queries without argument, with no argument, one result
    and a register below 256, send one packet to that register: the
    clock truncated to 32 bits for the time query, the number of
    clients of the lobby, as a 32-bit word, for the count query. *)
Theorem X3_time_and_client_count c l w f :
  quest_func_of_id (q c 0) = Some f ->
  f = QUEST_FUNC_TIME \/ f = QUEST_FUNC_CLIENT_COUNT ->
  q c 1 = 0 -> q c 2 = 1 -> q c 3 < 256 ->
  let v := match f with
           | QUEST_FUNC_TIME => clock w mod 2 ^ 32
           | _ => num_clients l mod 2 ^ 32
           end in
  quest_function_dispatch c l w
  = (QUEST_FUNC_RET_NO_ERROR, add_sent [(q c 3, v)] w) /\
  read_register (sync_sent (snd (quest_function_dispatch c l w))) (q c 3)
  = Some v.
Proof.
  intros Hf Hwhich Ha Hr Hreg v.
  assert (Hrun : quest_function_dispatch c l w
                 = (QUEST_FUNC_RET_NO_ERROR, add_sent [(q c 3, v)] w)).
  { unfold quest_function_dispatch. rewrite Hf.
    destruct Hwhich as [-> | ->]; qopen; rewrite Ha, Hr; cbn [negb];
      ztests; reflexivity. }
  split; [exact Hrun|]. rewrite Hrun. apply read_register_last.
Qed.

(** X4. The gender, race and job queries aimed at a present member
    send the entry of their table for a class below 12, a word that is
    at most 2; for a class of 12 or more they send 0xFFFFFFFF, the word
    they send for an empty slot. *)
Theorem X4_class_attributes c l w f tbl m :
  class_table f = Some tbl ->
  quest_func_of_id (q c 0) = Some f ->
  q c 1 = 1 -> q c 3 < 4 -> q c 2 = 1 -> q c 4 < 256 ->
  client_at l (q c 3) = Some m ->
  0 <= pl_v1_ch_class m ->
  (pl_v1_ch_class m < 12 ->
   let v := nth (Z.to_nat (pl_v1_ch_class m)) tbl 0 in
   quest_function_dispatch c l w
   = (QUEST_FUNC_RET_NO_ERROR, add_sent [(q c 4, v)] w) /\
   0 <= v <= 2) /\
  (12 <= pl_v1_ch_class m ->
   quest_function_dispatch c l w
   = (QUEST_FUNC_RET_NO_ERROR, add_sent [(q c 4, 0xFFFFFFFF)] w)).
Proof.
  intros Htbl Hf Ha Htgt Hr Hreg Hm Hcls.
  assert (Ht : takes_target f = true)
    by (destruct f; try discriminate Htbl; reflexivity).
  rewrite (quest_dispatch_targeted c l w f Ht Hf Ha Htgt Hr Hreg), Hm.
  split.
  - intros Hlt v.
    assert (Hk : exists k, (k < 12)%nat /\ pl_v1_ch_class m = Z.of_nat k).
    { exists (Z.to_nat (pl_v1_ch_class m)). lia. }
    destruct Hk as (k & Hk & Hc). unfold v. rewrite Hc, Nat2Z.id.
    destruct f; try discriminate Htbl; inversion Htbl; subst tbl;
      unfold member_writes, member_values, designated_registers,
        GENDER, RACE, JOB, ATTR; rewrite Hc, Nat2Z.id;
      (destruct (Z.ltb_spec (Z.of_nat k) 12); [|lia]);
      do 12 (destruct k as [|k]; [split; [reflexivity|simpl; lia]|]);
      lia.
  - intros Hge.
    destruct f; try discriminate Htbl;
      unfold member_writes, member_values, designated_registers,
        GENDER, RACE, JOB, ATTR;
      (destruct (Z.ltb_spec (pl_v1_ch_class m) 12); [lia|]); reflexivity.
Qed.

Lemma world_follows_refl w : world_follows w w.
Proof.
  split; [reflexivity|split; [reflexivity|]].
  exists (@nil (Z * Z)). symmetry. apply app_nil_r.
Qed.

Lemma world_follows_bind {A B} (m : Q A) (k : A -> Q B) w :
  world_follows w (snd (m w)) ->
  (forall a w1, world_follows w1 (snd (k a w1))) ->
  world_follows w (snd (qbind m k w)).
Proof.
  intros Hm Hk. unfold qbind. destruct (m w) as [a w1]. simpl in Hm.
  specialize (Hk a w1).
  destruct Hm as (Hc & Hg & ws & Hs), Hk as (Hc' & Hg' & ws' & Hs').
  split; [congruence|split; [congruence|]].
  exists (ws ++ ws'). rewrite Hs', Hs, app_assoc. reflexivity.
Qed.

Lemma world_follows_send n v w :
  world_follows w (snd (send_sync_register n v w)).
Proof.
  split; [reflexivity|split; [reflexivity|]]. eexists. reflexivity.
Qed.

(** Follow a native function through its tests and its sends. *)
Ltac follow_world :=
  repeat first
    [ apply world_follows_refl
    | apply world_follows_send
    | apply world_follows_bind; [|intros ? ?]
    | match goal with
      | |- world_follows _ (snd ((if ?b then _ else _) _)) => destruct b
      | |- world_follows _ (snd (match ?o with Some _ => _ | None => _ end _)) =>
          destruct o
      end ].

Lemma one_word_query_follows field c l w :
  world_follows w (snd (one_word_query field c l w)).
Proof. unfold one_word_query, sync_member, qret. follow_world. Qed.

Lemma get_client_position_follows c l w :
  world_follows w (snd (get_client_position c l w)).
Proof. unfold get_client_position, sync_position, qret. follow_world. Qed.

Lemma get_time_follows c l w : world_follows w (snd (get_time c l w)).
Proof. unfold get_time, time_now, qret. follow_world. Qed.

Lemma get_client_count_follows c l w :
  world_follows w (snd (get_client_count c l w)).
Proof. unfold get_client_count, qret. follow_world. Qed.

(** X5. Whatever the frame, the dispatcher leaves the clock alone, only
    adds to the packets sent, and leaves the generator as it was unless
    the call is a random draw that returns NO_ERROR. *)
Theorem X5_dispatch_frame c l w :
  clock (snd (quest_function_dispatch c l w)) = clock w /\
  (exists ws,
     sync_sent (snd (quest_function_dispatch c l w)) = sync_sent w ++ ws) /\
  (quest_func_of_id (q c 0) <> Some QUEST_FUNC_GET_RANDOM \/
   fst (quest_function_dispatch c l w) <> QUEST_FUNC_RET_NO_ERROR ->
   block_rng (snd (quest_function_dispatch c l w)) = block_rng w).
Proof.
  assert (Hfollow : forall w', world_follows w w' ->
            clock w' = clock w /\
            (exists ws, sync_sent w' = sync_sent w ++ ws) /\
            (quest_func_of_id (q c 0) <> Some QUEST_FUNC_GET_RANDOM \/
             fst (quest_function_dispatch c l w) <> QUEST_FUNC_RET_NO_ERROR ->
             block_rng w' = block_rng w)).
  { intros w' (Hc & Hg & Hs). auto. }
  destruct (quest_func_of_id (q c 0)) as [f|] eqn:Hf.
  2:{ apply Hfollow. unfold quest_function_dispatch. rewrite Hf.
      apply world_follows_refl. }
  assert (Hcase : f = QUEST_FUNC_GET_RANDOM \/ f <> QUEST_FUNC_GET_RANDOM)
    by (destruct f; first [left; reflexivity|right; discriminate]).
  destruct Hcase as [->|Hother].
  - destruct (quest_function_dispatch c l w) as [r w'] eqn:Hrun.
    assert (Hcase : r = QUEST_FUNC_RET_NO_ERROR \/
                    r <> QUEST_FUNC_RET_NO_ERROR)
      by (destruct r; first [left; reflexivity|right; discriminate]).
    destruct Hcase as [->|Hr].
    + cbn [fst snd]. unfold quest_function_dispatch in Hrun.
      rewrite Hf in Hrun.
      unfold get_random_integer, qbind, qret, genrand, send_sync_register
        in Hrun.
      repeat match type of Hrun with
      | context [if ?b then _ else _] => destruct b
      end; try discriminate Hrun.
      destruct (mt19937_genrand_int32 (block_rng w)) as [g r].
      inversion Hrun; subst w'. cbn [clock sync_sent].
      split; [reflexivity|]. split; [eexists; reflexivity|].
      intros [Hc|Hc]; exfalso; apply Hc; reflexivity.
    + rewrite (quest_function_dispatch_failure c l w r w' Hrun Hr).
      cbn [fst snd]. split; [reflexivity|].
      split; [exists (@nil (Z * Z)); symmetry; apply app_nil_r|reflexivity].
  - apply Hfollow. unfold quest_function_dispatch. rewrite Hf.
    destruct f; try contradiction;
      first [ apply one_word_query_follows
            | apply get_client_position_follows
            | apply get_time_follows
            | apply get_client_count_follows ].
Qed.

(** X6. A position query aimed at one slot with a base register of at
    most 253 leaves the three coordinates, converted to 32-bit words, in
    the registers base, base + 1 and base + 2, and 0xFFFFFFFF in all
    three for an empty slot. *)
Theorem X6_position_in_three_registers c l w :
  quest_func_of_id (q c 0) = Some QUEST_FUNC_GET_POSITION ->
  q c 1 = 1 -> q c 3 < 4 -> q c 2 = 1 -> q c 4 <= 253 ->
  let sent := sync_sent (snd (quest_function_dispatch c l w)) in
  let xyz := match client_at l (q c 3) with
             | Some m => (u32 (float_to_u32 (x m)),
                          u32 (float_to_u32 (y m)),
                          u32 (float_to_u32 (z m)))
             | None => (0xFFFFFFFF, 0xFFFFFFFF, 0xFFFFFFFF)
             end in
  fst (quest_function_dispatch c l w) = QUEST_FUNC_RET_NO_ERROR /\
  read_register sent (q c 4) = Some (fst (fst xyz)) /\
  read_register sent (q c 4 + 1) = Some (snd (fst xyz)) /\
  read_register sent (q c 4 + 2) = Some (snd xyz).
Proof.
  intros Hf Ha Htgt Hr Hreg sent xyz. unfold sent, xyz.
  rewrite (quest_dispatch_targeted c l w QUEST_FUNC_GET_POSITION
             eq_refl Hf Ha Htgt Hr ltac:(lia)).
  cbn [fst snd add_sent sync_sent]. split; [reflexivity|].
  rewrite !read_register_app.
  destruct (client_at l (q c 3)) as [m|]; simpl;
    repeat match goal with
    | |- context [(?a =? ?b)] => destruct (Z.eqb_spec a b); try lia
    end; auto.
Qed.

(** X7. After a broadcast query of one word, the register given for a
    slot holds the word of that slot whenever no later slot was given
    the same register: of two slots sharing a register the later one
    wins. *)
Theorem X7_broadcast_register_of_slot c l w f i :
  one_word f = true ->
  quest_func_of_id (q c 0) = Some f ->
  q c 1 = 1 -> q c 3 = 0xFFFFFFFF -> q c 2 = 4 ->
  Forall (fun r => r < 256) [q c 4; q c 5; q c 6; q c 7] ->
  (i < 4)%nat ->
  (forall j, (i < j < 4)%nat -> q c (4 + j) <> q c (4 + i)) ->
  read_register (sync_sent (snd (quest_function_dispatch c l w))) (q c (4 + i))
  = Some (slot_word f (client_at l (Z.of_nat i))).
Proof.
  intros Hone Hf Ha Hb Hr Hregs Hi Hlater.
  assert (Ht : takes_target f = true)
    by (destruct f; try discriminate Hone; reflexivity).
  rewrite (quest_dispatch_broadcast c l w f Ht Hf Ha Hb Hr Hregs).
  cbn [snd add_sent sync_sent].
  rewrite !(member_writes_one_word f) by exact Hone.
  rewrite read_register_app.
  pose proof (Hlater 1%nat) as H1. pose proof (Hlater 2%nat) as H2.
  pose proof (Hlater 3%nat) as H3.
  destruct i as [|[|[|[|i]]]]; try lia; simpl in *;
    repeat match goal with
    | |- context [(?a =? ?b)] => destruct (Z.eqb_spec a b)
    end; try reflexivity; try congruence;
    exfalso;
    first [ apply H3; [lia|congruence]
          | apply H2; [lia|congruence]
          | apply H1; [lia|congruence] ].
Qed.

End QuestFurther.

(** ** The properties above on the sample lobby *)

(** Settle a closed comparison of integers by evaluation. *)
Ltac zclosed := vm_compute; repeat split; try discriminate; reflexivity.

Lemma X1_witness :
  read_register
    (sync_sent (snd (quest_function_dispatch (sample_caller [3; 1; 1; 2; 9])
                       sample_lobby sample_world))) 9
  = Some 7.
Proof.
  apply (proj2 (X1_targeted_query_reports_selected_slot
                  (sample_caller [3; 1; 1; 2; 9]) sample_lobby sample_world
                  QUEST_FUNC_GET_CLASS
                  eq_refl eq_refl eq_refl eq_refl eq_refl eq_refl)).
  reflexivity.
Defined.

Lemma X2_witness :
  quest_function_dispatch (sample_caller [3; 1; 1; 7; 9]) sample_lobby
    sample_world
  = (QUEST_FUNC_RET_INVALID_ARG, sample_world).
Proof.
  apply (X2_target_out_of_range (sample_caller [3; 1; 1; 7; 9]) sample_lobby
           sample_world QUEST_FUNC_GET_CLASS eq_refl eq_refl eq_refl).
  zclosed.
Defined.

Lemma X3_witness :
  read_register
    (sync_sent (snd (quest_function_dispatch (sample_caller [1; 0; 1; 10])
                       sample_lobby sample_world))) 10
  = Some 1700000000.
Proof.
  apply (proj2 (X3_time_and_client_count
                  (sample_caller [1; 0; 1; 10]) sample_lobby sample_world
                  QUEST_FUNC_TIME eq_refl (or_introl eq_refl)
                  eq_refl eq_refl eq_refl)).
Defined.

Lemma X4_witness :
  quest_function_dispatch (sample_caller [4; 1; 1; 0; 9]) sample_lobby
    sample_world
  = (QUEST_FUNC_RET_NO_ERROR, add_sent [(9, nth 3 genders 0)] sample_world).
Proof.
  apply (proj1 (X4_class_attributes
                  (sample_caller [4; 1; 1; 0; 9]) sample_lobby sample_world
                  QUEST_FUNC_GET_GENDER genders (sample_member 3)
                  eq_refl eq_refl eq_refl eq_refl eq_refl eq_refl eq_refl
                  ltac:(zclosed))).
  zclosed.
Defined.

Lemma X5_witness :
  clock (snd (quest_function_dispatch (sample_caller [9; 0; 1; 10])
                sample_lobby sample_world))
  = clock sample_world.
Proof.
  apply (proj1 (X5_dispatch_frame (sample_caller [9; 0; 1; 10]) sample_lobby
                  sample_world)).
Defined.

Lemma X6_witness :
  let sent := sync_sent (snd (quest_function_dispatch
                                (sample_caller [8; 1; 1; 0; 20])
                                sample_lobby sample_world)) in
  read_register sent 20 = Some 10 /\
  read_register sent 21 = Some 20 /\
  read_register sent 22 = Some 30.
Proof.
  apply (proj2 (X6_position_in_three_registers
                  (sample_caller [8; 1; 1; 0; 20]) sample_lobby sample_world
                  eq_refl eq_refl eq_refl eq_refl ltac:(zclosed))).
Defined.

Lemma X7_witness :
  read_register
    (sync_sent (snd (quest_function_dispatch
                       (sample_caller [3; 1; 4; 0xFFFFFFFF; 5; 6; 5; 8])
                       sample_lobby sample_world))) 5
  = Some 7.
Proof.
  apply (X7_broadcast_register_of_slot
           (sample_caller [3; 1; 4; 0xFFFFFFFF; 5; 6; 5; 8])
           sample_lobby sample_world QUEST_FUNC_GET_CLASS 2
           eq_refl eq_refl eq_refl eq_refl eq_refl).
  - repeat constructor.
  - lia.
  - intros j Hj. assert (j = 3%nat) as -> by lia. vm_compute. discriminate.
Defined.

(** * Further properties of [scripts.c] *)

Lemma script_action_search_spec tbl i str :
  ((str ∉ tbl) /\ script_action_search tbl i str = ScriptActionInvalid) \/
  (exists k, tbl !! k = Some str /\
             script_action_search tbl i str = i + Z.of_nat k).
Proof.
  revert i. induction tbl as [|t tbl IH]; intros i; simpl.
  - left. split; [apply not_elem_of_nil|reflexivity].
  - destruct (Z.eqb_spec (xmlStrcmp t str) 0) as [He|Hne].
    + right. exists 0%nat. apply xmlStrcmp_zero in He. subst t.
      split; [reflexivity|lia].
    + destruct (IH (i + 1)) as [[Hnot Hr]|(k & Hk & Hr)].
      * left. split; [|exact Hr]. rewrite not_elem_of_cons. split; [|exact Hnot].
        intros ->. apply Hne. apply xmlStrcmp_zero. reflexivity.
      * right. exists (S k). split; [exact Hk|]. rewrite Hr. lia.
Qed.

Lemma script_action_text_NoDup : NoDup script_action_text.
Proof. apply (bool_decide_unpack _). vm_compute. exact I. Qed.

Lemma script_action_to_index_valid str :
  script_action_to_index str <> ScriptActionInvalid ->
  0 <= script_action_to_index str < ScriptActionCount /\
  script_action_text !! Z.to_nat (script_action_to_index str) = Some str.
Proof.
  unfold script_action_to_index. intros Hvalid.
  destruct (script_action_search_spec script_action_text 0 str)
    as [[_ Hr]|(k & Hk & Hr)]; [contradiction|]. rewrite Hr.
  pose proof (lookup_lt_Some _ _ _ Hk) as Hlt.
  change (length script_action_text) with 18%nat in Hlt.
  unfold ScriptActionCount. split; [lia|].
  replace (Z.to_nat (0 + Z.of_nat k)) with k by lia. exact Hk.
Qed.

(** X8. [script_action_to_index] inverts the table of names: the name
    at position [i] gives [i], a string that is not in the table gives
    [ScriptActionInvalid], and every other result is the position, below
    18, at which the table holds the string. *)
Theorem X8_script_action_to_index_inverts_table :
  (forall i name,
     script_action_text !! i = Some name ->
     script_action_to_index name = Z.of_nat i) /\
  (forall str,
     str ∉ script_action_text ->
     script_action_to_index str = ScriptActionInvalid) /\
  (forall str,
     script_action_to_index str <> ScriptActionInvalid ->
     0 <= script_action_to_index str < ScriptActionCount /\
     script_action_text !! Z.to_nat (script_action_to_index str) = Some str).
Proof.
  unfold script_action_to_index. split; [|split].
  - intros i name Hi.
    destruct (script_action_search_spec script_action_text 0 name)
      as [[Hnot _]|(k & Hk & Hr)].
    + exfalso. apply Hnot. eapply list_elem_of_lookup_2. eassumption.
    + rewrite Hr.
      rewrite (NoDup_lookup _ _ _ _ script_action_text_NoDup Hi Hk). lia.
  - intros str Hnot.
    destruct (script_action_search_spec script_action_text 0 str)
      as [[_ Hr]|(k & Hk & _)]; [exact Hr|].
    exfalso. apply Hnot. eapply list_elem_of_lookup_2. eassumption.
  - intros str Hvalid. apply script_action_to_index_valid. exact Hvalid.
Qed.

Section ScriptFurther.

Context `{LuaNumber} `{!LuaEnv} `{!XmlEnv} `{!ScriptsHeader}.

Lemma add_debugs_nil (s : script_state) : add_debugs [] s = s.
Proof. destruct s. unfold add_debugs. simpl. rewrite app_nil_r. reflexivity. Qed.

Lemma add_debugs_app dbg dbg' (s : script_state) :
  add_debugs dbg' (add_debugs dbg s) = add_debugs (dbg ++ dbg') s.
Proof. unfold add_debugs. simpl. rewrite app_assoc. reflexivity. Qed.

Lemma script_eventlist_entry_skipped n s :
  entry_skipped n = true ->
  exists dbg,
    script_eventlist_entry n s = Some (tt, add_debugs dbg s) /\
    (length dbg <= 1)%nat /\
    Forall (fun d => fst d = DBG_WARN) dbg.
Proof.
  unfold entry_skipped, script_eventlist_entry. intros Hskip.
  destruct (xml_type n);
    try (exists []; rewrite add_debugs_nil; repeat split; [simpl; lia|constructor]).
  destruct (Z.eqb_spec (xmlStrcmp (xml_name n) "script") 0) as [_|_];
    cbn [negb];
    [|eexists [_]; split; [reflexivity|split; [simpl; lia|repeat constructor]]].
  destruct (xmlGetProp (xml_properties n) "event") as [event|];
    [|eexists [_]; split; [reflexivity|split; [simpl; lia|repeat constructor]]].
  destruct (xmlGetProp (xml_properties n) "file") as [file|];
    [|eexists [_]; split; [reflexivity|split; [simpl; lia|repeat constructor]]].
  rewrite Hskip.
  eexists [_]; split; [reflexivity|split; [simpl; lia|repeat constructor]].
Qed.

(** X9. Children of the root that are not elements, are not [script]
    elements, lack the [event] or the [file] attribute, or name an
    unknown event are passed over: the loop over them only logs
    warnings, at most one per child, and needs no interpreter. *)
Theorem X9_skipped_entries_only_warn ns s :
  Forall (fun n => entry_skipped n = true) ns ->
  exists dbg,
    script_eventlist_entries ns s = Some (tt, add_debugs dbg s) /\
    (length dbg <= length ns)%nat /\
    Forall (fun d => fst d = DBG_WARN) dbg.
Proof.
  intros Hall. revert s. induction Hall as [|n ns Hn _ IH]; intros s.
  - exists []. rewrite add_debugs_nil. repeat split; [simpl; lia|constructor].
  - destruct (script_eventlist_entry_skipped n s Hn) as (d1 & Hrun1 & Hlen1 & Hw1).
    destruct (IH (add_debugs d1 s)) as (d2 & Hrun2 & Hlen2 & Hw2).
    exists (d1 ++ d2). simpl.
    rewrite (bind_run _ _ _ _ _ Hrun1), Hrun2, add_debugs_app.
    split; [reflexivity|]. split.
    + rewrite length_app. simpl. lia.
    + apply Forall_app. split; assumption.
Qed.

(** X10. A [script] element with a known event whose file does not
    load changes no binding and logs the failure as a warning, but the
    message [luaL_loadfile] pushed is still on the interpreter's stack
    when the loop goes on to the next child. *)
Theorem X10_failed_entry_leaves_message_on_stack n s l event file :
  xml_type n = XML_ELEMENT_NODE ->
  xml_name n = "script"%string ->
  xmlGetProp (xml_properties n) "event" = Some event ->
  xmlGetProp (xml_properties n) "file" = Some file ->
  script_action_to_index event <> ScriptActionInvalid ->
  length (script_ids s) = Z.to_nat ScriptActionCount ->
  lstate s = Some l ->
  is_LUA_OK (fst (loadfile_outcome file)) = false ->
  exists dbg,
    script_eventlist_entry n s
    = Some (tt,
            add_debugs dbg
              (put_lstate
                 (Some (set_stack
                          (LString (snd (loadfile_outcome file)) :: stack l) l))
                 s)) /\
    In (DBG_WARN, MsgCouldntLoadEntry file (xml_line n)) dbg.
Proof.
  intros Hty Hname Hev Hfile Hidx Hlen Hl Hst.
  destruct (script_action_to_index_valid event Hidx) as [Hrange _].
  destruct (binding_in_range s _ Hlen Hrange) as [id Hid].
  unfold script_eventlist_entry. rewrite Hty, Hname, Hev, Hfile.
  change (xmlStrcmp "script" "script" =? 0) with true. cbn [negb].
  destruct (Z.eqb_spec (script_action_to_index event) ScriptActionInvalid)
    as [|_]; [contradiction|].
  erewrite bind_run; [|apply get_script_id_run; [exact Hrange|exact Hid]].
  cbv beta.
  destruct (Z.eqb_spec id 0) as [_|_]; cbn [negb].
  - erewrite bind_run; [|reflexivity].
    erewrite bind_run;
      [|eapply lua_run; [exact Hl|apply luaL_loadfile_failed; exact Hst]].
    cbv beta. rewrite Hst. cbn [negb].
    eexists [_]. split; [reflexivity|]. left. reflexivity.
  - erewrite bind_run; [|reflexivity].
    erewrite bind_run;
      [|eapply lua_run; [exact Hl|apply luaL_loadfile_failed; exact Hst]].
    cbv beta. rewrite Hst. cbn [negb].
    eexists [_; _]. split; [|right; left; reflexivity].
    unfold add_debugs, debug, add_debug, put_lstate. simpl.
    rewrite <- app_assoc. reflexivity.
Qed.

(** X11. For a file name of less than 55 bytes [snprintf] stops short
    of [realfn[63]], and the test of [script_add] reads what the array
    held before: on a loaded registry such a name is rejected with -1
    and the long-name warning exactly when that byte is not zero, and
    goes on to the loader otherwise. *)
Theorem X11_short_filename_depends_on_stale_byte realfn0 action filename s :
  length realfn0 = 64%nat ->
  (String.length filename < 55)%nat ->
  scripts_ref s <> 0 ->
  (nth 63 realfn0 Ascii.zero <> Ascii.zero ->
   script_add realfn0 action filename s
   = Some (-1, add_debug DBG_WARN MsgLongFilename s)) /\
  (nth 63 realfn0 Ascii.zero = Ascii.zero ->
   script_add realfn0 action filename s
   = script_add_locked (scripts_ref s) action filename s).
Proof.
  intros Hbuf Hlen Hnz.
  assert (Hbyte : nth 63 (snprintf realfn0 64 ("scripts/" ++ filename))
                    Ascii.zero = nth 63 realfn0 Ascii.zero).
  { apply snprintf_keeps_tail; [exact Hbuf|].
    change (8 + String.length filename < 63)%nat. lia. }
  unfold script_add.
  rewrite (bind_run get_scripts_ref _ s (scripts_ref s) s eq_refl).
  destruct (Z.eqb_spec (scripts_ref s) 0) as [|_]; [contradiction|].
  cbv zeta. rewrite Hbyte. split; intros Hb.
  - destruct (Ascii.eqb_spec (nth 63 realfn0 Ascii.zero) Ascii.zero)
      as [|_]; [contradiction|]. reflexivity.
  - rewrite Hb. reflexivity.
Qed.

(** X12. [script_remove] never writes [script_ids] or [scripts_ref]:
    whenever it returns, with 0 or with -1, every event category has
    the binding it had, the removed one included. *)
Theorem X12_script_remove_keeps_bindings action s r s' :
  script_remove action s = Some (r, s') ->
  script_ids s' = script_ids s /\
  scripts_ref s' = scripts_ref s /\
  (forall event, binding s' event = binding s event).
Proof.
  intros Hrun.
  assert (Hkeep : script_ids s' = script_ids s /\
                  scripts_ref s' = scripts_ref s).
  { unfold script_remove, bind, get_scripts_ref, ret in Hrun.
    destruct (scripts_ref s =? 0); [inversion Hrun; subst; split; reflexivity|].
    unfold get_script_id in Hrun.
    destruct (in_script_ids action); [|discriminate].
    destruct (script_ids s !! Z.to_nat action) as [id|]; [|discriminate].
    simpl in Hrun.
    destruct (id =? 0); [inversion Hrun; subst; split; reflexivity|].
    destruct (lua (lua_rawgeti LUA_REGISTRYINDEX (scripts_ref s)) s)
      as [[[] s1]|] eqn:Hstep1; [|discriminate].
    destruct (lua (luaL_unref (-2) id) s1) as [[[] s2]|] eqn:Hstep2;
      [|discriminate].
    destruct (lua (lua_pop 1) s2) as [[[] s3]|] eqn:Hstep3; [|discriminate].
    inversion Hrun; subst.
    destruct (lua_keeps_bindings _ _ _ _ Hstep1) as (? & ? & _).
    destruct (lua_keeps_bindings _ _ _ _ Hstep2) as (? & ? & _).
    destruct (lua_keeps_bindings _ _ _ _ Hstep3) as (? & ? & _).
    split; congruence. }
  destruct Hkeep as [Hids Href]. repeat split; [exact Hids|exact Href|].
  intros event. unfold binding. rewrite Hids. reflexivity.
Qed.

Lemma scripts_disabled_noop s :
  scripts_ref s = 0 ->
  (forall realfn0 action filename,
     script_add realfn0 action filename s = Some (0, s)) /\
  (forall action, script_remove action s = Some (0, s)) /\
  (forall event ap, script_execute event ap s = Some (0, s)) /\
  (forall event c pkt len, script_execute_pkt event c pkt len s = Some (0, s)).
Proof.
  intros Hz.
  repeat split; intros;
    unfold script_add, script_remove, script_execute, script_execute_pkt;
    rewrite (bind_run get_scripts_ref _ s (scripts_ref s) s eq_refl), Hz;
    reflexivity.
Qed.

(** X13. On globals that satisfy [script_state_ok], [cleanup_scripts]
    is defined; it leaves no interpreter and a zero [scripts_ref], and
    zeroes every binding if there was an interpreter.  After it
    [script_add], [script_remove], [script_execute] and
    [script_execute_pkt] return 0 and change nothing, and a second
    [cleanup_scripts] changes nothing either. *)
Theorem X13_cleanup_disables_scripting s :
  script_state_ok s ->
  exists s',
    cleanup_scripts s = Some (tt, s') /\
    lstate s' = None /\
    scripts_ref s' = 0 /\
    (lstate s <> None ->
     script_ids s' = replicate (Z.to_nat ScriptActionCount) 0) /\
    (forall realfn0 action filename,
       script_add realfn0 action filename s' = Some (0, s')) /\
    (forall action, script_remove action s' = Some (0, s')) /\
    (forall event ap, script_execute event ap s' = Some (0, s')) /\
    (forall event c pkt len,
       script_execute_pkt event c pkt len s' = Some (0, s')) /\
    cleanup_scripts s' = Some (tt, s').
Proof.
  intros Hok. unfold cleanup_scripts at 1.
  destruct (lstate s) as [l|] eqn:Hl.
  - assert (Hun : exists s1,
               (if negb (scripts_ref s =? 0)
                then lua (luaL_unref LUA_REGISTRYINDEX (scripts_ref s)) s
                else Some (tt, s)) = Some (tt, s1)).
    { destruct (scripts_ref s =? 0); cbn [negb]; [eexists; reflexivity|].
      destruct (ok_registry s Hok l Hl) as [reg Hreg].
      eexists. eapply lua_run; [exact Hl|].
      apply luaL_unref_registry. exact Hreg. }
    destruct Hun as [s1 Hun]. rewrite Hun.
    eexists. split; [reflexivity|].
    split; [reflexivity|]. split; [reflexivity|]. split; [reflexivity|].
    match goal with
    | |- (forall r a f, script_add r a f ?st = _) /\ _ =>
        destruct (scripts_disabled_noop st eq_refl) as (Ha & Hr & He & Hp)
    end.
    repeat split; auto.
  - pose proof (ok_no_lstate s Hok Hl) as Hz.
    exists s. split; [reflexivity|]. split; [exact Hl|]. split; [exact Hz|].
    split; [intros Hc; contradiction|].
    destruct (scripts_disabled_noop s Hz) as (Ha & Hr & He & Hp).
    repeat split; auto.
    unfold cleanup_scripts. rewrite Hl. reflexivity.
Qed.

Lemma lua_pcall_function (l : lua_State) f args rest st v l' :
  stack l = rev args ++ LFunction f :: rest ->
  run_function f args (set_stack rest l) = (st, v, l') ->
  lua_pcall (Z.of_nat (length args)) l
  = Some (st, {| stack := v :: rest;
                 heap := heap l';
                 l_registry := l_registry l;
                 next_obj := next_obj l';
                 pcalls := pcalls l ++ [(LFunction f, args)] |}).
Proof.
  intros Hs Hrun. unfold lua_pcall. rewrite Hs.
  rewrite length_app, length_rev. cbn [length].
  destruct (Z.leb_spec 0 (Z.of_nat (length args))); [|lia].
  destruct (Z.ltb_spec (Z.of_nat (length args))
              (Z.of_nat (length args + S (length rest)))); [|lia].
  cbn [andb]. rewrite Nat2Z.id.
  rewrite (take_app_length' (rev args)) by (symmetry; apply length_rev).
  rewrite (drop_app_length' (rev args)) by (symmetry; apply length_rev).
  rewrite rev_involutive, Hrun. reflexivity.
Qed.

Lemma lua_tointegerx_top (l : lua_State) v rest :
  stack l = v :: rest ->
  lua_tointegerx (-1) l = Some (tointeger_of v, l).
Proof.
  intros Hs. unfold lua_tointegerx.
  rewrite (lbind_run _ _ l _ l (index2value_top l v rest Hs)).
  destruct v; reflexivity.
Qed.

(** [script_call] with the handler, its arguments and the script table
    on the stack. *)
Lemma script_call_run s l event f args a rest :
  lstate s = Some l ->
  stack l = rev args ++ LFunction f :: LTable a :: rest ->
  script_call event (Z.of_nat (length args)) s
  = Some (let '(st, v, l') :=
            run_function f args (set_stack (LTable a :: rest) l) in
          (call_result st v,
           {| lstate := Some {| stack := rest;
                                heap := heap l';
                                l_registry := l_registry l;
                                next_obj := next_obj l';
                                pcalls := pcalls l ++ [(LFunction f, args)] |};
              scripts_ref := scripts_ref s;
              script_ids := script_ids s;
              debug_out := debug_out s ++ call_log event st v |})).
Proof.
  intros Hl Hs. unfold script_call.
  destruct (run_function f args (set_stack (LTable a :: rest) l))
    as [[st v] l'] eqn:Hcall.
  erewrite bind_run;
    [|eapply lua_run;
      [exact Hl|eapply lua_pcall_function; [exact Hs|exact Hcall]]].
  cbv beta iota. unfold call_result, call_log.
  destruct (is_LUA_OK st); cbn [negb].
  - erewrite bind_run;
      [|eapply lua_run; [reflexivity|eapply lua_tointegerx_top; reflexivity]].
    cbv beta. destruct (Z.eqb_spec (snd (tointeger_of v)) 0) as [He|He].
    + erewrite bind_run; [|reflexivity].
      erewrite bind_run;
        [|eapply lua_run; [reflexivity|eapply lua_pop_cons; reflexivity]].
      unfold script_out.
      erewrite bind_run;
        [|eapply lua_run; [reflexivity|eapply lua_pop_cons; reflexivity]].
      reflexivity.
    + erewrite bind_run; [|reflexivity].
      erewrite bind_run;
        [|eapply lua_run; [reflexivity|eapply lua_pop_cons; reflexivity]].
      unfold script_out.
      erewrite bind_run;
        [|eapply lua_run; [reflexivity|eapply lua_pop_cons; reflexivity]].
      unfold ret, put_lstate. simpl. rewrite app_nil_r. reflexivity.
  - erewrite bind_run; [|reflexivity].
    erewrite bind_run;
      [|eapply lua_run; [reflexivity|eapply lua_pop_cons; reflexivity]].
    unfold script_out.
    erewrite bind_run;
      [|eapply lua_run; [reflexivity|eapply lua_pop_cons; reflexivity]].
    reflexivity.
Qed.

(** Both gateways up to the handler: the script table and the handler
    are pushed. *)
Lemma script_fetch_handler s l reg a t event id :
  lstate s = Some l ->
  heap l !! l_registry l = Some reg ->
  table_get reg (scripts_ref s) = LTable a ->
  heap l !! a = Some t ->
  0 <= event < ScriptActionCount ->
  binding s event = Some id ->
  forall (k : M Z),
    bind (lua (lua_rawgeti LUA_REGISTRYINDEX (scripts_ref s)))
      (fun _ => bind (get_script_id event)
                  (fun id => if id =? 0 then script_out 0
                             else bind (lua (lua_rawgeti (-1) id))
                                    (fun _ => k))) s
    = if id =? 0 then Some (0, s)
      else k (put_lstate
                (Some (set_stack (table_get t id :: LTable a :: stack l) l)) s).
Proof.
  intros Hl Hreg Ha Ht Hev Hb k.
  destruct (Z.eqb_spec id 0) as [->|Hid].
  - apply (script_unbound_run s l event); [exact Hl|eexists; exact Hreg
                                           |exact Hev|exact Hb].
  - erewrite bind_run;
      [|eapply lua_run; [exact Hl|apply lua_rawgeti_registry; exact Hreg]].
    rewrite Ha.
    erewrite bind_run; [|apply get_script_id_run; [exact Hev|exact Hb]].
    cbv beta. destruct (Z.eqb_spec id 0) as [|_]; [contradiction|].
    erewrite bind_run;
      [|eapply lua_run;
        [reflexivity|eapply lua_rawgeti_top; [reflexivity|exact Ht]]].
    reflexivity.
Qed.

(** The run of [script_execute_pkt] when a function is bound to the
    event. *)
Lemma script_execute_pkt_run
    s l reg a t event id f c pkt len :
  lstate s = Some l ->
  scripts_ref s <> 0 ->
  heap l !! l_registry l = Some reg ->
  table_get reg (scripts_ref s) = LTable a ->
  heap l !! a = Some t ->
  0 <= event < ScriptActionCount ->
  binding s event = Some id -> id <> 0 ->
  table_get t id = LFunction f ->
  0 <= len < 2 ^ 16 ->
  len <= Z.of_nat (String.length pkt) ->
  script_execute_pkt event c pkt len s
  = Some (after_call event f
            [LLightUserdata c; LString (substring 0 (Z.to_nat len) pkt)]
            a l s).
Proof.
  intros Hl Hnz Hreg Ha Ht Hev Hb Hid Hf Hlen Hpkt.
  unfold script_execute_pkt.
  rewrite (bind_run get_scripts_ref _ s (scripts_ref s) s eq_refl).
  destruct (Z.eqb_spec (scripts_ref s) 0) as [|_]; [contradiction|].
  rewrite (script_fetch_handler s l reg a t event id Hl Hreg Ha Ht Hev Hb).
  destruct (Z.eqb_spec id 0) as [|_]; [contradiction|].
  rewrite Hf.
  erewrite bind_run; [|apply lua_push_run; reflexivity].
  assert (Hpush : lua_pushlstring pkt (len mod 2 ^ 16)
                  = push (LString (substring 0 (Z.to_nat len) pkt))).
  { rewrite Z.mod_small by exact Hlen. unfold lua_pushlstring.
    destruct (Z.leb_spec 0 len); [|lia].
    destruct (Z.leb_spec len (Z.of_nat (String.length pkt))); [|lia].
    reflexivity. }
  rewrite Hpush.
  erewrite bind_run; [|apply lua_push_run; reflexivity].
  change (script_call event 2)
    with (script_call event
            (Z.of_nat (length [LLightUserdata c;
                               LString (substring 0 (Z.to_nat len) pkt)]))).
  erewrite (script_call_run _ _ event f _ a (stack l));
    [|reflexivity|reflexivity].
  unfold after_call. destruct l; reflexivity.
Qed.

(** X14. With a function bound to the event, [script_execute_pkt]
    calls it once, on the client handle and the first [len] bytes of
    the packet, in that order.  It returns the handler's result
    converted to an integer and cut to an [int], or 0 with an error
    logged when the call fails or the result is not an integer; the
    interpreter's stack is as before the call. *)
Theorem X14_script_execute_pkt_calls_handler
    s l reg a t event id f c pkt len :
  lstate s = Some l ->
  scripts_ref s <> 0 ->
  heap l !! l_registry l = Some reg ->
  table_get reg (scripts_ref s) = LTable a ->
  heap l !! a = Some t ->
  0 <= event < ScriptActionCount ->
  binding s event = Some id -> id <> 0 ->
  table_get t id = LFunction f ->
  0 <= len < 2 ^ 16 ->
  len <= Z.of_nat (String.length pkt) ->
  script_execute_pkt event c pkt len s
  = Some (after_call event f
            [LLightUserdata c; LString (substring 0 (Z.to_nat len) pkt)]
            a l s).
Proof. apply script_execute_pkt_run. Qed.

(** X15. With a function bound to the event, [script_execute] on a run
    of well-formed tagged arguments closed by the tag 0 calls the
    handler once on the values of these arguments, in the order given,
    and returns as [script_execute_pkt] does, the stack as before. *)
Theorem X15_script_execute_passes_arguments_in_order
    s l reg a t event id f pre vs rest :
  lstate s = Some l ->
  scripts_ref s <> 0 ->
  heap l !! l_registry l = Some reg ->
  table_get reg (scripts_ref s) = LTable a ->
  heap l !! a = Some t ->
  0 <= event < ScriptActionCount ->
  binding s event = Some id -> id <> 0 ->
  table_get t id = LFunction f ->
  va_pushes pre vs ->
  script_execute event (pre ++ VaInt 0 :: rest) s
  = Some (after_call event f vs a l s).
Proof.
  intros Hl Hnz Hreg Ha Ht Hev Hb Hid Hf Hpre.
  unfold script_execute.
  rewrite (bind_run get_scripts_ref _ s (scripts_ref s) s eq_refl).
  destruct (Z.eqb_spec (scripts_ref s) 0) as [|_]; [contradiction|].
  rewrite (script_fetch_handler s l reg a t event id Hl Hreg Ha Ht Hev Hb).
  destruct (Z.eqb_spec id 0) as [|_]; [contradiction|].
  rewrite Hf.
  erewrite bind_run;
    [|erewrite (script_push_args_prefix pre vs Hpre); [|reflexivity];
      reflexivity].
  cbv beta iota. rewrite Z.add_0_l.
  erewrite (script_call_run _ _ event f vs a (stack l));
    [|reflexivity|reflexivity].
  unfold after_call. destruct l; reflexivity.
Qed.

End ScriptFurther.

Section ScriptTables.

Context `{LuaNumber} `{!LuaEnv}.

Lemma table_dense_size (t : gmap Z lua_value) k :
  table_dense t k -> 0 <= k -> size t = Z.to_nat k.
Proof.
  intros Hd Hk. rewrite <- size_dom.
  assert (Hdom : dom t = list_to_set (seqZ 1 k)).
  { apply set_eq. intros i.
    rewrite elem_of_dom, elem_of_list_to_set, elem_of_seqZ, (Hd i). lia. }
  rewrite Hdom, size_list_to_set by apply NoDup_seqZ.
  apply length_seqZ.
Qed.

Lemma border_dense_from (t : gmap Z lua_value) k fuel n :
  table_dense t k ->
  0 <= n <= k -> (Z.to_nat (k - n) < fuel)%nat ->
  border fuel t n = k.
Proof.
  intros Hd. revert n. induction fuel as [|fuel IH]; intros n Hn Hfuel; [lia|].
  simpl. destruct (t !! (n + 1)) as [v|] eqn:Hv.
  - assert (1 <= n + 1 <= k) by (apply Hd; eexists; exact Hv).
    apply IH; lia.
  - assert (Hnot : ~ (1 <= n + 1 <= k)).
    { intros Hin. apply Hd in Hin. destruct Hin as [v Hin]. congruence. }
    lia.
Qed.

Lemma border_dense (t : gmap Z lua_value) k :
  table_dense t k -> 0 <= k -> border (S (size t)) t 0 = k.
Proof.
  intros Hd Hk. apply border_dense_from; [exact Hd|lia|].
  rewrite (table_dense_size t k Hd Hk). lia.
Qed.

Lemma table_dense_freelist (t : gmap Z lua_value) k :
  table_dense t k -> table_get t freelist = LNil.
Proof.
  intros Hd. unfold table_get, freelist.
  destruct (t !! 0) as [v|] eqn:Hv; [|reflexivity].
  assert (1 <= 0 <= k) by (apply Hd; eexists; exact Hv). lia.
Qed.

Lemma table_dense_insert (t : gmap Z lua_value) k v :
  table_dense t k -> 0 <= k -> table_dense (<[k + 1 := v]> t) (k + 1).
Proof.
  intros Hd Hk i. rewrite lookup_insert. case_decide as Hi.
  - subst i. split; [lia|]. intros _. eexists. reflexivity.
  - rewrite (Hd i). lia.
Qed.

Lemma table_dense_empty : table_dense (∅ : gmap Z lua_value) 0.
Proof.
  intros i. rewrite lookup_empty. split; [intros [v Hv]; discriminate|lia].
Qed.

Lemma table_set_insert (t : gmap Z lua_value) k v :
  v <> LNil -> table_set t k v = <[k := v]> t.
Proof. intros Hv. destruct v; try reflexivity. contradiction. Qed.

Lemma lua_rawlen_at (l : lua_State) idx n a t :
  stack l !! n = Some (LTable a) ->
  idx = Z.of_nat (length (stack l)) - Z.of_nat n ->
  heap l !! a = Some t ->
  lua_rawlen idx l = Some (border (S (size t)) t 0, l).
Proof.
  intros Hn Hidx Ht. unfold lua_rawlen.
  rewrite (lbind_run _ _ l _ l (index2value_at l idx n _ Hn Hidx)).
  unfold lbind, hvalue. rewrite Ht. reflexivity.
Qed.

Lemma lua_rawlen_registry (l : lua_State) reg :
  heap l !! l_registry l = Some reg ->
  lua_rawlen LUA_REGISTRYINDEX l = Some (border (S (size reg)) reg 0, l).
Proof.
  intros Hreg. unfold lua_rawlen, lbind, index2value, hvalue.
  simpl. rewrite Hreg. reflexivity.
Qed.

(** [luaL_ref(L, -2)] on a dense table: the value on top goes to the
    slot after the last. *)
Lemma luaL_ref_second_fresh (l : lua_State) v a rest t k :
  stack l = v :: LTable a :: rest ->
  v <> LNil ->
  heap l !! a = Some t ->
  table_dense t k ->
  0 <= k < 2 ^ 31 - 1 ->
  luaL_ref (-2) l
  = Some (k + 1,
          set_stack (LTable a :: rest)
            (set_heap (<[a := <[k + 1 := v]> t]> (heap l)) l)).
Proof.
  intros Hs Hv Ht Hd Hk. destruct l as [stk hp rg nx pc].
  simpl in Hs, Ht. subst stk. unfold luaL_ref.
  erewrite lbind_run;
    [|unfold lua_isnil; erewrite lbind_run;
      [reflexivity|eapply index2value_top; reflexivity]].
  assert (Hnil : (match v with LNil => true | _ => false end) = false)
    by (destruct v; try reflexivity; contradiction).
  rewrite Hnil.
  rewrite (lbind_run _ _ _ _ _ (lua_absindex_second _)).
  erewrite lbind_run;
    [|eapply (lua_rawgeti_at _ _ 1); [reflexivity|simpl; lia|exact Ht]].
  rewrite (table_dense_freelist t k Hd).
  erewrite lbind_run;
    [|unfold lua_tointeger, lua_tointegerx;
      erewrite lbind_run; [|erewrite lbind_run;
        [reflexivity|eapply index2value_top; reflexivity]];
      reflexivity].
  cbn [fst]. change (to_int 0) with 0.
  erewrite lbind_run; [|eapply lua_pop_cons; reflexivity].
  change (negb (0 =? 0)) with false. cbv iota.
  erewrite lbind_run;
    [|erewrite lbind_run;
      [|eapply (lua_rawlen_at _ _ 1); [reflexivity|simpl; lia|exact Ht]];
      reflexivity].
  rewrite (border_dense t k Hd) by lia.
  rewrite (to_int_small k) by lia.
  erewrite lbind_run;
    [|eapply (lua_rawseti_at _ _ 1);
      [reflexivity|reflexivity|simpl; lia|exact Ht]].
  rewrite (table_set_insert t (k + 1) v Hv). reflexivity.
Qed.

(** [luaL_ref(L, LUA_REGISTRYINDEX)] on a dense registry. *)
Lemma luaL_ref_registry_fresh (l : lua_State) v rest reg k :
  stack l = v :: rest ->
  v <> LNil ->
  heap l !! l_registry l = Some reg ->
  table_dense reg k ->
  0 <= k < 2 ^ 31 - 1 ->
  luaL_ref LUA_REGISTRYINDEX l
  = Some (k + 1,
          set_stack rest
            (set_heap (<[l_registry l := <[k + 1 := v]> reg]> (heap l)) l)).
Proof.
  intros Hs Hv Hreg Hd Hk. destruct l as [stk hp rg nx pc].
  simpl in Hs, Hreg. subst stk. unfold luaL_ref.
  erewrite lbind_run;
    [|unfold lua_isnil; erewrite lbind_run;
      [reflexivity|eapply index2value_top; reflexivity]].
  assert (Hnil : (match v with LNil => true | _ => false end) = false)
    by (destruct v; try reflexivity; contradiction).
  rewrite Hnil.
  rewrite (lbind_run _ _ _ _ _ (lua_absindex_registry _)).
  erewrite lbind_run; [|eapply lua_rawgeti_registry; exact Hreg].
  rewrite (table_dense_freelist reg k Hd).
  erewrite lbind_run;
    [|unfold lua_tointeger, lua_tointegerx;
      erewrite lbind_run; [|erewrite lbind_run;
        [reflexivity|eapply index2value_top; reflexivity]];
      reflexivity].
  cbn [fst]. change (to_int 0) with 0.
  erewrite lbind_run; [|eapply lua_pop_cons; reflexivity].
  change (negb (0 =? 0)) with false. cbv iota.
  erewrite lbind_run;
    [|erewrite lbind_run; [|eapply lua_rawlen_registry; exact Hreg];
      reflexivity].
  rewrite (border_dense reg k Hd) by lia.
  rewrite (to_int_small k) by lia.
  erewrite lbind_run;
    [|eapply lua_rawseti_registry; [reflexivity|exact Hreg]].
  rewrite (table_set_insert reg (k + 1) v Hv). reflexivity.
Qed.

End ScriptTables.

Section ScriptLoading.

Context `{LuaNumber} `{!LuaEnv} `{!XmlEnv} `{!ScriptsHeader}.

(** [script_add_locked] when the file loads and the category has no
    binding, the script table being dense: the function goes to the
    slot after the last. *)
Lemma script_add_locked_fresh s l reg a t k action filename :
  lstate s = Some l ->
  heap l !! l_registry l = Some reg ->
  table_get reg (scripts_ref s) = LTable a ->
  heap l !! a = Some t ->
  table_dense t k ->
  0 <= k < 2 ^ 31 - 1 ->
  length (script_ids s) = Z.to_nat ScriptActionCount ->
  0 <= action < ScriptActionCount ->
  fst (loadfile_outcome filename) = LUA_OK ->
  binding s action = Some 0 ->
  script_add_locked (scripts_ref s) action filename s
  = Some (0,
          {| lstate :=
               Some {| stack := stack l;
                       heap := <[a := <[k + 1 :=
                                          LFunction {| cl_id := next_obj l;
                                                       cl_chunk := filename |}]>
                                        t]> (heap l);
                       l_registry := l_registry l;
                       next_obj := S (next_obj l);
                       pcalls := pcalls l |};
             scripts_ref := scripts_ref s;
             script_ids := <[Z.to_nat action := k + 1]> (script_ids s);
             debug_out := debug_out s ++ [(DBG_LOG, MsgAdded action (k + 1))] |}).
Proof.
  intros Hl Hreg Ha Ht Hd Hk Hlen Hact Hok Hb.
  destruct s as [ls ref ids dbg]. simpl in Hl, Ha, Hlen. subst ls.
  destruct l as [stk hp rg nx pc]. simpl in Hreg, Ht.
  unfold script_add_locked.
  erewrite bind_run;
    [|eapply lua_run; [reflexivity|apply lua_rawgeti_registry; exact Hreg]].
  cbn [scripts_ref]. rewrite Ha.
  erewrite bind_run;
    [|eapply lua_run; [reflexivity|apply luaL_loadfile_loaded; exact Hok]].
  cbv beta. cbn [negb is_LUA_OK]. cbv beta iota.
  erewrite bind_run; [|apply get_script_id_run; [exact Hact|exact Hb]].
  cbv beta. change (negb (0 =? 0)) with false. cbv iota.
  erewrite bind_run; [|reflexivity].
  erewrite bind_run;
    [|eapply lua_run;
      [reflexivity
      |eapply (luaL_ref_second_fresh _ _ _ _ t k);
        [reflexivity|discriminate|exact Ht|exact Hd|exact Hk]]].
  erewrite bind_run; [|apply put_script_id_run; [exact Hlen|exact Hact]].
  erewrite bind_run; [|reflexivity].
  erewrite bind_run;
    [|eapply lua_run; [reflexivity|eapply lua_pop_cons; reflexivity]].
  reflexivity.
Qed.

(** X16. On a loaded registry whose script table is dense (slots 1 to
    [k], nothing freed), [script_add] for a category without binding,
    once past the name test and with a file that loads, returns 0 and
    binds the category to the new slot [k + 1], which receives the
    function just loaded.  No other slot of the table and no other
    binding changes, no warning is logged, and the interpreter's stack
    is as before. *)
Theorem X16_register_unbound_takes_new_slot
    s l reg a t k realfn0 action filename :
  lstate s = Some l ->
  scripts_ref s <> 0 ->
  heap l !! l_registry l = Some reg ->
  table_get reg (scripts_ref s) = LTable a ->
  a <> l_registry l ->
  heap l !! a = Some t ->
  table_dense t k ->
  0 <= k < 2 ^ 31 - 1 ->
  length (script_ids s) = Z.to_nat ScriptActionCount ->
  0 <= action < ScriptActionCount ->
  binding s action = Some 0 ->
  nth 63 (snprintf realfn0 64 ("scripts/" ++ filename)) Ascii.zero
  = Ascii.zero ->
  fst (loadfile_outcome filename) = LUA_OK ->
  exists s' t',
    script_add realfn0 action filename s = Some (0, s') /\
    debug_out s' = debug_out s ++ [(DBG_LOG, MsgAdded action (k + 1))] /\
    binding s' action = Some (k + 1) /\
    (forall e, 0 <= e -> e <> action -> binding s' e = binding s e) /\
    scripts_table s' = Some (a, t') /\
    table_dense t' (k + 1) /\
    (forall i, i <> k + 1 -> t' !! i = t !! i) /\
    handler_of s' action
    = Some (LFunction {| cl_id := next_obj l; cl_chunk := filename |}) /\
    stack <$> lstate s' = Some (stack l).
Proof.
  intros Hl Hnz Hreg Ha Hne Ht Hd Hk Hlen Hact Hb Hnul Hok.
  assert (Hrun : script_add realfn0 action filename s
                 = script_add_locked (scripts_ref s) action filename s).
  { unfold script_add.
    rewrite (bind_run get_scripts_ref _ s (scripts_ref s) s eq_refl).
    destruct (Z.eqb_spec (scripts_ref s) 0) as [|_]; [contradiction|].
    cbv zeta. rewrite Hnul. reflexivity. }
  rewrite Hrun.
  rewrite (script_add_locked_fresh s l reg a t k action filename
             Hl Hreg Ha Ht Hd Hk Hlen Hact Hok Hb).
  match goal with
  | |- context [Some (0, ?st)] => set (s' := st)
  end.
  set (f := LFunction {| cl_id := next_obj l; cl_chunk := filename |}).
  assert (Hidx : (Z.to_nat action < length (script_ids s))%nat)
    by (rewrite Hlen; lia).
  assert (Hbind : binding s' action = Some (k + 1)).
  { unfold binding, s'. cbn [script_ids].
    apply list_lookup_insert_eq. exact Hidx. }
  assert (Htab : scripts_table s' = Some (a, <[k + 1 := f]> t)).
  { unfold scripts_table, s'. cbn [lstate heap l_registry scripts_ref].
    simpl. rewrite lookup_insert_ne by exact Hne. rewrite Hreg. simpl.
    rewrite Ha. rewrite lookup_insert_eq. reflexivity. }
  exists s', (<[k + 1 := f]> t). split; [reflexivity|].
  split; [reflexivity|]. split; [exact Hbind|]. split.
  { intros e He Hea. unfold binding, s'. cbn [script_ids].
    apply list_lookup_insert_ne. lia. }
  split; [exact Htab|]. split; [apply table_dense_insert; [exact Hd|lia]|].
  split.
  { intros i Hi. apply lookup_insert_ne. congruence. }
  split; [|reflexivity].
  unfold handler_of. rewrite Hbind. simpl.
  destruct (Z.eqb_spec (k + 1) 0); [lia|]. rewrite Htab. simpl.
  unfold table_get. rewrite lookup_insert_eq. reflexivity.
Qed.

Lemma entry_declares_none_skipped n :
  entry_declares n = None -> entry_skipped n = true.
Proof.
  unfold entry_declares, entry_skipped.
  destruct (xml_type n); try reflexivity.
  destruct (xmlStrcmp (xml_name n) "script" =? 0); [|reflexivity].
  destruct (xmlGetProp (xml_properties n) "event") as [event|]; [|reflexivity].
  destruct (xmlGetProp (xml_properties n) "file") as [file|]; [|reflexivity].
  destruct (script_action_to_index event =? ScriptActionInvalid);
    [reflexivity|discriminate].
Qed.

Lemma entry_declares_valid n idx file :
  entry_declares n = Some (idx, file) -> 0 <= idx < ScriptActionCount.
Proof.
  unfold entry_declares.
  destruct (xml_type n); try discriminate.
  destruct (xmlStrcmp (xml_name n) "script" =? 0); [|discriminate].
  destruct (xmlGetProp (xml_properties n) "event") as [event|]; [|discriminate].
  destruct (xmlGetProp (xml_properties n) "file") as [file'|]; [|discriminate].
  destruct (Z.eqb_spec (script_action_to_index event) ScriptActionInvalid)
    as [|Hvalid]; [discriminate|].
  intros Heq. inversion Heq; subst.
  apply script_action_to_index_valid. exact Hvalid.
Qed.

Lemma declarations_valid ns :
  Forall (fun d => 0 <= fst d < ScriptActionCount) (declarations ns).
Proof.
  unfold declarations. induction ns as [|n ns IH]; simpl; [constructor|].
  destruct (entry_declares n) as [[idx file]|] eqn:Hn; [|exact IH].
  constructor; [|exact IH]. simpl. eapply entry_declares_valid. exact Hn.
Qed.

(** One turn of the loop on a child that declares a script whose file
    loads, the new table being dense below the top of the stack. *)
Lemma script_eventlist_entry_loaded n s l a stk t k idx file :
  entry_declares n = Some (idx, file) ->
  fst (loadfile_outcome file) = LUA_OK ->
  lstate s = Some l ->
  stack l = LTable a :: stk ->
  heap l !! a = Some t ->
  table_dense t k ->
  0 <= k < 2 ^ 31 - 1 ->
  length (script_ids s) = Z.to_nat ScriptActionCount ->
  exists dbg,
    script_eventlist_entry n s
    = Some (tt,
            {| lstate :=
                 Some {| stack := stack l;
                         heap := <[a := <[k + 1 :=
                                            LFunction {| cl_id := next_obj l;
                                                         cl_chunk := file |}]>
                                          t]> (heap l);
                         l_registry := l_registry l;
                         next_obj := S (next_obj l);
                         pcalls := pcalls l |};
               scripts_ref := scripts_ref s;
               script_ids := <[Z.to_nat idx := k + 1]> (script_ids s);
               debug_out := debug_out s ++ dbg |}).
Proof.
  intros Hn Hok Hl Hs Ht Hd Hk Hlen.
  pose proof (entry_declares_valid n idx file Hn) as Hrange.
  destruct (binding_in_range s idx Hlen Hrange) as [id Hid].
  unfold entry_declares in Hn. unfold script_eventlist_entry.
  destruct (xml_type n); try discriminate.
  destruct (xmlStrcmp (xml_name n) "script" =? 0); [|discriminate].
  destruct (xmlGetProp (xml_properties n) "event") as [event|]; [|discriminate].
  destruct (xmlGetProp (xml_properties n) "file") as [file'|]; [|discriminate].
  destruct (script_action_to_index event =? ScriptActionInvalid);
    [discriminate|].
  inversion Hn; subst idx file'. cbn [negb].
  destruct s as [ls ref ids dbg0]. simpl in Hl, Hlen. subst ls.
  destruct l as [stk0 hp rg nx pc]. simpl in Hs, Ht. subst stk0.
  erewrite bind_run; [|apply get_script_id_run; [exact Hrange|exact Hid]].
  cbv beta.
  assert (Hwarn : exists d1 : list (debug_level * debug_msg),
            (if negb (id =? 0)
             then debug DBG_WARN (MsgRedefiningEvent event (xml_line n))
             else ret tt)
              (Build_script_state
                 (Some (Build_lua_State (LTable a :: stk) hp rg nx pc))
                 ref ids dbg0)
            = Some (tt, Build_script_state
                          (Some (Build_lua_State (LTable a :: stk) hp rg nx pc))
                          ref ids (dbg0 ++ d1))).
  { destruct (id =? 0); cbn [negb].
    - exists []. rewrite app_nil_r. reflexivity.
    - eexists [_]. reflexivity. }
  destruct Hwarn as [d1 Hwarn].
  rewrite (bind_run _ _ _ _ _ Hwarn).
  erewrite bind_run;
    [|eapply lua_run; [reflexivity|apply luaL_loadfile_loaded; exact Hok]].
  cbv beta. cbn [negb is_LUA_OK]. cbv beta iota.
  erewrite bind_run;
    [|eapply lua_run;
      [reflexivity
      |eapply (luaL_ref_second_fresh _ _ _ _ t k);
        [reflexivity|discriminate|exact Ht|exact Hd|exact Hk]]].
  erewrite bind_run; [|apply put_script_id_run; [exact Hlen|exact Hrange]].
  eexists (d1 ++ [_]). unfold debug, add_debug. simpl.
  rewrite <- app_assoc. reflexivity.
Qed.

(** The loop over the children: the declarations are loaded and bound in
    document order, the others only add warnings. *)
Lemma script_eventlist_entries_loaded ns :
  forall s l a stk t k,
    Forall (fun d => fst (loadfile_outcome (snd d)) = LUA_OK)
           (declarations ns) ->
    lstate s = Some l ->
    stack l = LTable a :: stk ->
    heap l !! a = Some t ->
    table_dense t k ->
    0 <= k ->
    k + Z.of_nat (length (declarations ns)) < 2 ^ 31 - 1 ->
    length (script_ids s) = Z.to_nat ScriptActionCount ->
    exists dbg,
      script_eventlist_entries ns s
      = Some (tt,
              {| lstate :=
                   Some {| stack := stack l;
                           heap := <[a := load_declared (declarations ns)
                                            (k + 1) (next_obj l) t]> (heap l);
                           l_registry := l_registry l;
                           next_obj :=
                             (next_obj l + length (declarations ns))%nat;
                           pcalls := pcalls l |};
                 scripts_ref := scripts_ref s;
                 script_ids :=
                   bind_declared (declarations ns) (k + 1) (script_ids s);
                 debug_out := debug_out s ++ dbg |}).
Proof.
  induction ns as [|n ns IH]; intros s l a stk t k Hok Hl Hs Ht Hd Hk Hsz Hlen.
  - exists []. simpl. rewrite app_nil_r, Nat.add_0_r.
    rewrite (insert_id (heap l) a t Ht).
    destruct s as [ls ref ids dbg0]. simpl in Hl. subst ls.
    destruct l; reflexivity.
  - unfold declarations in *. simpl in Hok, Hsz |- *.
    change (script_eventlist_entry n;; script_eventlist_entries ns)
      with (bind (script_eventlist_entry n)
                 (fun _ => script_eventlist_entries ns)).
    destruct (entry_declares n) as [[idx file]|] eqn:Hn.
    + simpl in Hok, Hsz |- *.
      apply Forall_cons in Hok. destruct Hok as [Hfile Hok]. simpl in Hfile.
      destruct (script_eventlist_entry_loaded n s l a stk t k idx file)
        as [d1 Hstep]; try assumption; [lia|].
      rewrite (bind_run _ _ _ _ _ Hstep).
      match type of Hstep with
      | _ = Some (_, Build_script_state (Some ?l1) ?r1 ?ids1 ?dbg1) =>
          destruct (IH (Build_script_state (Some l1) r1 ids1 dbg1) l1 a stk
                       (<[k + 1 := LFunction {| cl_id := next_obj l;
                                                cl_chunk := file |}]> t)
                       (k + 1) Hok) as [d2 Hrest]
      end.
      * reflexivity.
      * exact Hs.
      * apply lookup_insert_eq.
      * apply table_dense_insert; [exact Hd|exact Hk].
      * lia.
      * change (list_omap xmlNode (Z * string)%type entry_declares ns)
          with (omap entry_declares ns) in Hsz.
        lia.
      * simpl. rewrite length_insert. exact Hlen.
      * rewrite Hrest. exists (d1 ++ d2). simpl.
        rewrite insert_insert_eq, app_assoc, Nat.add_succ_r. reflexivity.
    + destruct (script_eventlist_entry_skipped n s
                  (entry_declares_none_skipped n Hn)) as [d1 [Hstep _]].
      rewrite (bind_run _ _ _ _ _ Hstep).
      destruct (IH (add_debugs d1 s) l a stk t k Hok) as [d2 Hrest];
        try assumption.
      rewrite Hrest. exists (d1 ++ d2). simpl. rewrite app_assoc.
      reflexivity.
Qed.

Lemma load_declared_below ds :
  forall j obj (t : gmap Z lua_value) p,
    p < j -> (load_declared ds j obj t !! p) = (t !! p).
Proof.
  induction ds as [|[idx file] ds IH]; intros j obj t p Hp; simpl;
    [reflexivity|].
  rewrite IH by lia. apply lookup_insert_ne. lia.
Qed.

Lemma load_declared_dense ds :
  forall j obj (t : gmap Z lua_value),
    table_dense t j -> 0 <= j ->
    table_dense (load_declared ds (j + 1) obj t) (j + Z.of_nat (length ds)).
Proof.
  induction ds as [|[idx file] ds IH]; intros j obj t Hd Hj; simpl length.
  - simpl. rewrite Z.add_0_r. exact Hd.
  - rewrite Nat2Z.inj_succ.
    replace (j + Z.succ (Z.of_nat (length ds)))
      with (j + 1 + Z.of_nat (length ds)) by lia.
    simpl. apply IH; [|lia]. apply table_dense_insert; assumption.
Qed.

Lemma last_declared_cons idx0 file0 ds idx :
  last_declared ((idx0, file0) :: ds) idx
  = match last_declared ds idx with
    | Some file => Some file
    | None => if decide (idx0 = idx) then Some file0 else None
    end.
Proof.
  unfold last_declared. rewrite filter_cons. simpl.
  destruct (decide (idx0 = idx)) as [Heq|Hne].
  - destruct (filter (fun d => fst d = idx) ds) as [|d ds'] eqn:Hf;
      [reflexivity|].
    rewrite last_cons.
    destruct (last (d :: ds')) eqn:Hlast; [reflexivity|].
    apply last_None in Hlast. discriminate.
  - destruct (last (filter (fun d => fst d = idx) ds)); reflexivity.
Qed.

(** Where the bindings and the table end up for one event: the slot of
    its last declaration, holding a function of that declaration's file;
    an event that is not declared keeps its binding. *)
Lemma declared_handler ds :
  forall j obj (t : gmap Z lua_value) ids idx,
    Forall (fun d => 0 <= fst d) ds ->
    0 <= idx ->
    (Z.to_nat idx < length ids)%nat ->
    match last_declared ds idx with
    | Some file =>
        exists p f,
          (bind_declared ds j ids !! Z.to_nat idx) = Some p /\
          j <= p /\
          (load_declared ds j obj t !! p) = Some (LFunction f) /\
          cl_chunk f = file
    | None =>
        (bind_declared ds j ids !! Z.to_nat idx) = (ids !! Z.to_nat idx)
    end.
Proof.
  induction ds as [|[idx0 file0] ds IH]; intros j obj t ids idx Hpos Hidx Hlen.
  - reflexivity.
  - apply Forall_cons in Hpos. destruct Hpos as [Hpos0 Hpos]. simpl in Hpos0.
    rewrite last_declared_cons. simpl bind_declared. simpl load_declared.
    specialize (IH (j + 1) (S obj)
                   (<[j := LFunction {| cl_id := obj; cl_chunk := file0 |}]> t)
                   (<[Z.to_nat idx0 := j]> ids) idx Hpos Hidx).
    rewrite length_insert in IH. specialize (IH Hlen).
    destruct (last_declared ds idx) as [file|].
    + destruct IH as (p & f & Hb & Hp & Ht & Hf).
      exists p, f. repeat split; try assumption. lia.
    + destruct (decide (idx0 = idx)) as [->|Hne].
      * exists j, {| cl_id := obj; cl_chunk := file0 |}.
        rewrite IH, list_lookup_insert_eq by exact Hlen.
        repeat split; [lia|].
        rewrite load_declared_below by lia. apply lookup_insert_eq.
      * rewrite IH. apply list_lookup_insert_ne. lia.
Qed.

(** [script_eventlist_read] from [xmlNewParserCtxt()] on, for a
    structurally valid document all of whose declared files load. *)
Lemma script_eventlist_parse_loaded fn s l root r reg' :
  lstate s = Some l ->
  document_of fn = Some root ->
  Forall (fun d => fst (loadfile_outcome (snd d)) = LUA_OK)
         (declarations (root_children root)) ->
  Z.of_nat (length (declarations (root_children root))) < 2 ^ 31 - 1 ->
  length (script_ids s) = Z.to_nat ScriptActionCount ->
  luaL_ref LUA_REGISTRYINDEX
    (entries_lua (declarations (root_children root)) l)
  = Some (r, loaded_lua (declarations (root_children root)) reg' l) ->
  exists dbg,
    script_eventlist_parse fn s
    = Some (0,
            {| lstate :=
                 Some (loaded_lua (declarations (root_children root)) reg' l);
               scripts_ref := r;
               script_ids :=
                 bind_declared (declarations (root_children root)) 1
                               (script_ids s);
               debug_out := debug_out s ++ dbg |}).
Proof.
  intros Hl Hdoc Hok Hsz Hlen Href.
  unfold document_of in Hdoc. unfold script_eventlist_parse.
  destruct xmlNewParserCtxt as [cxt|]; [|discriminate].
  destruct (xmlReadFile fn) as [doc|]; [|discriminate].
  destruct (xml_valid cxt =? 0); [discriminate|].
  destruct (xml_root doc) as [n|]; [|discriminate].
  destruct (xmlStrcmp (root_name n) "scripts" =? 0); [|discriminate].
  inversion Hdoc; subst n. cbn [negb].
  destruct s as [ls ref ids dbg0]. simpl in Hl, Hlen. subst ls.
  destruct l as [stk hp rg nx pc].
  erewrite bind_run; [|eapply lua_run; [reflexivity|reflexivity]].
  destruct (script_eventlist_entries_loaded (root_children root)
              (Build_script_state
                 (Some (Build_lua_State (LTable nx :: stk) (<[nx := ∅]> hp)
                                        rg (S nx) pc))
                 ref ids dbg0)
              (Build_lua_State (LTable nx :: stk) (<[nx := ∅]> hp)
                               rg (S nx) pc)
              nx stk ∅ 0 Hok) as [dbg Hloop].
  - reflexivity.
  - reflexivity.
  - apply lookup_insert_eq.
  - apply table_dense_empty.
  - lia.
  - lia.
  - exact Hlen.
  - rewrite (bind_run _ _ _ _ _ Hloop).
    unfold entries_lua in Href. simpl in Href.
    erewrite bind_run; [|eapply lua_run; [reflexivity|]].
    + exists dbg. reflexivity.
    + simpl. rewrite insert_insert_eq. exact Href.
Qed.

(** [luaL_ref(L, LUA_REGISTRYINDEX)] when the free list of the registry
    starts with the slot [r]: the value goes to that slot, and the free
    list goes on with what the slot held. *)
Lemma luaL_ref_registry_reuse (l : lua_State) v rest reg r :
  stack l = v :: rest ->
  v <> LNil ->
  heap l !! l_registry l = Some reg ->
  table_get reg freelist = LInteger r ->
  r <> 0 ->
  - 2 ^ 31 <= r < 2 ^ 31 ->
  luaL_ref LUA_REGISTRYINDEX l
  = Some (r,
          set_stack rest
            (set_heap
               (<[l_registry l :=
                    table_set (table_set reg freelist (table_get reg r)) r v]>
                  (heap l)) l)).
Proof.
  intros Hs Hv Hreg Hfree Hr Hsmall. destruct l as [stk hp rg nx pc].
  simpl in Hs, Hreg. subst stk. unfold luaL_ref.
  erewrite lbind_run;
    [|unfold lua_isnil; erewrite lbind_run;
      [reflexivity|eapply index2value_top; reflexivity]].
  assert (Hnil : (match v with LNil => true | _ => false end) = false)
    by (destruct v; try reflexivity; contradiction).
  rewrite Hnil.
  rewrite (lbind_run _ _ _ _ _ (lua_absindex_registry _)).
  erewrite lbind_run; [|eapply lua_rawgeti_registry; exact Hreg].
  rewrite Hfree.
  erewrite lbind_run;
    [|unfold lua_tointeger, lua_tointegerx;
      erewrite lbind_run; [|erewrite lbind_run;
        [reflexivity|eapply index2value_top; reflexivity]];
      reflexivity].
  cbn [fst]. rewrite (to_int_small r Hsmall).
  erewrite lbind_run; [|eapply lua_pop_cons; reflexivity].
  destruct (Z.eqb_spec r 0) as [|_]; [contradiction|]. cbn [negb].
  erewrite lbind_run;
    [|erewrite lbind_run; [|eapply lua_rawgeti_registry; exact Hreg];
      erewrite lbind_run;
        [reflexivity|eapply lua_rawseti_registry; [reflexivity|exact Hreg]]].
  erewrite lbind_run;
    [|eapply lua_rawseti_registry; [reflexivity|apply lookup_insert_eq]].
  simpl. rewrite insert_insert_eq. reflexivity.
Qed.

(** A slot of a dense registry freed by [luaL_unref] and taken again by
    [luaL_ref]: only that slot has changed. *)
Lemma unref_ref_registry (reg : gmap Z lua_value) kr r v :
  table_dense reg kr ->
  1 <= r <= kr ->
  v <> LNil ->
  table_set
    (table_set
       (table_set (table_set reg r (table_get reg freelist))
                  freelist (LInteger r))
       freelist
       (table_get (table_set (table_set reg r (table_get reg freelist))
                             freelist (LInteger r)) r))
    r v
  = <[r := v]> reg.
Proof.
  intros Hd Hr Hv.
  assert (Hz : reg !! 0 = None).
  { destruct (reg !! 0) as [x|] eqn:Hx; [|reflexivity].
    assert (1 <= 0 <= kr) by (apply Hd; eexists; exact Hx). lia. }
  rewrite (table_dense_freelist reg kr Hd).
  rewrite !table_get_set. unfold freelist.
  destruct (decide (0 = r)) as [|_]; [lia|].
  destruct (decide (r = r)) as [_|]; [|contradiction].
  rewrite (table_set_insert _ r v Hv). unfold table_set.
  apply map_eq. intros i.
  rewrite lookup_insert. case_decide as Hi; [rewrite Hi, lookup_insert_eq; reflexivity|].
  rewrite lookup_insert_ne by exact Hi.
  rewrite lookup_delete. case_decide as Hi0; [subst i; symmetry; exact Hz|].
  rewrite lookup_insert_ne by exact Hi0.
  rewrite lookup_delete_ne by exact Hi. reflexivity.
Qed.

Lemma loaded_scripts_table ds reg r (l : lua_State) ids dbg :
  next_obj l <> l_registry l ->
  table_get reg r = LTable (next_obj l) ->
  scripts_table {| lstate := Some (loaded_lua ds reg l);
                   scripts_ref := r;
                   script_ids := ids;
                   debug_out := dbg |}
  = Some (next_obj l, load_declared ds 1 (S (next_obj l)) ∅).
Proof.
  intros Hne Hr. unfold scripts_table, loaded_lua. simpl.
  rewrite lookup_insert_eq. simpl. rewrite Hr.
  rewrite lookup_insert_ne by (intros Heq; apply Hne; symmetry; exact Heq).
  rewrite lookup_insert_eq. reflexivity.
Qed.

Lemma loaded_lua_reload ds (reg1 reg2 reg' : gmap Z lua_value)
    (l : lua_State) :
  next_obj l <> l_registry l ->
  reg2 = reg' ->
  loaded_lua ds reg2 (set_heap (<[l_registry l := reg1]> (heap l)) l)
  = loaded_lua ds reg' l.
Proof.
  intros Hne ->. unfold loaded_lua, set_heap. simpl. f_equal.
  rewrite (insert_insert_ne (heap l) (next_obj l) (l_registry l)) by exact Hne.
  rewrite insert_insert_eq. reflexivity.
Qed.

Section ReadValid.

Variables (fn : string) (s : script_state) (l : lua_State) (root : xmlRoot)
          (reg : gmap Z lua_value) (kr : Z).

Local Abbreviation ds := (declarations (root_children root)).

Hypothesis Hlua : lstate s = Some l.
Hypothesis Hslot : 0 <= scripts_ref s <= kr.
Hypothesis Hdoc : document_of fn = Some root.
Hypothesis Hfiles :
  Forall (fun d => fst (loadfile_outcome (snd d)) = LUA_OK) ds.
Hypothesis Hreg : heap l !! l_registry l = Some reg.
Hypothesis Hdense : table_dense reg kr.
Hypothesis Hkr : kr < 2 ^ 31 - 1.
Hypothesis Hfresh : heap l !! next_obj l = None.
Hypothesis Hsize : Z.of_nat (length ds) < 2 ^ 31 - 1.
Hypothesis Hids : length (script_ids s) = Z.to_nat ScriptActionCount.

Lemma fresh_not_registry : next_obj l <> l_registry l.
Proof. intros Heq. rewrite Heq, Hreg in Hfresh. discriminate. Qed.

(** The run of [script_eventlist_read] on a structurally valid document
    all of whose declared files load: the new table takes the slot of
    the one it replaces, or the next slot of the registry. *)
Lemma script_eventlist_read_loaded :
  exists dbg,
    script_eventlist_read fn s
    = Some (0,
            {| lstate :=
                 Some (loaded_lua ds
                         (<[read_slot s kr := LTable (next_obj l)]> reg) l);
               scripts_ref := read_slot s kr;
               script_ids := bind_declared ds 1 (script_ids s);
               debug_out := debug_out s ++ dbg |}).
Proof.
  pose proof fresh_not_registry as Hne.
  unfold script_eventlist_read, read_slot.
  rewrite (bind_run get_scripts_ref _ s (scripts_ref s) s eq_refl).
  destruct (Z.eqb_spec (scripts_ref s) 0) as [Hz|Hnz]; cbn [negb].
  - rewrite (bind_run (ret tt) _ s tt s eq_refl).
    apply (script_eventlist_parse_loaded fn s l root); try assumption.
    erewrite (luaL_ref_registry_fresh _ _ _ reg kr);
      [reflexivity|reflexivity|discriminate| |exact Hdense|lia].
    simpl. rewrite lookup_insert_ne by exact Hne. exact Hreg.
  - erewrite bind_run;
      [|eapply lua_run; [exact Hlua|apply luaL_unref_registry; exact Hreg]].
    destruct (Z.leb_spec 0 (scripts_ref s)) as [_|]; [|lia].
    destruct s as [ls ref ids dbg0]. simpl in Hlua, Hslot, Hids, Hnz |- *.
    subst ls. destruct l as [stk hp rg nx pc].
    simpl in Hreg, Hfresh, Hne |- *.
    edestruct (script_eventlist_parse_loaded fn
                 (Build_script_state
                    (Some (Build_lua_State stk
                             (<[rg := table_set
                                        (table_set reg ref
                                           (table_get reg freelist))
                                        freelist (LInteger ref)]> hp)
                             rg nx pc))
                    ref ids dbg0)
                 (Build_lua_State stk
                    (<[rg := table_set
                               (table_set reg ref (table_get reg freelist))
                               freelist (LInteger ref)]> hp)
                    rg nx pc)
                 root ref) as [dbg Hrun];
      [reflexivity|exact Hdoc|exact Hfiles|exact Hsize|exact Hids| |].
    + erewrite luaL_ref_registry_reuse;
        [reflexivity|reflexivity|discriminate| | |exact Hnz|lia].
      * simpl. rewrite lookup_insert_ne by exact Hne. apply lookup_insert_eq.
      * unfold table_get. rewrite lookup_insert_eq. reflexivity.
    + exists dbg. etransitivity; [exact Hrun|].
      apply (f_equal
               (fun x => Some (0, Build_script_state (Some x) ref
                                    (bind_declared ds 1 ids) (dbg0 ++ dbg)))).
      apply (loaded_lua_reload ds _ _ _ (Build_lua_State stk hp rg nx pc));
        [exact Hne|].
      apply (unref_ref_registry reg kr ref);
        [exact Hdense|lia|discriminate].
Qed.

Lemma read_slot_table :
  table_get (<[read_slot s kr := LTable (next_obj l)]> reg) (read_slot s kr)
  = LTable (next_obj l).
Proof. unfold table_get. rewrite lookup_insert_eq. reflexivity. Qed.

(** X17. Reading a structurally valid document whose declared files all
    load returns 0 and leaves the stack as it was.  The new table is
    registered in the slot of the table it replaces, or in the next
    free slot of the registry when there was none, and holds one
    function per declaration.  An event that is declared is bound to a
    function compiled from the file of its last declaration; an event
    that is not declared keeps its binding. *)
Theorem X17_read_binds_last_declaration :
  exists s',
    script_eventlist_read fn s = Some (0, s') /\
    scripts_ref s' = read_slot s kr /\
    stack <$> lstate s' = Some (stack l) /\
    (exists t, scripts_table s' = Some (next_obj l, t) /\
               table_dense t (Z.of_nat (length ds))) /\
    forall event, 0 <= event < ScriptActionCount ->
      match last_declared ds event with
      | Some file =>
          exists f, handler_of s' event = Some (LFunction f) /\
                    cl_chunk f = file
      | None => binding s' event = binding s event
      end.
Proof.
  destruct script_eventlist_read_loaded as [dbg Hrun].
  eexists. split; [exact Hrun|].
  split; [reflexivity|]. split; [reflexivity|]. split.
  - eexists. split;
      [apply loaded_scripts_table;
        [apply fresh_not_registry|apply read_slot_table]|].
    apply (load_declared_dense ds 0); [apply table_dense_empty|lia].
  - intros event Hev.
    pose proof (declared_handler ds 1 (S (next_obj l)) ∅ (script_ids s) event)
      as Hh.
    destruct (last_declared ds event) as [file|].
    + destruct Hh as (p & f & Hb & Hp & Ht & Hf).
      * eapply Forall_impl; [apply declarations_valid|].
        intros d Hd. simpl in Hd. lia.
      * lia.
      * rewrite Hids. unfold ScriptActionCount in *. lia.
      * exists f. split; [|exact Hf].
        unfold handler_of, binding. simpl. rewrite Hb. simpl.
        destruct (Z.eqb_spec p 0) as [|_]; [lia|].
        rewrite loaded_scripts_table
          by (first [apply fresh_not_registry|apply read_slot_table]).
        simpl. unfold table_get. rewrite Ht. reflexivity.
    + unfold binding. simpl. apply Hh.
      * eapply Forall_impl; [apply declarations_valid|].
        intros d Hd. simpl in Hd. lia.
      * lia.
      * rewrite Hids. unfold ScriptActionCount in *. lia.
Qed.

(** X18. After such a read, a packet event of a declared category calls
    a function compiled from the file of the category's last
    declaration, once, on the client handle and the first [len] bytes of
    the packet. *)
Theorem X18_loaded_handler_is_called event file c pkt len :
  0 <= event < ScriptActionCount ->
  last_declared ds event = Some file ->
  0 <= len < 2 ^ 16 ->
  len <= Z.of_nat (String.length pkt) ->
  exists s' l' f,
    script_eventlist_read fn s = Some (0, s') /\
    lstate s' = Some l' /\
    cl_chunk f = file /\
    script_execute_pkt event c pkt len s'
    = Some (after_call event f
              [LLightUserdata c; LString (substring 0 (Z.to_nat len) pkt)]
              (next_obj l) l' s').
Proof.
  intros Hev Hlast Hlen Hpkt.
  destruct script_eventlist_read_loaded as [dbg Hrun].
  pose proof (declared_handler ds 1 (S (next_obj l)) ∅ (script_ids s) event)
    as Hh.
  rewrite Hlast in Hh. destruct Hh as (p & f & Hb & Hp & Ht & Hf).
  - eapply Forall_impl; [apply declarations_valid|].
    intros d Hd. simpl in Hd. lia.
  - lia.
  - rewrite Hids. unfold ScriptActionCount in *. lia.
  - eexists _, _, f. split; [exact Hrun|]. split; [reflexivity|].
    split; [exact Hf|].
    pose proof fresh_not_registry as Hne.
    eapply (script_execute_pkt_run _ _
              (<[read_slot s kr := LTable (next_obj l)]> reg)
              (next_obj l) (load_declared ds 1 (S (next_obj l)) ∅) event p).
    + reflexivity.
    + simpl. unfold read_slot. destruct (Z.eqb_spec (scripts_ref s) 0); lia.
    + simpl. apply lookup_insert_eq.
    + simpl. apply read_slot_table.
    + simpl.
      rewrite lookup_insert_ne by (intros Heq; apply Hne; symmetry; exact Heq).
      apply lookup_insert_eq.
    + exact Hev.
    + exact Hb.
    + lia.
    + unfold table_get. rewrite Ht. reflexivity.
    + exact Hlen.
    + exact Hpkt.
Qed.

(** X19. A reload changes the registry in the one slot of the script
    table, which it reuses, so the registry holds as many slots as
    before.  The bindings are not cleared: an event the new document
    does not declare keeps its slot number, which is then looked up in
    the new table. *)
Theorem X19_reload_reuses_slot_and_keeps_stale_bindings :
  scripts_ref s <> 0 ->
  exists s' l' reg' t,
    script_eventlist_read fn s = Some (0, s') /\
    scripts_ref s' = scripts_ref s /\
    lstate s' = Some l' /\
    heap l' !! l_registry l' = Some reg' /\
    reg' = <[scripts_ref s := LTable (next_obj l)]> reg /\
    table_dense reg' kr /\
    scripts_table s' = Some (next_obj l, t) /\
    forall event id,
      0 <= event < ScriptActionCount ->
      last_declared ds event = None ->
      binding s event = Some id -> id <> 0 ->
      handler_of s' event = Some (table_get t id).
Proof.
  intros Hnz.
  destruct script_eventlist_read_loaded as [dbg Hrun].
  assert (Hrs : read_slot s kr = scripts_ref s).
  { unfold read_slot. destruct (Z.eqb_spec (scripts_ref s) 0);
      [contradiction|reflexivity]. }
  rewrite Hrs in Hrun.
  eexists _, _, _, _. split; [exact Hrun|].
  split; [reflexivity|]. split; [reflexivity|].
  split; [simpl; apply lookup_insert_eq|]. split; [reflexivity|].
  split; [|split].
  - intros i. rewrite lookup_insert. case_decide as Hi.
    + subst i. split; [lia|]. intros _. eexists. reflexivity.
    + apply Hdense.
  - apply loaded_scripts_table; [apply fresh_not_registry|].
    unfold table_get. rewrite lookup_insert_eq. reflexivity.
  - intros event id Hev Hlast Hb Hid.
    pose proof (declared_handler ds 1 (S (next_obj l)) ∅ (script_ids s) event)
      as Hh.
    rewrite Hlast in Hh.
    unfold handler_of, binding. simpl. rewrite Hh.
    + unfold binding in Hb. rewrite Hb. simpl.
      destruct (Z.eqb_spec id 0) as [|_]; [contradiction|].
      rewrite loaded_scripts_table; [reflexivity|apply fresh_not_registry|].
      unfold table_get. rewrite lookup_insert_eq. reflexivity.
    + eapply Forall_impl; [apply declarations_valid|].
      intros d Hd. simpl in Hd. lia.
    + lia.
    + rewrite Hids. unfold ScriptActionCount in *. lia.
Qed.

End ReadValid.

End ScriptLoading.

(** ** The properties above on the sample states *)

Lemma table_dense_dom `{LuaNumber} (t : gmap Z lua_value) k :
  dom t = list_to_set (seqZ 1 k) -> table_dense t k.
Proof.
  intros Hdom i. rewrite <- elem_of_dom, Hdom, elem_of_list_to_set, elem_of_seqZ.
  lia.
Qed.

Lemma sample_started_ok : @script_state_ok sample_lua_number sample_started.
Proof.
  split.
  - reflexivity.
  - discriminate.
  - intros l Hl. inversion Hl; subst l. eexists. reflexivity.
Qed.

Lemma X8_witness : script_action_to_index "UNK_SHIP_PKT" = 6.
Proof.
  apply (proj1 X8_script_action_to_index_inverts_table 6%nat
           "UNK_SHIP_PKT"%string).
  reflexivity.
Defined.

Lemma X9_witness :
  exists dbg,
    @script_eventlist_entries sample_lua_number sample_lua_env sample_skipped
      sample_started
    = Some (tt, add_debugs dbg sample_started) /\
    (length dbg <= 4)%nat.
Proof.
  destruct (@X9_skipped_entries_only_warn sample_lua_number sample_lua_env
              sample_skipped sample_started)
    as (dbg & Hrun & Hlen & _).
  - repeat constructor.
  - exists dbg. split; [exact Hrun|exact Hlen].
Defined.

Lemma X10_witness :
  exists dbg,
    @script_eventlist_entry sample_lua_number sample_lua_env sample_missing
      sample_started
    = Some (tt,
            add_debugs dbg
              (put_lstate
                 (Some (set_stack [LString "cannot open missing.lua"]
                          sample_lua_State))
                 sample_started)).
Proof.
  destruct (@X10_failed_entry_leaves_message_on_stack sample_lua_number
              sample_lua_env sample_missing sample_started sample_lua_State
              "STARTUP" "missing.lua"
              eq_refl eq_refl eq_refl eq_refl
              ltac:(vm_compute; discriminate)
              eq_refl eq_refl eq_refl)
    as (dbg & Hrun & _).
  exists dbg. exact Hrun.
Defined.

Lemma X11_witness :
  @script_add sample_lua_number sample_lua_env sample_realfn0 0 "a.lua"
    (sample_bound [])
  = Some (-1, add_debug DBG_WARN MsgLongFilename (sample_bound [])).
Proof.
  apply (proj1 (@X11_short_filename_depends_on_stale_byte sample_lua_number
                  sample_lua_env sample_realfn0 0 "a.lua" (sample_bound [])
                  eq_refl ltac:(simpl; lia) ltac:(vm_compute; discriminate))).
  vm_compute. discriminate.
Defined.

Lemma X12_witness :
  script_ids (run_state (@script_remove sample_lua_number 0
                           (sample_bound [LTable 1])))
  = script_ids (sample_bound [LTable 1]).
Proof.
  pose proof (@X12_script_remove_keeps_bindings sample_lua_number 0
                (sample_bound [LTable 1])) as Hkeep.
  destruct (@script_remove sample_lua_number 0 (sample_bound [LTable 1]))
    as [[r s']|] eqn:Hrun.
  - exact (proj1 (Hkeep r s' eq_refl)).
  - vm_compute in Hrun. discriminate.
Defined.

Lemma X13_witness :
  exists s',
    @cleanup_scripts sample_lua_number sample_started = Some (tt, s') /\
    lstate s' = None /\
    scripts_ref s' = 0.
Proof.
  destruct (@X13_cleanup_disables_scripting sample_lua_number sample_lua_env
              sample_scripts_header sample_started sample_started_ok)
    as (s' & Hrun & Hnone & Href & _).
  exists s'. repeat split; assumption.
Defined.

Lemma X14_witness :
  @script_execute_pkt sample_lua_number sample_lua_env 6 1234 "packet" 6
    (sample_bound [])
  = Some (@after_call sample_lua_number sample_lua_env 6
            {| cl_id := 4; cl_chunk := "pkt.lua" |}
            [LLightUserdata 1234; LString "packet"]
            2%nat (sample_bound_lua []) (sample_bound [])).
Proof.
  apply (@X14_script_execute_pkt_calls_handler sample_lua_number
           sample_lua_env (sample_bound []) (sample_bound_lua [])
           sample_bound_registry 2%nat sample_script_table 6 2
           {| cl_id := 4; cl_chunk := "pkt.lua" |} 1234 "packet" 6).
  - reflexivity.
  - vm_compute. discriminate.
  - reflexivity.
  - reflexivity.
  - reflexivity.
  - zclosed.
  - reflexivity.
  - discriminate.
  - reflexivity.
  - zclosed.
  - zclosed.
Defined.

Lemma X15_witness :
  @script_execute sample_lua_number sample_lua_env sample_scripts_header
    0 ([VaInt 1; VaInt 5] ++ [VaInt 0]) (sample_bound [])
  = Some (@after_call sample_lua_number sample_lua_env 0
            {| cl_id := 3; cl_chunk := "startup.lua" |}
            [LInteger 5] 2%nat (sample_bound_lua []) (sample_bound [])).
Proof.
  apply (@X15_script_execute_passes_arguments_in_order sample_lua_number
           sample_lua_env sample_scripts_header (sample_bound [])
           (sample_bound_lua []) sample_bound_registry 2%nat
           sample_script_table 0 1
           {| cl_id := 3; cl_chunk := "startup.lua" |}
           [VaInt 1; VaInt 5] [LInteger 5] []).
  - reflexivity.
  - vm_compute. discriminate.
  - reflexivity.
  - reflexivity.
  - reflexivity.
  - zclosed.
  - reflexivity.
  - discriminate.
  - reflexivity.
  - apply (@va_pushes_int sample_lua_number sample_scripts_header 1 5 [] []).
    + discriminate.
    + reflexivity.
    + constructor.
Defined.

Lemma X16_witness :
  exists s',
    @script_add sample_lua_number sample_lua_env sample_realfn_zero 2
      "new.lua" (sample_bound [])
    = Some (0, s') /\
    binding s' 2 = Some 4 /\
    @handler_of sample_lua_number s' 2
    = Some (LFunction {| cl_id := 6; cl_chunk := "new.lua" |}).
Proof.
  destruct (@X16_register_unbound_takes_new_slot sample_lua_number
              sample_lua_env (sample_bound []) (sample_bound_lua [])
              sample_bound_registry 2%nat sample_script_table 3
              sample_realfn_zero 2 "new.lua")
    as (s' & t' & Hrun & _ & Hb & _ & _ & _ & _ & Hh & _).
  - reflexivity.
  - vm_compute. discriminate.
  - reflexivity.
  - reflexivity.
  - discriminate.
  - reflexivity.
  - apply table_dense_dom. reflexivity.
  - zclosed.
  - reflexivity.
  - zclosed.
  - reflexivity.
  - vm_compute. reflexivity.
  - reflexivity.
  - exists s'. repeat split; assumption.
Defined.

Lemma X17_witness :
  exists s',
    @script_eventlist_read sample_lua_number sample_lua_env sample_xml_env
      "scripts.xml" sample_started
    = Some (0, s') /\
    scripts_ref s' = 3 /\
    exists f, @handler_of sample_lua_number s' 6 = Some (LFunction f) /\
              cl_chunk f = "pkt.lua"%string.
Proof.
  destruct (@X17_read_binds_last_declaration sample_lua_number sample_lua_env
              sample_xml_env "scripts.xml" sample_started sample_lua_State
              sample_root sample_registry 2)
    as (s' & Hrun & Href & _ & _ & Hbind).
  - reflexivity.
  - zclosed.
  - reflexivity.
  - vm_compute. repeat constructor.
  - reflexivity.
  - apply table_dense_dom. reflexivity.
  - zclosed.
  - reflexivity.
  - zclosed.
  - reflexivity.
  - exists s'. split; [exact Hrun|]. split; [exact Href|].
    apply (Hbind 6). zclosed.
Defined.

Lemma X18_witness :
  exists s' l' f,
    @script_eventlist_read sample_lua_number sample_lua_env sample_xml_env
      "scripts.xml" sample_started
    = Some (0, s') /\
    lstate s' = Some l' /\
    cl_chunk f = "pkt.lua"%string /\
    @script_execute_pkt sample_lua_number sample_lua_env 6 1234 "packet" 6 s'
    = Some (@after_call sample_lua_number sample_lua_env 6 f
              [LLightUserdata 1234; LString "packet"]
              2%nat l' s').
Proof.
  apply (@X18_loaded_handler_is_called sample_lua_number sample_lua_env
           sample_xml_env "scripts.xml" sample_started sample_lua_State
           sample_root sample_registry 2).
  - reflexivity.
  - zclosed.
  - reflexivity.
  - vm_compute. repeat constructor.
  - reflexivity.
  - apply table_dense_dom. reflexivity.
  - zclosed.
  - reflexivity.
  - zclosed.
  - reflexivity.
  - zclosed.
  - reflexivity.
  - zclosed.
  - zclosed.
Defined.

Lemma X19_witness :
  exists s' t,
    @script_eventlist_read sample_lua_number sample_lua_env sample_xml_env
      "scripts.xml" (sample_bound [])
    = Some (0, s') /\
    scripts_ref s' = 3 /\
    scripts_table s' = Some (6%nat, t) /\
    @handler_of sample_lua_number s' 1 = Some (table_get t 3).
Proof.
  destruct (@X19_reload_reuses_slot_and_keeps_stale_bindings sample_lua_number
              sample_lua_env sample_xml_env "scripts.xml" (sample_bound [])
              (sample_bound_lua []) sample_root sample_bound_registry 3)
    as (s' & l' & reg' & t & Hrun & Href & _ & _ & _ & _ & Ht & Hstale).
  - reflexivity.
  - zclosed.
  - reflexivity.
  - vm_compute. repeat constructor.
  - reflexivity.
  - apply table_dense_dom. reflexivity.
  - zclosed.
  - reflexivity.
  - zclosed.
  - reflexivity.
  - vm_compute. discriminate.
  - exists s', t. split; [exact Hrun|]. split; [exact Href|].
    split; [exact Ht|].
    apply (Hstale 1 3); [zclosed|reflexivity|reflexivity|discriminate].
Defined.
